(** * MISC-Debugger: a shallow embedding of the debug adapter and its runtimes

    The repository holds several iterations of the same runtime front end:
    - [MockRuntime]    the standalone mock [RuntimeAdapter] (no backend at all);
    - [StreamRuntime]  the socket-based [RuntimeAdapter] with [getJsonArray];
    - [HttpMock]       [src/mockRuntime.ts], the first HTTP [RuntimeAdapter];
    - [RuntimeClient]  [src/runtimeClient.ts], the HTTP client used by
    - [DebugSession]   [src/debugSession.ts].
    The execution backend is not part of the repository: the client and the
    session are read against any backend, and [SpecBackend] holds the ones
    that the examples run on.

    JavaScript numbers that hold line numbers are modelled as [Z], strings as
    [string] (one [ascii] per code unit; upper-casing is followed on the
    ASCII range, the printing of numbers on the safe integers), objects as
    association lists in insertion order, promises by their final state. *)

From Stdlib Require Import ZArith String Ascii List Bool Lia DecimalString.
From stdpp Require Import base list gmap.
Import ListNotations.
Local Open Scope string_scope.
Local Open Scope list_scope.
Local Open Scope Z_scope.
Set Warnings "-register-all,-clear-no-such-hyp".

(* ===================================================================== *)
(** ** JavaScript values, property access, promises *)
(* ===================================================================== *)

Module JS.

Inductive value : Type :=
| VUndefined
| VNull
| VBool (b : bool)
| VNum (n : Z)
| VStr (s : string)
| VArr (items : list value)
| VObj (fields : list (string * value)).

(** Outcome of evaluating an expression: a value, or a thrown TypeError. *)
Inductive completion (A : Type) : Type :=
| Normal (a : A)
| Throw.
Arguments Normal {A} a.
Arguments Throw {A}.

(** Final state of a promise: [Pending] is a promise nobody ever settles. *)
Inductive promise (A : Type) : Type :=
| Fulfilled (a : A)
| Rejected
| Pending.
Arguments Fulfilled {A} a.
Arguments Rejected {A}.
Arguments Pending {A}.

(** ToBoolean. *)
Definition truthy (v : value) : bool :=
  match v with
  | VUndefined | VNull => false
  | VBool b => b
  | VNum n => negb (n =? 0)
  | VStr s => negb (String.eqb s EmptyString)
  | VArr _ | VObj _ => true
  end.

Fixpoint assoc (k : string) (o : list (string * value)) : option value :=
  match o with
  | [] => None
  | (k', v) :: rest => if String.eqb k k' then Some v else assoc k rest
  end.

(** [v.k] for a named (non-index, non-builtin) property [k]: a TypeError on
    [null] and [undefined], [undefined] where the property is missing. *)
Definition get (v : value) (k : string) : completion value :=
  match v with
  | VUndefined | VNull => Throw
  | VObj o => Normal (match assoc k o with Some x => x | None => VUndefined end)
  | _ => Normal VUndefined
  end.

(** [v?.k]. *)
Definition get_opt (v : value) (k : string) : value :=
  match get v k with Normal x => x | Throw => VUndefined end.

(** [a || b]. *)
Definition or (a b : value) : value := if truthy a then a else b.

(** [o[k] = v] on an ordinary object: overwrite in place, else append. *)
Fixpoint set (k : string) (v : value) (o : list (string * value))
  : list (string * value) :=
  match o with
  | [] => [(k, v)]
  | (k', v') :: rest =>
      if String.eqb k k' then (k', v) :: rest else (k', v') :: set k v rest
  end.

(** [o[k] = v] as an assignment to an object that was created by [{}]:
    under the key [__proto__] the value goes to the setter that the object
    inherits, and the object is left without an own property of that name. *)
Definition assign (k : string) (v : value) (o : list (string * value))
  : list (string * value) :=
  if String.eqb k "__proto__" then o else set k v o.

(** The decimal numeral of an array index. *)
Definition index_key (i : nat) : string :=
  NilEmpty.string_of_uint (Nat.to_uint i).

Fixpoint indexed {A} (i : nat) (l : list A) : list (string * A) :=
  match l with
  | [] => []
  | x :: rest => (index_key i, x) :: indexed (S i) rest
  end.

Fixpoint chars (s : string) : list value :=
  match s with
  | EmptyString => []
  | String c rest => VStr (String c EmptyString) :: chars rest
  end.

(** The own enumerable properties that an object spread [{ ...v }] copies:
    none for [null], [undefined], booleans and numbers. *)
Definition own_properties (v : value) : list (string * value) :=
  match v with
  | VObj o => o
  | VArr items => indexed 0 items
  | VStr s => indexed 0 (chars s)
  | _ => []
  end.

(** [Object.keys(o)], for keys that are not array indices. *)
Definition keys (o : list (string * value)) : list string := map fst o.

(** The code units of the ASCII range. *)
Definition ascii_unit (c : ascii) : bool := Nat.ltb (nat_of_ascii c) 128.

(** [c.toUpperCase()] on one code unit of the ASCII range. This is where
    the model follows the upper-casing of JavaScript: beyond that range it
    leads out of the code units of [ascii] or is longer than one unit, and
    the statements that depend on it are made for ASCII first letters. *)
Definition toUpperCase (c : ascii) : ascii :=
  let n := nat_of_ascii c in
  if (Nat.leb 97 n && Nat.leb n 122)%bool then ascii_of_nat (n - 32) else c.

(** [s.split(/\r?\n/)]. *)
Fixpoint split_lines (s : string) : list string :=
  match s with
  | EmptyString => [EmptyString]
  | String c rest =>
      if Ascii.eqb c "010"%char then EmptyString :: split_lines rest
      else
        match c, rest with
        | "013"%char, String "010"%char _ => split_lines rest
        | _, _ =>
            match split_lines rest with
            | h :: t => String c h :: t
            | [] => [String c EmptyString]
            end
        end
  end.

End JS.

(** A notification sent through [sendEvent(event, ...args)]. *)
Definition Event : Type := JS.value * list JS.value.

Definition ev (name : string) (args : list JS.value) : Event :=
  (JS.VStr name, args).

Definition named (n : string) (e : Event) : bool :=
  match fst e with JS.VStr s => String.eqb s n | _ => false end.

Definition count_named (n : string) (evs : list Event) : nat :=
  List.length (List.filter (named n) evs).

(* ===================================================================== *)
(** ** The standalone mock runtime ([RuntimeAdapter] without a backend) *)
(* ===================================================================== *)

Module MockRuntime.

Record state : Type := {
  sourcePath : option string;
  sourceText : option string;
  sourceLines : option (list string);
  __mockLine : Z
}.

Definition init : state :=
  {| sourcePath := None; sourceText := None; sourceLines := None;
     __mockLine := 0 |}.

Record RuntimeBreakpoint : Type := {
  verified : bool;
  line : Z;
  id : Z
}.

(** [this.sourceLines?.length || 0]. *)
Definition lineCount (s : state) : Z :=
  match sourceLines s with
  | Some ls => Z.of_nat (List.length ls)
  | None => 0
  end.

(** [sourceLines[i]]: [undefined] out of range. *)
Definition lineAt (ls : list string) (i : Z) : JS.value :=
  if i <? 0 then JS.VUndefined
  else match nth_error ls (Z.to_nat i) with
       | Some t => JS.VStr t
       | None => JS.VUndefined
       end.

Definition path_value (s : state) : JS.value :=
  match sourcePath s with Some p => JS.VStr p | None => JS.VUndefined end.

(** [getLineInformation] resolves [{ line: __mockLine }]; [printLine] sends
    one 'output' notification (the column is [undefined]). *)
Definition printLine (s : state) : list Event :=
  let l := __mockLine s in
  [ev "output"
    [match sourceLines s with Some ls => lineAt ls l | None => JS.VNull end;
     path_value s; JS.VNum l; JS.VUndefined]].

(** [start(path, stopAtEntry)], with [readFile] the injected file reader
    ([None]: the read is rejected, and the promise is never settled). *)
Definition start (readFile : string -> option string) (path : string)
    (stopAtEntry : bool) (s : state)
  : state * list Event * JS.promise (bool * option string) :=
  match readFile path with
  | None =>
      ({| sourcePath := Some path; sourceText := sourceText s;
          sourceLines := sourceLines s; __mockLine := __mockLine s |},
       [], JS.Pending)
  | Some text =>
      let s' := {| sourcePath := Some path; sourceText := Some text;
                   sourceLines := Some (JS.split_lines text);
                   __mockLine := __mockLine s |} in
      (s', ev "stopOnEntry" [] :: printLine s', JS.Fulfilled (false, None))
  end.

Definition clearBreakpoints (s : state) : state * list Event * JS.promise unit :=
  (s, [], JS.Fulfilled tt).

Definition setBreakPoint (l : Z) (s : state)
  : state * list Event * JS.promise RuntimeBreakpoint :=
  (s, [], JS.Fulfilled {| verified := false; line := l; id := l |}).

Definition step (s : state) : state * list Event * JS.promise bool :=
  if __mockLine s <? lineCount s - 1 then
    let s' := {| sourcePath := sourcePath s; sourceText := sourceText s;
                 sourceLines := sourceLines s;
                 __mockLine := __mockLine s + 1 |} in
    (s', ev "stopOnStep" [] :: printLine s', JS.Fulfilled false)
  else
    (s, [ev "end" []], JS.Fulfilled true).

Record RuntimeStackframe : Type := {
  index : Z;
  name : string;
  file : string;
  frame_line : Z
}.

(** [getStackFrames]: the one frame of the current line, and the count. *)
Definition getStackFrames (s : state)
  : state * list Event * JS.promise (list RuntimeStackframe * Z) :=
  (s, [],
   JS.Fulfilled
     ([{| index := 0;
          name := "Line " ++ NilZero.string_of_int (Z.to_int (__mockLine s));
          file := match sourcePath s with Some p => p | None => EmptyString end;
          frame_line := __mockLine s |}], 1)).

(** [continue()]: [while (true) { const end = await this.step(); if (end)
    break; }] then [resolve()]. The loop is run on [fuel]; the last
    component counts the calls of [step] that were made. *)
Fixpoint continue (fuel : nat) (s : state)
  : option (state * list Event * JS.promise unit * nat) :=
  match fuel with
  | O => None
  | S fuel' =>
      match step s with
      | (s1, evs, JS.Fulfilled true) => Some (s1, evs, JS.Fulfilled tt, 1%nat)
      | (s1, evs, JS.Fulfilled false) =>
          match continue fuel' s1 with
          | Some (s2, evs2, p, n) => Some (s2, evs ++ evs2, p, S n)
          | None => None
          end
      | (s1, evs, _) => Some (s1, evs, JS.Pending, 1%nat)
      end
  end.

(** The calls of [step] that [continue] makes from [s]: one per line that
    remains, and the one that ends. *)
Definition calls (s : state) : nat :=
  S (Z.to_nat (lineCount s - 1 - __mockLine s)).

(** The operations a session can invoke on the runtime. *)
Inductive op : Type :=
| OpStart (path : string) (stopAtEntry : bool)
| OpClearBreakpoints
| OpSetBreakPoint (l : Z)
| OpStep
| OpGetStackFrames
| OpContinue.

Definition run_op (readFile : string -> option string) (o : op) (s : state)
  : state * list Event :=
  match o with
  | OpStart p e => let '(s', evs, _) := start readFile p e s in (s', evs)
  | OpClearBreakpoints => let '(s', evs, _) := clearBreakpoints s in (s', evs)
  | OpSetBreakPoint l => let '(s', evs, _) := setBreakPoint l s in (s', evs)
  | OpStep => let '(s', evs, _) := step s in (s', evs)
  | OpGetStackFrames => let '(s', evs, _) := getStackFrames s in (s', evs)
  | OpContinue =>
      match continue (calls s) s with
      | Some (s', evs, _, _) => (s', evs)
      | None => (s, [])
      end
  end.

Fixpoint run_ops (readFile : string -> option string) (os : list op)
    (s : state) : state * list Event :=
  match os with
  | [] => (s, [])
  | o :: rest =>
      let '(s1, evs1) := run_op readFile o s in
      let '(s2, evs2) := run_ops readFile rest s1 in
      (s2, evs1 ++ evs2)
  end.

(** Spec side of [continue]: calling [step()] again and again until it
    reports the end of the program; [n] calls, notifications [evs]. *)
Inductive steps_until_end : state -> nat -> state -> list Event -> Prop :=
| sue_last s s' evs :
    step s = (s', evs, JS.Fulfilled true) ->
    steps_until_end s 1 s' evs
| sue_more s s1 evs n s2 evs2 :
    step s = (s1, evs, JS.Fulfilled false) ->
    steps_until_end s1 n s2 evs2 ->
    steps_until_end s (S n) s2 (evs ++ evs2).

End MockRuntime.

(* ===================================================================== *)
(** ** The HTTP transport shared by [HttpMock] and [RuntimeClient] *)
(* ===================================================================== *)

Module Http.

Inductive method : Type := GET | POST | PATCH.

Inductive controller : Type :=
| CBreakpoint | CVariable | CDebug | CStackframe.

(** One [fetch] to [http://localhost:5000/${controller}/${endpoint}]; the
    body is the object that is handed to the JSON serialiser. *)
Record Request : Type := {
  method_ : method;
  controller_ : controller;
  endpoint : string;
  body : option JS.value
}.

(** What [fetch(...).then(response => response.json())] comes to: the
    promise of [fetch] is rejected, the one of [json()] is, or a value. *)
Inductive outcome : Type :=
| ConnectionRefused
| MalformedReply
| Reply (v : JS.value).

Definition failed (o : outcome) : bool :=
  match o with Reply _ => false | _ => true end.

End Http.

(** A state monad over the world a runtime front end acts on. *)
Module Monad.
Section WithWorld.
Context {W : Type}.
Definition M (A : Type) : Type := W -> A * W.
Definition ret {A} (a : A) : M A := fun w => (a, w).
Definition bind {A B} (m : M A) (k : A -> M B) : M B :=
  fun w => let '(a, w') := m w in k a w'.
End WithWorld.
Arguments M : clear implicits.
End Monad.

Notation "'let!' x ':=' c1 'in' c2" := (Monad.bind c1 (fun x => c2))
  (at level 10, x name, c1 at level 100, c2 at level 200, only parsing).

(* ===================================================================== *)
(** ** [src/runtimeClient.ts]: class [RuntimeClient] and [formatKeysAPI] *)
(* ===================================================================== *)

Module RuntimeClient.

(** [`${key[0].toUpperCase()}${key.substring(1)}`]; [key[0]] of the empty
    string is [undefined], whose [toUpperCase] is a TypeError. *)
Definition formatKey (key : string) : JS.completion string :=
  match key with
  | EmptyString => JS.Throw
  | String c rest => JS.Normal (String (JS.toUpperCase c) rest)
  end.

(** The [for (const key of keys)] loop, [result] being the accumulator. *)
Fixpoint formatKeys_loop (value : list (string * JS.value))
    (keys : list string) (result : list (string * JS.value))
  : JS.completion (list (string * JS.value)) :=
  match keys with
  | [] => JS.Normal result
  | key :: rest =>
      match formatKey key with
      | JS.Throw => JS.Throw
      | JS.Normal fkey =>
          formatKeys_loop value rest
            (JS.assign fkey
               (match JS.assoc key value with
                | Some v => v
                | None => JS.VUndefined
                end) result)
      end
  end.

Definition formatKeysAPI (value : list (string * JS.value))
  : JS.completion (list (string * JS.value)) :=
  formatKeys_loop value (JS.keys value) [].

Section Client.

(** The execution backend behind [localhost:5000] and the file reader
    are outside the repository: the client is read against any of them. *)
Variable Backend : Type.
Variable serve : Http.Request -> Backend -> Http.outcome * Backend.
Variable readFile : string -> option string.

Record world : Type := {
  backend : Backend;
  sent : list Http.Request;
  emitted : list Event;
  sourcePath : option string;
  sourceText : option string
}.

Definition M := Monad.M world.

(** [sendEvent]: the notification is queued with [setImmediate]. *)
Definition sendEvent (event : JS.value) (args : list JS.value) : M unit :=
  fun w => (tt, {| backend := backend w; sent := sent w;
                   emitted := emitted w ++ [(event, args)];
                   sourcePath := sourcePath w;
                   sourceText := sourceText w |}).

Definition fetch (r : Http.Request) : M Http.outcome :=
  fun w => let '(o, b) := serve r (backend w) in
           (o, {| backend := b; sent := sent w ++ [r];
                  emitted := emitted w; sourcePath := sourcePath w;
                  sourceText := sourceText w |}).

Definition setSource (path : string) (text : option string) : M unit :=
  fun w => (tt, {| backend := backend w; sent := sent w;
                   emitted := emitted w; sourcePath := Some path;
                   sourceText := match text with
                                 | Some t => Some t
                                 | None => sourceText w
                                 end |}).

Definition getSourcePath : M (option string) := fun w => (sourcePath w, w).

(** The request that [fetch] is given: the body, when there is one, is
    [JSON.stringify(formatKeysAPI(body))]. *)
Definition prepare (m : Http.method) (c : Http.controller) (e : string)
    (body : option (list (string * JS.value)))
  : JS.completion Http.Request :=
  match body with
  | None =>
      JS.Normal {| Http.method_ := m; Http.controller_ := c;
                   Http.endpoint := e; Http.body := None |}
  | Some b =>
      match formatKeysAPI b with
      | JS.Normal fb =>
          JS.Normal {| Http.method_ := m; Http.controller_ := c;
                       Http.endpoint := e;
                       Http.body := Some (JS.VObj fb) |}
      | JS.Throw => JS.Throw
      end
  end.

(** [handleError]: what the observer is given on a failure. *)
Definition delivered (o : Http.outcome) : JS.value :=
  match o with Http.Reply v => v | _ => JS.VNull end.

Definition end_if_failed (o : Http.outcome) : M unit :=
  if Http.failed o then sendEvent (JS.VStr "end") [] else Monad.ret tt.

(** [request(method, controller, endpoint, body)] subscribed with the
    handler [next]. A reply goes to [next]; on a failure [handleError]
    hands [null] to [next], completes and sends 'end'. The handler
    returns the state in which it leaves the promise of the caller: a
    handler that throws before it calls [resolve] leaves it [Pending]
    (the observable reports the exception out of band). *)
Definition request {A} (m : Http.method) (c : Http.controller)
    (e : string) (body : option (list (string * JS.value)))
    (next : JS.value -> M (JS.promise A)) : M (JS.promise A) :=
  match prepare m c e body with
  | JS.Throw => Monad.ret JS.Pending
  | JS.Normal r =>
      let! o := fetch r in
      let! p := next (delivered o) in
      let! _ := end_if_failed o in
      Monad.ret p
  end.

(** [start]: [forkJoin] of the Load and the Start request. Both are sent
    at once, Load first, and their replies complete in either order:
    [loadLast] says that the one to Load completes last. The handler of
    [forkJoin] runs inside the [complete] of the request that completes
    last, and [handleError] sends its 'end' after that [complete]: the
    'end' of the request that completes first is sent before the handler
    runs, the 'end' of the one that completes last after it. *)
Definition start (path : string) (stopOnEntry : bool) (loadLast : bool)
  : M (JS.promise JS.value) :=
  let! _ := setSource path (readFile path) in
  match readFile path with
  | None => Monad.ret JS.Pending
  | Some text =>
      match prepare Http.POST Http.CDebug "Load" (Some [("file", JS.VStr text)]),
            prepare Http.POST Http.CDebug "Start"
              (Some [("stopOnEntry", JS.VBool stopOnEntry)]) with
      | JS.Normal r0, JS.Normal r1 =>
          let! o0 := fetch r0 in
          let! o1 := fetch r1 in
          let! _ := end_if_failed (if loadLast then o1 else o0) in
          let error := JS.or (JS.get_opt (delivered o0) "error")
                             (JS.get_opt (delivered o1) "error") in
          let event := JS.or (JS.get_opt (delivered o1) "event")
                             (JS.VStr EmptyString) in
          let! _ := (if (negb (JS.truthy error) && JS.truthy event)%bool
                     then sendEvent event [] else Monad.ret tt) in
          let! _ := end_if_failed (if loadLast then o0 else o1) in
          Monad.ret (JS.Fulfilled
                       (JS.VObj [("error", error); ("event", event)]))
      | _, _ => Monad.ret JS.Pending
      end
  end.

Definition getBreakpoints : M (JS.promise JS.value) :=
  request Http.GET Http.CBreakpoint "Get" None
    (fun data => Monad.ret (JS.Fulfilled data)).

Definition setBreakPoint (line : Z) : M (JS.promise JS.value) :=
  request Http.POST Http.CBreakpoint "Set" (Some [("line", JS.VNum line)])
    (fun data => Monad.ret (JS.Fulfilled data)).

Definition clearBreakpoints : M (JS.promise unit) :=
  request Http.PATCH Http.CBreakpoint "Clear" None
    (fun _ => Monad.ret (JS.Fulfilled tt)).

Definition step : M (JS.promise JS.value) :=
  request Http.PATCH Http.CDebug "Step" None
    (fun data =>
       match JS.get data "event" with
       | JS.Throw => Monad.ret JS.Pending
       | JS.Normal ev =>
           let! _ := (if JS.truthy ev
                      then sendEvent (JS.get_opt data "event") []
                      else Monad.ret tt) in
           Monad.ret (JS.Fulfilled data)
       end).

(** [{ ...v, k: x }]: the own enumerable properties of [v], then [k]. *)
Definition spread_with (v : JS.value) (k : string) (x : JS.value)
  : JS.value :=
  JS.VObj (JS.set k x (JS.own_properties v)).

Definition getStackFrames : M (JS.promise JS.value) :=
  request Http.GET Http.CStackframe "Get" None
    (fun data =>
       let! path := getSourcePath in
       let file := match path with Some p => p | None => EmptyString end in
       match JS.get data "frames" with
       | JS.Throw => Monad.ret JS.Pending
       | JS.Normal fs =>
           match JS.or fs (JS.VArr []) with
           | JS.VArr items =>
               let frames :=
                 List.map (fun item => spread_with item "file" (JS.VStr file))
                          items in
               Monad.ret (JS.Fulfilled
                            (spread_with data "frames" (JS.VArr frames)))
           | _ => Monad.ret JS.Pending
           end
       end).

(** [continue()]: the executor of the promise has no statement left. *)
Definition continue : M (JS.promise unit) := Monad.ret JS.Pending.

Definition getVariables : M (JS.promise JS.value) :=
  request Http.GET Http.CVariable "Get" None
    (fun data => Monad.ret (JS.Fulfilled data)).

Definition disconnect : M unit := Monad.ret tt.

End Client.

Arguments backend {Backend} w.
Arguments sent {Backend} w.
Arguments emitted {Backend} w.
Arguments sourcePath {Backend} w.
Arguments sourceText {Backend} w.

End RuntimeClient.

(* ===================================================================== *)
(** ** [src/debugSession.ts]: class [DebugSession] *)
(* ===================================================================== *)

Module DebugSession.

(** Modelled from the spec: the Coordinate Translator, which the session
    inherits from [LoggingDebugSession] (package vscode-debugadapter, not
    under src/). Each side counts lines and columns from 0 or from 1; a
    number is moved from one base to the other. *)
Record Coordinates : Type := {
  clientLinesStartAt1 : bool;
  clientColumnsStartAt1 : bool;
  debuggerLinesStartAt1 : bool;
  debuggerColumnsStartAt1 : bool
}.

(** Modelled from the spec: the translation of one number from a side
    that counts from [fromStartsAt1] to a side that counts from
    [toStartsAt1] (in vscode-debugadapter, not under src/). *)
Definition convert (fromStartsAt1 toStartsAt1 : bool) (n : Z) : Z :=
  match fromStartsAt1, toStartsAt1 with
  | true, false => n - 1
  | false, true => n + 1
  | _, _ => n
  end.

(** Modelled from the spec: client-native line to backend-native line. *)
Definition convertClientLineToDebugger (c : Coordinates) (line : Z) : Z :=
  convert (clientLinesStartAt1 c) (debuggerLinesStartAt1 c) line.

(** Modelled from the spec: backend-native line to client-native line. *)
Definition convertDebuggerLineToClient (c : Coordinates) (line : Z) : Z :=
  convert (debuggerLinesStartAt1 c) (clientLinesStartAt1 c) line.

(** Modelled from the spec: client-native column to backend-native column. *)
Definition convertClientColumnToDebugger (c : Coordinates) (column : Z) : Z :=
  convert (clientColumnsStartAt1 c) (debuggerColumnsStartAt1 c) column.

(** Modelled from the spec: backend-native column to client-native column. *)
Definition convertDebuggerColumnToClient (c : Coordinates) (column : Z) : Z :=
  convert (debuggerColumnsStartAt1 c) (clientColumnsStartAt1 c) column.

(** The constructor: [setDebuggerLinesStartAt1(false)] and
    [setDebuggerColumnsStartAt1(false)]; the client side is whatever the
    client announced when it initialised the session. *)
Definition constructor (clientLines clientColumns : bool) : Coordinates :=
  {| clientLinesStartAt1 := clientLines;
     clientColumnsStartAt1 := clientColumns;
     debuggerLinesStartAt1 := false;
     debuggerColumnsStartAt1 := false |}.

(** What the library does to a value that is no number when it moves it
    from one base to the other: it hands it back as it is when both sides
    count from the same base, and computes JavaScript's [v + 1] or [v - 1]
    otherwise. *)
Inductive moved : Type := Same | PlusOne | MinusOne.

Definition direction (fromStartsAt1 toStartsAt1 : bool) : moved :=
  match fromStartsAt1, toStartsAt1 with
  | true, false => MinusOne
  | false, true => PlusOne
  | _, _ => Same
  end.

(** A line or column after [convertDebugger...ToClient]: a number; what
    the arithmetic makes of [undefined]; or, for any other value [v], the
    expression [COther v m] that the library computes and that this model
    does not evaluate. *)
Inductive coordinate : Type :=
| CNum (n : Z)
| CNaN
| CUndefined
| COther (v : JS.value) (m : moved).

Definition convertValue (fromStartsAt1 toStartsAt1 : bool) (v : JS.value)
  : coordinate :=
  match v with
  | JS.VNum n => CNum (convert fromStartsAt1 toStartsAt1 n)
  | JS.VUndefined =>
      if Bool.eqb fromStartsAt1 toStartsAt1 then CUndefined else CNaN
  | _ => COther v (direction fromStartsAt1 toStartsAt1)
  end.

(** [{ ...new Breakpoint(verified, line), id }]: [verified] and [id] as
    the reply has them, and the line that the constructor is given. *)
Record Breakpoint : Type := {
  verified : JS.value;
  line : coordinate;
  id : JS.value
}.

(** What becomes of a request of the client. [NoResponse]: the handler
    throws or waits for a promise that is never settled. [OffType]: a value
    of the backend that this model does not follow any further (a frame
    whose [file] is no string or whose [line] is no number, a path of an
    'output' that is no string, a number that [toString] has no text for). *)
Inductive answer (A : Type) : Type :=
| Response (body : A)
| ErrorResponse (id : Z) (format : string) (showUser : bool)
| NoResponse
| OffType.
Arguments Response {A} body.
Arguments ErrorResponse {A} id format showUser.
Arguments NoResponse {A}.
Arguments OffType {A}.

(** The integers that JavaScript prints by their decimal numeral and holds
    exactly: those below 2^53 in absolute value. *)
Definition safe_integer (n : Z) : bool := Z.abs n <? 9007199254740992.

(** [`${v}`] for the values a JSON reply can hold. A number has a text
    here when it is a safe integer; beyond them JavaScript rounds and, from
    1e21 on, writes an exponent, and the model has no text for the number
    ([None]). In an array, [null] and [undefined] are written as nothing. *)
Fixpoint toString (v : JS.value) : option string :=
  match v with
  | JS.VUndefined => Some "undefined"
  | JS.VNull => Some "null"
  | JS.VBool true => Some "true"
  | JS.VBool false => Some "false"
  | JS.VNum n =>
      if safe_integer n then Some (NilZero.string_of_int (Z.to_int n))
      else None
  | JS.VStr s => Some s
  | JS.VArr items =>
      option_map (String.concat ",")
        ((fix each (l : list JS.value) : option (list string) :=
            match l with
            | [] => Some []
            | x :: rest =>
                match match x with
                      | JS.VUndefined | JS.VNull => Some EmptyString
                      | _ => toString x
                      end, each rest with
                | Some t, Some ts => Some (t :: ts)
                | _, _ => None
                end
            end) items)
  | JS.VObj _ => Some "[object Object]"
  end.

Section Session.

Variable Backend : Type.
Variable serve : Http.Request -> Backend -> Http.outcome * Backend.
Variable readFile : string -> option string.

Local Abbreviation M := (RuntimeClient.M Backend).

(** [launchRequest]; [loadLast] is the order in which the two replies of
    [start] complete. *)
Definition launchRequest (program : string) (stopOnEntry : bool)
    (loadLast : bool) : M (answer unit) :=
  let! p := RuntimeClient.start Backend serve readFile program stopOnEntry
              loadLast in
  match p with
  | JS.Fulfilled startResponse =>
      match JS.get startResponse "error" with
      | JS.Throw => Monad.ret NoResponse
      | JS.Normal error =>
          if JS.truthy error
          then match toString error with
               | Some text =>
                   Monad.ret (ErrorResponse 1001
                                ("Runtime: " ++ text)%string true)
               | None => Monad.ret OffType
               end
          else Monad.ret (Response tt)
      end
  | _ => Monad.ret NoResponse
  end.

Definition disconnectRequest : M (answer unit) :=
  let! _ := RuntimeClient.disconnect Backend in
  Monad.ret (Response tt).

(** [clientLines.map(async l => ...)]: every [setBreakPoint] is called,
    in the order of the lines, before any reply is looked at. *)
Fixpoint setAll (c : Coordinates) (clientLines : list Z)
  : M (list (JS.promise JS.value)) :=
  match clientLines with
  | [] => Monad.ret []
  | l :: rest =>
      let! p := RuntimeClient.setBreakPoint Backend serve
                  (convertClientLineToDebugger c l) in
      let! ps := setAll c rest in
      Monad.ret (p :: ps)
  end.

(** [const { verified, line, id } = await ...] and the two lines after:
    the destructuring throws on [null] and [undefined], and on nothing
    else; whatever [line] is goes through [convertDebuggerLineToClient]. *)
Definition toBreakpoint (c : Coordinates) (p : JS.promise JS.value)
  : answer Breakpoint :=
  match p with
  | JS.Fulfilled data =>
      match JS.get data "verified", JS.get data "line", JS.get data "id" with
      | JS.Normal v, JS.Normal l, JS.Normal i =>
          Response {| verified := v;
                      line := convertValue (debuggerLinesStartAt1 c)
                                (clientLinesStartAt1 c) l;
                      id := i |}
      | _, _, _ => NoResponse
      end
  | _ => NoResponse
  end.

(** [Promise.all]: the values in the order of the promises, or no value
    as soon as one of them has none. *)
Fixpoint all {A} (l : list (answer A)) : answer (list A) :=
  match l with
  | [] => Response []
  | a :: rest =>
      match a, all rest with
      | Response x, Response xs => Response (x :: xs)
      | Response _, r => r
      | ErrorResponse i f u, _ => ErrorResponse i f u
      | NoResponse, _ => NoResponse
      | OffType, _ => OffType
      end
  end.

Definition setBreakPointsRequest (c : Coordinates) (lines : list Z)
  : M (answer (list Breakpoint)) :=
  let clientLines := lines in
  let! cleared := RuntimeClient.clearBreakpoints Backend serve in
  match cleared with
  | JS.Fulfilled _ =>
      let! trueBreakpoints := setAll c clientLines in
      Monad.ret (all (List.map (toBreakpoint c) trueBreakpoints))
  | _ => Monad.ret NoResponse
  end.

(** [body: { ...breakpoints }]: the reply of the backend, spread. *)
Definition breakpointLocationsRequest : M (answer JS.value) :=
  let! p := RuntimeClient.getBreakpoints Backend serve in
  match p with
  | JS.Fulfilled breakpoints =>
      Monad.ret (Response (JS.VObj (JS.own_properties breakpoints)))
  | _ => Monad.ret NoResponse
  end.

Definition continueRequest : M (answer unit) :=
  let! p := RuntimeClient.continue Backend in
  match p with
  | JS.Fulfilled _ => Monad.ret (Response tt)
  | _ => Monad.ret NoResponse
  end.

Definition nextRequest : M (answer unit) :=
  let! p := RuntimeClient.step Backend serve in
  match p with
  | JS.Fulfilled _ => Monad.ret (Response tt)
  | _ => Monad.ret NoResponse
  end.

(** [getDebugVariable(variable)]: the fields of the reply as they are, no
    nesting, and the marker of the context menu. *)
Record DebugVariable : Type := {
  var_name : JS.value;
  var_value : JS.value;
  var_type : JS.value;
  variablesReference : Z;
  evaluateName : JS.value;
  __vscodeVariableMenuContext : string
}.

Definition getDebugVariable (variable : JS.value)
  : JS.completion DebugVariable :=
  match JS.get variable "name", JS.get variable "value",
        JS.get variable "type", JS.get variable "evaluateName" with
  | JS.Normal n, JS.Normal v, JS.Normal t, JS.Normal e =>
      JS.Normal {| var_name := n; var_value := v; var_type := t;
                   variablesReference := 0; evaluateName := e;
                   __vscodeVariableMenuContext := "simple" |}
  | _, _, _, _ => JS.Throw
  end.

(** [items.map(f)] for an [f] that may throw. *)
Fixpoint map_throwing {A B} (f : A -> JS.completion B) (items : list A)
  : JS.completion (list B) :=
  match items with
  | [] => JS.Normal []
  | x :: rest =>
      match f x, map_throwing f rest with
      | JS.Normal y, JS.Normal ys => JS.Normal (y :: ys)
      | _, _ => JS.Throw
      end
  end.

(** [variablesRequest]: [variables?.map(...)] is [undefined] on [null], a
    TypeError on anything else that is no array. The body of the response
    is given by its [variables]. *)
Definition variablesRequest : M (answer (option (list DebugVariable))) :=
  let! p := RuntimeClient.getVariables Backend serve in
  match p with
  | JS.Fulfilled variables =>
      match variables with
      | JS.VNull | JS.VUndefined => Monad.ret (Response None)
      | JS.VArr items =>
          match map_throwing getDebugVariable items with
          | JS.Normal vs => Monad.ret (Response (Some vs))
          | JS.Throw => Monad.ret NoResponse
          end
      | _ => Monad.ret NoResponse
      end
  | _ => Monad.ret NoResponse
  end.

(** [setVariableRequest]: accepted, and nothing is done. *)
Definition setVariableRequest : M (answer unit) := Monad.ret (Response tt).

(** [basename] of the path module and [convertDebuggerPathToClient] of the
    base class are not under src/: [createSource] is read against any. *)
Variable basename : string -> string.
Variable convertDebuggerPathToClient : string -> string.

Record Source : Type := {
  source_name : string;
  source_path : string;
  adapterData : string
}.

Definition createSource (filePath : string) : Source :=
  {| source_name := basename filePath;
     source_path := convertDebuggerPathToClient filePath;
     adapterData := "mock-adapter-data" |}.

(** [new StackFrame(frame.index, frame.name, this.createSource(frame.file),
    this.convertDebuggerLineToClient(frame.line))]. *)
Record StackFrame : Type := {
  frame_id : JS.value;
  frame_name : JS.value;
  frame_source : Source;
  frame_line : Z
}.

(** One frame of the reply; [OffType] for a frame whose [file] is no string
    or whose [line] is no number. *)
Definition toStackFrame (c : Coordinates) (frame : JS.value)
  : answer StackFrame :=
  match JS.get frame "index", JS.get frame "name",
        JS.get frame "file", JS.get frame "line" with
  | JS.Normal i, JS.Normal n, JS.Normal (JS.VStr f), JS.Normal (JS.VNum l) =>
      Response {| frame_id := i; frame_name := n;
                  frame_source := createSource f;
                  frame_line := convertDebuggerLineToClient c l |}
  | JS.Normal _, JS.Normal _, JS.Normal _, JS.Normal _ => OffType
  | _, _, _, _ => NoResponse
  end.

(** [stackTraceRequest]: the frames in the order of the reply, and the
    [count] of the reply as [totalFrames]. *)
Definition stackTraceRequest (c : Coordinates)
  : M (answer (list StackFrame * JS.value)) :=
  let! p := RuntimeClient.getStackFrames Backend serve in
  match p with
  | JS.Fulfilled stackFrames =>
      match JS.get stackFrames "frames" with
      | JS.Normal (JS.VArr frames) =>
          match all (List.map (toStackFrame c) frames) with
          | Response fs =>
              Monad.ret (Response (fs, JS.get_opt stackFrames "count"))
          | ErrorResponse i f u => Monad.ret (ErrorResponse i f u)
          | NoResponse => Monad.ret NoResponse
          | OffType => Monad.ret OffType
          end
      | _ => Monad.ret NoResponse
      end
  | _ => Monad.ret NoResponse
  end.

(** The events that the session sends to the client. *)
Inductive DapEvent : Type :=
| StoppedEvent (reason : string) (threadId : Z)
| BreakpointEvent (reason : string) (verified0 id0 : JS.value)
| OutputEvent (output : string) (source : Source) (line0 column0 : coordinate)
| TerminatedEvent.

Definition threadID : Z := 1.

(** The i-th argument of a listener. *)
Definition argument (i : nat) (args : list JS.value) : JS.value :=
  List.nth i args JS.VUndefined.

(** [setupEvents]: what [emit] and the listeners do with one notification
    of the runtime. The listeners are looked up under the name of the event
    as a property key; no listener, no event, but for the name 'error', on
    which [emit] throws when nothing listens. [NoResponse]: [emit] or the
    listener throws. [OffType]: an 'output' whose path is no string, or a
    name or text that [toString] has no text for. *)
Definition listeners (c : Coordinates) (e : Event) : answer (list DapEvent) :=
  match toString (fst e) with
  | None => OffType
  | Some event =>
      let args := snd e in
      if String.eqb event "stopOnEntry" then
        Response [StoppedEvent "entry" threadID]
      else if String.eqb event "stopOnStep" then
        Response [StoppedEvent "step" threadID]
      else if String.eqb event "stopOnBreakpoint" then
        Response [StoppedEvent "breakpoint" threadID]
      else if String.eqb event "stopOnException" then
        let exception := argument 0 args in
        if JS.truthy exception
        then match toString exception with
             | Some text =>
                 Response [StoppedEvent ("exception(" ++ text ++ ")")
                                        threadID]
             | None => OffType
             end
        else Response [StoppedEvent "exception" threadID]
      else if String.eqb event "breakpointValidated" then
        let breakpoint := argument 0 args in
        match JS.get breakpoint "verified", JS.get breakpoint "id" with
        | JS.Normal v, JS.Normal i => Response [BreakpointEvent "changed" v i]
        | _, _ => NoResponse
        end
      else if String.eqb event "output" then
        match argument 1 args, toString (argument 0 args) with
        | JS.VStr filePath, Some text =>
            Response
              [OutputEvent (text ++ String "010"%char EmptyString)
                 (createSource filePath)
                 (convertValue (debuggerLinesStartAt1 c)
                    (clientLinesStartAt1 c) (argument 2 args))
                 (convertValue (debuggerColumnsStartAt1 c)
                    (clientColumnsStartAt1 c) (argument 3 args))]
        | _, _ => OffType
        end
      else if String.eqb event "end" then
        Response [TerminatedEvent]
      else if String.eqb event "error" then
        NoResponse
      else Response []
  end.

End Session.

End DebugSession.

(* ===================================================================== *)
(** ** [src/mockRuntime.ts]: the first HTTP [RuntimeAdapter] *)
(* ===================================================================== *)

Module HttpMock.

(** [formatKeysAPI(key, value)], handed to [JSON.stringify] as replacer. *)
Definition formatKeysAPI (key : string) (value : JS.value) : JS.value :=
  match key with
  | EmptyString => JS.VObj []
  | String c rest => JS.VObj [(String (JS.toUpperCase c) rest, value)]
  end.

Fixpoint traverse {A B} (f : A -> option B) (l : list A) : option (list B) :=
  match l with
  | [] => Some []
  | x :: rest =>
      match f x, traverse f rest with
      | Some y, Some ys => Some (y :: ys)
      | _, _ => None
      end
  end.

(** A property whose value comes out [undefined] is left out of an
    object, and written [null] in an array. *)
Definition written (kv : string * JS.value) : bool :=
  match snd kv with JS.VUndefined => false | _ => true end.

Definition in_array (kv : string * JS.value) : JS.value :=
  match snd kv with JS.VUndefined => JS.VNull | x => x end.

(** [JSON.stringify(value, replacer)], up to the text: the value that is
    written for the property [key] once [replacer] has been applied to it
    and, in an object or array it returns, to every property in turn.
    [None]: the recursion is still going when [fuel] is used up. *)
Fixpoint stringify_property (fuel : nat)
    (replacer : string -> JS.value -> JS.value) (key : string)
    (v : JS.value) : option JS.value :=
  match fuel with
  | O => None
  | S fuel' =>
      match replacer key v with
      | JS.VObj fields =>
          option_map (fun l => JS.VObj (List.filter written l))
            (traverse (fun kv => option_map (pair (fst kv))
                                   (stringify_property fuel' replacer
                                      (fst kv) (snd kv)))
                      fields)
      | JS.VArr items =>
          option_map (fun l => JS.VArr (List.map in_array l))
            (traverse (fun kv => option_map (pair (fst kv))
                                   (stringify_property fuel' replacer
                                      (fst kv) (snd kv)))
                      (JS.indexed 0 items))
      | v' => Some v'
      end
  end.

(** The call at the root: the holder's property is the empty key. *)
Definition stringify (fuel : nat) (replacer : string -> JS.value -> JS.value)
    (v : JS.value) : option JS.value :=
  stringify_property fuel replacer EmptyString v.

Section Adapter.

Variable Backend : Type.
Variable serve : Http.Request -> Backend -> Http.outcome * Backend.
Variable readFile : string -> option string.

Local Abbreviation M := (RuntimeClient.M Backend).

(** [request]: a reply goes to the handler; on a failure 'end' is sent
    and the observer is told nothing. *)
Definition request {A} (fuel : nat) (m : Http.method)
    (c : Http.controller) (e : string) (body : option JS.value)
    (next : JS.value -> M (JS.promise A)) : M (JS.promise A) :=
  match match body with
        | None => Some None
        | Some b => option_map Some (stringify fuel formatKeysAPI b)
        end with
  | None => Monad.ret JS.Pending
  | Some sbody =>
      let! o := RuntimeClient.fetch Backend serve
                  {| Http.method_ := m; Http.controller_ := c;
                     Http.endpoint := e; Http.body := sbody |} in
      match o with
      | Http.Reply v => next v
      | _ =>
          let! _ := RuntimeClient.sendEvent Backend (JS.VStr "end") [] in
          Monad.ret JS.Pending
      end
  end.

Definition start (fuel : nat) (path : string) (stopAtEntry : bool)
  : M (JS.promise JS.value) :=
  let! _ := RuntimeClient.setSource Backend path (readFile path) in
  match readFile path with
  | None => Monad.ret JS.Pending
  | Some _ =>
      request fuel Http.POST Http.CDebug "Start"
        (Some (JS.VObj [("stopAtEntry", JS.VBool stopAtEntry)]))
        (fun data =>
           let event := JS.or (JS.get_opt data "event")
                              (JS.VStr EmptyString) in
           let error := JS.get_opt data "error" in
           let! _ := (if (negb (JS.truthy error) && JS.truthy event)%bool
                      then RuntimeClient.sendEvent Backend event []
                      else Monad.ret tt) in
           Monad.ret (JS.Fulfilled data))
  end.

(** [clearBreakpoints], [setBreakPoint], [step], [getStackFrames],
    [getBreakpoints], [continue], [getVariables]: each executor is left
    without a statement. *)
Definition step : M (JS.promise bool) := Monad.ret JS.Pending.
Definition continue : M (JS.promise unit) := Monad.ret JS.Pending.

End Adapter.

End HttpMock.

(* ===================================================================== *)
(** ** The socket-based [RuntimeAdapter]: re-framing of the byte stream *)
(* ===================================================================== *)

Module StreamRuntime.

Definition delta (c : ascii) : Z :=
  if Ascii.eqb c "{"%char then 1
  else if Ascii.eqb c "}"%char then -1 else 0.

(** The [for] loop of [getJsonArray]: [rest] is what is left of [jsons]
    from index [i] on. *)
Fixpoint scan (jsons rest : string) (i : nat) (bracketValue : Z)
    (insideJson : bool) (currentStart : nat) (list_ : list string)
  : list string :=
  match rest with
  | EmptyString => list_
  | String c rest' =>
      let bracketValue := bracketValue + delta c in
      let opens := ((0 <? bracketValue) && negb insideJson)%bool in
      let currentStart := if opens then i else currentStart in
      let insideJson := if opens then true else insideJson in
      let closes := ((bracketValue =? 0) && insideJson)%bool in
      let list_ :=
        if closes
        then list_ ++ [String.substring currentStart (i + 1 - currentStart) jsons]
        else list_ in
      let insideJson := if closes then false else insideJson in
      scan jsons rest' (S i) bracketValue insideJson currentStart list_
  end.

(** The complete units found in one chunk. *)
Definition units (jsons : string) : list string :=
  scan jsons jsons 0 0 false 0 [].

Definition getJsonArray (buffer : string) : option string :=
  match units buffer with
  | [] => None
  | l => Some ("[" ++ String.concat "," l ++ "]")%string
  end.

(** The 'data' listener of [startClient], chunk after chunk: the units
    that [getJsonArray] takes out of each chunk. They go to [JSON.parse] as
    one array text per chunk and from there to [dataSubject]: what is
    handed on is among them. *)
Definition received (chunks : list string) : list string :=
  List.concat (List.map units chunks).

(** Spec side. A complete message: it opens with a brace, and the depth
    comes back to zero at its last character and not before. *)
Fixpoint closes_at_end (depth : Z) (s : string) : bool :=
  match s with
  | EmptyString => false
  | String c rest =>
      let d := depth + delta c in
      if d =? 0 then String.eqb rest EmptyString
      else ((0 <? d) && closes_at_end d rest)%bool
  end.

Definition message (m : string) : bool :=
  match m with
  | String c rest => (Ascii.eqb c "{"%char && closes_at_end 1 rest)%bool
  | EmptyString => false
  end.

(** Text between messages: no brace in it. *)
Fixpoint filler (s : string) : bool :=
  match s with
  | EmptyString => true
  | String c rest => ((delta c =? 0) && filler rest)%bool
  end.

(** [sep0 m1 sep1 ... mk sepk], from [sep0] and the pairs [(mi, sepi)]. *)
Fixpoint interleave (ms : list (string * string)) : string :=
  match ms with
  | [] => EmptyString
  | (m, sep) :: rest => (m ++ sep ++ interleave rest)%string
  end.

End StreamRuntime.

(* ===================================================================== *)
(** ** A backend for the breakpoint endpoints *)
(* ===================================================================== *)

Module SpecBackend.

(** Modelled from the spec: the breakpoint endpoints of the execution
    backend (the server behind localhost:5000 is not under src/). It keeps
    a set of lines, at most one breakpoint per line; Breakpoint/Clear
    discards every breakpoint, Breakpoint/Set registers the line of the
    body and answers [{ verified, line, id }] with the id derived from the
    line, Breakpoint/Get reports the registered lines. *)
Definition serve (r : Http.Request) (b : gset Z) : Http.outcome * gset Z :=
  match Http.controller_ r with
  | Http.CBreakpoint =>
      if String.eqb (Http.endpoint r) "Clear" then
        (Http.Reply (JS.VObj []), ∅)
      else if String.eqb (Http.endpoint r) "Set" then
        match Http.body r with
        | Some body =>
            match JS.get_opt body "Line" with
            | JS.VNum l =>
                (Http.Reply (JS.VObj [("verified", JS.VBool true);
                                      ("line", JS.VNum l);
                                      ("id", JS.VNum l)]),
                 {[ l ]} ∪ b)
            | _ => (Http.MalformedReply, b)
            end
        | None => (Http.MalformedReply, b)
        end
      else if String.eqb (Http.endpoint r) "Get" then
        (Http.Reply
           (JS.VArr (List.map (fun l => JS.VObj [("line", JS.VNum l)])
                              (elements b))), b)
      else (Http.MalformedReply, b)
  | _ => (Http.MalformedReply, b)
  end.

(** A backend that cannot be reached. *)
Definition unreachable (r : Http.Request) (b : unit) : Http.outcome * unit :=
  (Http.ConnectionRefused, b).

(** A backend that answers every request with the same value. *)
Definition constant (v : JS.value) (r : Http.Request) (b : unit)
  : Http.outcome * unit :=
  (Http.Reply v, b).

(** A backend of which the Load request comes to [load] and every other
    request to [other]. *)
Definition debug (load other : Http.outcome) (r : Http.Request) (b : unit)
  : Http.outcome * unit :=
  (if String.eqb (Http.endpoint r) "Load" then load else other, b).

End SpecBackend.

(* ===================================================================== *)
(** ** Vocabulary of the statements *)
(* ===================================================================== *)

(** The notifications that the mock runtime has a statement for. *)
Definition mock_vocabulary (e : Event) : bool :=
  (named "stopOnEntry" e || named "stopOnStep" e
   || named "output" e || named "end" e)%bool.

(** The distance of a state from the last line of its program. *)
Definition mock_remaining (s : MockRuntime.state) : nat :=
  Z.to_nat (MockRuntime.lineCount s - 1 - MockRuntime.__mockLine s).

(** A client that has sent and emitted nothing yet. *)
Definition fresh {Backend : Type} (b : Backend) : RuntimeClient.world Backend :=
  {| RuntimeClient.backend := b; RuntimeClient.sent := [];
     RuntimeClient.emitted := []; RuntimeClient.sourcePath := None;
     RuntimeClient.sourceText := None |}.

(** The request that [RuntimeClient.step] sends. *)
Definition stepRequest : Http.Request :=
  {| Http.method_ := Http.PATCH; Http.controller_ := Http.CDebug;
     Http.endpoint := "Step"; Http.body := None |}.

Definition getStackFramesRequest : Http.Request :=
  {| Http.method_ := Http.GET; Http.controller_ := Http.CStackframe;
     Http.endpoint := "Get"; Http.body := None |}.

Definition clearRequest : Http.Request :=
  {| Http.method_ := Http.PATCH; Http.controller_ := Http.CBreakpoint;
     Http.endpoint := "Clear"; Http.body := None |}.

Definition setRequest (line : Z) : Http.Request :=
  {| Http.method_ := Http.POST; Http.controller_ := Http.CBreakpoint;
     Http.endpoint := "Set";
     Http.body := Some (JS.VObj [("Line", JS.VNum line)]) |}.

(** C4 as it is written, read on [RuntimeClient.step] for a backend that
    answers [v]: the call resolves with a boolean, and the notifications it
    sends hold exactly one 'stopOnStep' or 'end'. *)
Definition step_exclusive_at (v : JS.value) : Prop :=
  let '(p, w) :=
    RuntimeClient.step unit (SpecBackend.constant v) (fresh tt) in
  (exists ended : bool, p = JS.Fulfilled (JS.VBool ended))
  /\ (count_named "stopOnStep" (RuntimeClient.emitted w)
      + count_named "end" (RuntimeClient.emitted w) = 1)%nat.

(** A key that begins with a code unit of the ASCII range, or is empty. *)
Definition ascii_first (key : string) : bool :=
  match key with
  | EmptyString => true
  | String c _ => JS.ascii_unit c
  end.

(** A key that does not begin with a digit, and so is no array index: the
    keys that an object lists in the order in which they were written. *)
Definition no_index (key : string) : bool :=
  match key with
  | EmptyString => true
  | String c _ =>
      negb (Nat.leb 48 (nat_of_ascii c) && Nat.leb (nat_of_ascii c) 57)
  end.

(** A key other than [__proto__]. *)
Definition ordinary (key : string) : bool :=
  negb (String.eqb key "__proto__").

(** [key] with its first letter in upper case. *)
Definition capitalize (key : string) : string :=
  match key with
  | EmptyString => EmptyString
  | String c rest => String (JS.toUpperCase c) rest
  end.

Definition capitalize_field (kv : string * JS.value) : string * JS.value :=
  (capitalize (fst kv), snd kv).

Definition nonempty (key : string) : bool :=
  match key with EmptyString => false | String _ _ => true end.

Definition loadRequest (text : string) : Http.Request :=
  {| Http.method_ := Http.POST; Http.controller_ := Http.CDebug;
     Http.endpoint := "Load";
     Http.body := Some (JS.VObj [("File", JS.VStr text)]) |}.

Definition startRequest (stopOnEntry : bool) : Http.Request :=
  {| Http.method_ := Http.POST; Http.controller_ := Http.CDebug;
     Http.endpoint := "Start";
     Http.body := Some (JS.VObj [("StopOnEntry", JS.VBool stopOnEntry)]) |}.

Definition getBreakpointsRequest : Http.Request :=
  {| Http.method_ := Http.GET; Http.controller_ := Http.CBreakpoint;
     Http.endpoint := "Get"; Http.body := None |}.

(** A backend that is handed the requests [rs] one after the other: what
    the observer of each is given, in the same order, and the backend left. *)
Fixpoint exchange {Backend : Type}
    (serve : Http.Request -> Backend -> Http.outcome * Backend)
    (rs : list Http.Request) (b : Backend) : list JS.value * Backend :=
  match rs with
  | [] => ([], b)
  | r :: rest =>
      let '(o, b1) := serve r b in
      let '(vs, b2) := exchange serve rest b1 in
      (RuntimeClient.delivered o :: vs, b2)
  end.

(** What the backend answers to the requests [rs], handed to it one after
    the other, and the backend left. *)
Fixpoint outcomes {Backend : Type}
    (serve : Http.Request -> Backend -> Http.outcome * Backend)
    (rs : list Http.Request) (b : Backend) : list Http.outcome * Backend :=
  match rs with
  | [] => ([], b)
  | r :: rest =>
      let '(o, b1) := serve r b in
      let '(os, b2) := outcomes serve rest b1 in
      (o :: os, b2)
  end.

(** The Set requests of a [setBreakpoints] for the client lines [lines]. *)
Definition setRequests (c : DebugSession.Coordinates) (lines : list Z)
  : list Http.Request :=
  List.map (fun l => setRequest (DebugSession.convertClientLineToDebugger c l))
           lines.

(** A program of two lines, and the mock runtime that has been started on
    it and has stepped once: it is on the last line. *)
Definition two_line_program : string :=
  ("LOAD 1" ++ String "010"%char "HALT")%string.

Definition mock_on_last_line : MockRuntime.state :=
  fst (MockRuntime.run_ops (fun _ => Some two_line_program)
         [MockRuntime.OpStart "program.misc" true; MockRuntime.OpStep]
         MockRuntime.init).

(** The line breaks of a program text. *)
Fixpoint newlines (s : string) : nat :=
  match s with
  | EmptyString => 0%nat
  | String c rest =>
      ((if Ascii.eqb c "010"%char then 1 else 0) + newlines rest)%nat
  end.

(** What holds of the mock runtime in every state it can reach: the current
    line is not negative, and once a program text has been split into lines
    its path is known. *)
Definition mock_reachable (s : MockRuntime.state) : Prop :=
  0 <= MockRuntime.__mockLine s
  /\ (MockRuntime.sourceLines s <> None -> MockRuntime.sourcePath s <> None).

(** The depth after [body], read from depth [d], as long as it stays
    above zero; [None] once it has come down to zero or below. *)
Fixpoint depth_after (d : Z) (body : string) : option Z :=
  match body with
  | EmptyString => Some d
  | String c rest =>
      let d1 := d + StreamRuntime.delta c in
      if 0 <? d1 then depth_after d1 rest else None
  end.

(** The head of a message that the chunk ends in: an opening brace, and
    the depth never back at zero after it. *)
Definition open_tail (t : string) : bool :=
  match t with
  | String c body =>
      (Ascii.eqb c "{"%char
       && match depth_after 1 body with Some _ => true | None => false end)%bool
  | EmptyString => false
  end.

(** [null] or [undefined]: the values whose properties cannot be read. *)
Definition nullish (v : JS.value) : bool :=
  match v with JS.VNull | JS.VUndefined => true | _ => false end.

(** A request that came to a reply of which the fields can be read:
    neither a failure of the transport nor [null] nor [undefined]. *)
Definition answered (o : Http.outcome) : bool :=
  match o with Http.Reply v => negb (nullish v) | _ => false end.

(** The error that the backend reports with a reply: the reply is an
    object whose [error] is a text that is not empty. *)
Definition reported (o : Http.outcome) : option string :=
  match o with
  | Http.Reply (JS.VObj fields) =>
      match JS.assoc "error" fields with
      | Some (JS.VStr (String c rest)) => Some (String c rest)
      | _ => None
      end
  | _ => None
  end.

(** No error is reported with it: the request failed in transport, or the
    reply is no object, or it is an object whose [error] is missing or is
    [undefined], [null], [false], [0] or the empty text. *)
Definition quiet (o : Http.outcome) : bool :=
  match o with
  | Http.Reply (JS.VObj fields) =>
      match JS.assoc "error" fields with
      | None | Some JS.VUndefined | Some JS.VNull
      | Some (JS.VBool false) | Some (JS.VNum 0)
      | Some (JS.VStr EmptyString) => true
      | _ => false
      end
  | _ => true
  end.

(** [s] between two double quotes. *)
Definition quoted (s : string) : string :=
  String "034"%char (s ++ String "034"%char EmptyString)%string.

(** The JSON message whose field [a] is the text of one closing brace, and
    what is left of it when it is cut behind that brace. *)
Definition brace_in_text : string :=
  ("{" ++ quoted "a" ++ ":" ++ quoted "}" ++ "}")%string.

Definition brace_in_text_cut : string :=
  ("{" ++ quoted "a" ++ ":" ++ String "034"%char "}")%string.

(** The JSON message whose field [a] is an object, cut behind the colon:
    its head, the rest, and the inner object. *)
Definition nested_message : string :=
  ("{" ++ quoted "a" ++ ":{" ++ quoted "b" ++ ":1}}")%string.

Definition nested_head : string := ("{" ++ quoted "a" ++ ":")%string.

Definition nested_rest : string := ("{" ++ quoted "b" ++ ":1}}")%string.

Definition nested_inner : string := ("{" ++ quoted "b" ++ ":1}")%string.

(** [u] lies within [c]. *)
Definition within (u c : string) : Prop :=
  exists pre post : string, c = (pre ++ u ++ post)%string.

(** A frame of a stack-trace reply as the session can show it: an object
    whose [line] is a number. *)
Definition frame_ok (item : JS.value) : bool :=
  match item with
  | JS.VObj o =>
      match JS.assoc "line" o with Some (JS.VNum _) => true | _ => false end
  | _ => false
  end.

Definition getVariablesRequest : Http.Request :=
  {| Http.method_ := Http.GET; Http.controller_ := Http.CVariable;
     Http.endpoint := "Get"; Http.body := None |}.

(** The path that [getStackFrames] writes into every frame. *)
Definition frame_file {Backend : Type} (w : RuntimeClient.world Backend)
  : string :=
  match RuntimeClient.sourcePath w with Some p => p | None => EmptyString end.

(** The notifications in the shape the mock runtime gives them: a bare
    'stopOnEntry', 'stopOnStep' or 'end', or an 'output' with a text (or
    [null] or [undefined] in its place), the path of the program, a line
    and no column. *)
Definition mock_shaped (e : Event) : Prop :=
  e = ev "stopOnEntry" [] \/ e = ev "stopOnStep" [] \/ e = ev "end" []
  \/ exists text path l t,
       DebugSession.toString text = Some t
       /\ e = ev "output" [text; JS.VStr path; JS.VNum l; JS.VUndefined].







(* ===================================================================== *)
(** * Properties *)
(* ===================================================================== *)

(** ** Counting notifications *)

Lemma count_named_app n (a b : list Event) :
  count_named n (a ++ b) = (count_named n a + count_named n b)%nat.
Proof.
  unfold count_named. rewrite List.filter_app, List.length_app. reflexivity.
Qed.

Lemma count_named_cons n (e : Event) (l : list Event) :
  count_named n (e :: l)
  = ((if named n e then 1 else 0) + count_named n l)%nat.
Proof. unfold count_named. simpl. destruct (named n e); reflexivity. Qed.

Lemma count_named_nil n : count_named n [] = 0%nat.
Proof. reflexivity. Qed.

(** ** The standalone mock runtime *)

Lemma mock_step_not_last (s : MockRuntime.state) :
  MockRuntime.__mockLine s < MockRuntime.lineCount s - 1 ->
  MockRuntime.step s =
    ({| MockRuntime.sourcePath := MockRuntime.sourcePath s;
        MockRuntime.sourceText := MockRuntime.sourceText s;
        MockRuntime.sourceLines := MockRuntime.sourceLines s;
        MockRuntime.__mockLine := MockRuntime.__mockLine s + 1 |},
     ev "stopOnStep" [] ::
       MockRuntime.printLine
         {| MockRuntime.sourcePath := MockRuntime.sourcePath s;
            MockRuntime.sourceText := MockRuntime.sourceText s;
            MockRuntime.sourceLines := MockRuntime.sourceLines s;
            MockRuntime.__mockLine := MockRuntime.__mockLine s + 1 |},
     JS.Fulfilled false).
Proof.
  intros H. unfold MockRuntime.step.
  destruct (Z.ltb_spec (MockRuntime.__mockLine s) (MockRuntime.lineCount s - 1));
    [reflexivity | lia].
Qed.

Lemma mock_step_last (s : MockRuntime.state) :
  MockRuntime.lineCount s - 1 <= MockRuntime.__mockLine s ->
  MockRuntime.step s = (s, [ev "end" []], JS.Fulfilled true).
Proof.
  intros H. unfold MockRuntime.step.
  destruct (Z.ltb_spec (MockRuntime.__mockLine s) (MockRuntime.lineCount s - 1));
    [lia | reflexivity].
Qed.

(** One call of [step] resolves with a boolean and sends either one
    'stopOnStep' or one 'end', the flag telling which. *)
Lemma mock_step_exclusive (s : MockRuntime.state) :
  exists s' evs ended,
    MockRuntime.step s = (s', evs, JS.Fulfilled ended)
    /\ (count_named "stopOnStep" evs + count_named "end" evs = 1)%nat
    /\ count_named "end" evs = (if ended then 1 else 0)%nat
    /\ forallb mock_vocabulary evs = true.
Proof.
  destruct (Z.lt_ge_cases (MockRuntime.__mockLine s) (MockRuntime.lineCount s - 1)).
  - rewrite mock_step_not_last by assumption.
    do 3 eexists. split; [reflexivity |]. repeat split.
  - rewrite mock_step_last by assumption.
    do 3 eexists. split; [reflexivity |]. repeat split.
Qed.

(** [continue] comes back once it has the fuel for the lines that remain;
    it makes one call of [step] per line, and one more that ends. *)
Lemma mock_continue_runs (k : nat) :
  forall (s : MockRuntime.state) (fuel : nat),
    mock_remaining s = k ->
    (k < fuel)%nat ->
    exists s' evs,
      MockRuntime.continue fuel s = Some (s', evs, JS.Fulfilled tt, S k)
      /\ count_named "stopOnStep" evs = k
      /\ count_named "end" evs = 1%nat
      /\ List.last evs (ev "stopOnStep" []) = ev "end" []
      /\ forallb mock_vocabulary evs = true.
Proof.
  induction k as [|k IH]; intros s fuel Hrem Hfuel.
  - destruct fuel as [|fuel]; [lia |].
    exists s, [ev "end" []]. simpl.
    rewrite mock_step_last by (unfold mock_remaining in Hrem; lia).
    repeat split.
  - destruct fuel as [|fuel]; [lia |].
    assert (Hlt : MockRuntime.__mockLine s < MockRuntime.lineCount s - 1)
      by (unfold mock_remaining in Hrem; lia).
    set (s1 := {| MockRuntime.sourcePath := MockRuntime.sourcePath s;
                  MockRuntime.sourceText := MockRuntime.sourceText s;
                  MockRuntime.sourceLines := MockRuntime.sourceLines s;
                  MockRuntime.__mockLine := MockRuntime.__mockLine s + 1 |}).
    destruct (IH s1 fuel) as (s' & evs & Hc & Hs & He & Hl & Hv).
    + unfold mock_remaining, MockRuntime.lineCount in *. simpl. lia.
    + lia.
    + exists s', ((ev "stopOnStep" [] :: MockRuntime.printLine s1) ++ evs).
      simpl MockRuntime.continue.
      rewrite mock_step_not_last by assumption. fold s1. rewrite Hc.
      split; [reflexivity |].
      rewrite !count_named_app, Hs, He.
      repeat split.
      * destruct evs as [|e evs]; [discriminate He |].
        simpl List.app. cbn [List.last]. exact Hl.
      * rewrite forallb_app, Hv. reflexivity.
Qed.

(** [continue] is total: it resolves from every state, after the calls of
    [step] counted by [MockRuntime.calls]. *)
Lemma mock_continue_total (s : MockRuntime.state) :
  exists s' evs,
    MockRuntime.continue (MockRuntime.calls s) s
    = Some (s', evs, JS.Fulfilled tt, MockRuntime.calls s).
Proof.
  destruct (mock_continue_runs (mock_remaining s) s (S (mock_remaining s)))
    as (s' & evs & H & _); [reflexivity | lia |].
  exists s', evs. exact H.
Qed.

(** More fuel does not change what [continue] comes back with. *)
Lemma mock_continue_fuel_mono (fuel : nat) :
  forall (s : MockRuntime.state) r,
    MockRuntime.continue fuel s = Some r ->
    MockRuntime.continue (S fuel) s = Some r.
Proof.
  induction fuel as [|fuel IH]; intros s r H; [discriminate |].
  cbn [MockRuntime.continue] in H.
  change (MockRuntime.continue (S (S fuel)) s) with
    (match MockRuntime.step s with
     | (s1, evs, JS.Fulfilled true) => Some (s1, evs, JS.Fulfilled tt, 1%nat)
     | (s1, evs, JS.Fulfilled false) =>
         match MockRuntime.continue (S fuel) s1 with
         | Some (s2, evs2, p, n) => Some (s2, evs ++ evs2, p, S n)
         | None => None
         end
     | (s1, evs, _) => Some (s1, evs, JS.Pending, 1%nat)
     end).
  destruct (MockRuntime.step s) as [[s1 evs] [[|]| |]]; try exact H.
  destruct (MockRuntime.continue fuel s1) as [r1|] eqn:E; [| discriminate].
  rewrite (IH _ _ E). exact H.
Qed.

(** [continue] against its spec side: it resolves exactly when calling
    [step] again and again until the end does, after as many calls, with
    the same final state and the same notifications. *)
Lemma mock_continue_refines (s s' : MockRuntime.state) (evs : list Event)
    (n : nat) :
  (exists fuel, MockRuntime.continue fuel s = Some (s', evs, JS.Fulfilled tt, n))
  <-> MockRuntime.steps_until_end s n s' evs.
Proof.
  split.
  - intros [fuel H]. revert s s' evs n H.
    induction fuel as [|fuel IH]; intros s s' evs n H; [discriminate |].
    cbn [MockRuntime.continue] in H.
    destruct (MockRuntime.step s) as [[s1 evs1] p] eqn:Es.
    destruct p as [[|]| |]; try discriminate.
    + inversion H; subst. apply MockRuntime.sue_last. exact Es.
    + destruct (MockRuntime.continue fuel s1) as [[[[s2 evs2] p2] n2]|] eqn:Ec;
        [| discriminate].
      inversion H; subst.
      eapply MockRuntime.sue_more; [exact Es |]. apply IH. exact Ec.
  - induction 1 as [s s' evs Hs | s s1 evs n s2 evs2 Hs Hrest [fuel IH]].
    + exists 1%nat. cbn [MockRuntime.continue]. rewrite Hs. reflexivity.
    + exists (S fuel). cbn [MockRuntime.continue]. rewrite Hs, IH. reflexivity.
Qed.

Lemma split_lines_nonempty (text : string) : JS.split_lines text <> [].
Proof.
  induction text as [|c rest IH]; cbn [JS.split_lines]; [discriminate |].
  destruct (Ascii.eqb c "010"); [discriminate |].
  destruct c as [[] [] [] [] [] [] [] []];
    try (destruct (JS.split_lines rest); [contradiction | discriminate]).
  destruct rest as [|[[] [] [] [] [] [] [] []] rest'];
    try (destruct (JS.split_lines _); [contradiction | discriminate]).
Qed.

(** [start] on a fresh runtime, once the program text has been read: the
    runtime stands on line 0 of the text split into its lines, 'stopOnEntry'
    and the first line have been sent, and the promise is resolved. *)
Lemma mock_start_state (readFile : string -> option string)
    (path text : string) (stopAtEntry : bool) :
  readFile path = Some text ->
  exists l ls evs,
    JS.split_lines text = l :: ls
    /\ MockRuntime.start readFile path stopAtEntry MockRuntime.init
       = ({| MockRuntime.sourcePath := Some path;
             MockRuntime.sourceText := Some text;
             MockRuntime.sourceLines := Some (l :: ls);
             MockRuntime.__mockLine := 0 |},
          ev "stopOnEntry" [] :: evs, JS.Fulfilled (false, None)).
Proof.
  intros Hread. unfold MockRuntime.start. rewrite Hread.
  destruct (JS.split_lines text) as [|l ls] eqn:E;
    [exfalso; exact (split_lines_nonempty text E) |].
  do 3 eexists. split; reflexivity.
Qed.

(** The scenario of the spec: a program of three lines is started, and
    stepped three times; the third step reports the end. *)
Example mock_three_line_scenario :
  let nl := String "010"%char EmptyString in
  let text := ("LOAD 1" ++ nl ++ "ADD 2" ++ nl ++ "HALT")%string in
  List.map fst
    (snd (MockRuntime.run_ops (fun _ => Some text)
            [MockRuntime.OpStart "program.misc" true; MockRuntime.OpStep;
             MockRuntime.OpStep; MockRuntime.OpStep]
            MockRuntime.init))
  = [JS.VStr "stopOnEntry"; JS.VStr "output";
     JS.VStr "stopOnStep"; JS.VStr "output";
     JS.VStr "stopOnStep"; JS.VStr "output";
     JS.VStr "end"].
Proof. reflexivity. Qed.

Lemma vocabulary_not_validated (evs : list Event) :
  forallb mock_vocabulary evs = true ->
  count_named "breakpointValidated" evs = 0%nat.
Proof.
  induction evs as [|e evs IH]; [reflexivity |].
  cbn [forallb]. intros H. apply andb_prop in H as [He Hevs].
  rewrite count_named_cons, (IH Hevs).
  destruct e as [[| | | |n| |] args]; try discriminate He.
  unfold mock_vocabulary, named in *. cbn [fst] in *.
  destruct (String.eqb_spec n "breakpointValidated") as [-> |]; [| reflexivity].
  discriminate He.
Qed.

Lemma mock_continue_vocabulary (fuel : nat) :
  forall (s s' : MockRuntime.state) evs p n,
    MockRuntime.continue fuel s = Some (s', evs, p, n) ->
    forallb mock_vocabulary evs = true.
Proof.
  induction fuel as [|fuel IH]; intros s s' evs p n H; [discriminate |].
  cbn [MockRuntime.continue] in H.
  destruct (mock_step_exclusive s) as (s1 & evs1 & ended & Hs & _ & _ & Hv).
  rewrite Hs in H. destruct ended.
  - inversion H; subst. exact Hv.
  - destruct (MockRuntime.continue fuel s1) as [[[[s2 evs2] p2] n2]|] eqn:Ec;
      [| discriminate].
    inversion H; subst. rewrite forallb_app, Hv. cbn [andb].
    eapply IH. exact Ec.
Qed.

Lemma mock_run_op_vocabulary readFile (o : MockRuntime.op)
    (s : MockRuntime.state) :
  forallb mock_vocabulary (snd (MockRuntime.run_op readFile o s)) = true.
Proof.
  destruct o as [path e | | l | | |]; cbn [MockRuntime.run_op].
  - unfold MockRuntime.start. destruct (readFile path); reflexivity.
  - reflexivity.
  - reflexivity.
  - destruct (mock_step_exclusive s) as (s1 & evs1 & ended & Hs & _ & _ & Hv).
    rewrite Hs. exact Hv.
  - reflexivity.
  - destruct (MockRuntime.continue (MockRuntime.calls s) s)
      as [[[[s2 evs2] p2] n2]|] eqn:Ec; [| reflexivity].
    cbn [snd]. eapply mock_continue_vocabulary. exact Ec.
Qed.

Lemma mock_run_ops_vocabulary readFile (os : list MockRuntime.op) :
  forall s : MockRuntime.state,
    forallb mock_vocabulary (snd (MockRuntime.run_ops readFile os s)) = true.
Proof.
  induction os as [|o os IH]; intros s; [reflexivity |].
  cbn [MockRuntime.run_ops].
  pose proof (mock_run_op_vocabulary readFile o s) as Ho.
  destruct (MockRuntime.run_op readFile o s) as [s1 evs1].
  specialize (IH s1).
  destruct (MockRuntime.run_ops readFile os s1) as [s2 evs2].
  cbn [snd] in *. rewrite forallb_app, Ho, IH. reflexivity.
Qed.

(** C10. In the standalone mock runtime [setBreakPoint] resolves, for every
    requested line, with [verified = false] and with [line] and [id] both the
    requested line; and whatever the session has the runtime do, in whatever
    order, no 'breakpointValidated' notification is among those it emits. *)
Theorem mock_breakpoints_never_verified :
  (forall (l : Z) (s : MockRuntime.state),
      MockRuntime.setBreakPoint l s =
        (s, [], JS.Fulfilled {| MockRuntime.verified := false;
                                MockRuntime.line := l;
                                MockRuntime.id := l |}))
  /\ (forall readFile (os : list MockRuntime.op) (s : MockRuntime.state),
         count_named "breakpointValidated"
           (snd (MockRuntime.run_ops readFile os s)) = 0%nat).
Proof.
  split.
  - intros l s. reflexivity.
  - intros readFile os s. apply vocabulary_not_validated.
    apply mock_run_ops_vocabulary.
Qed.

(** ** [RuntimeClient]: what one command does to the world *)

Ltac client_unfold :=
  unfold RuntimeClient.step, RuntimeClient.getBreakpoints,
    RuntimeClient.setBreakPoint, RuntimeClient.clearBreakpoints,
    RuntimeClient.getVariables, RuntimeClient.getStackFrames,
    RuntimeClient.continue, RuntimeClient.request, RuntimeClient.prepare,
    RuntimeClient.fetch, RuntimeClient.end_if_failed, RuntimeClient.delivered,
    RuntimeClient.getSourcePath, RuntimeClient.sendEvent,
    Monad.bind, Monad.ret;
  cbn [RuntimeClient.formatKeysAPI RuntimeClient.formatKeys_loop
       RuntimeClient.formatKey JS.keys List.map fst snd JS.assoc JS.set
       String.eqb Ascii.eqb Bool.eqb JS.toUpperCase].

Section ClientFacts.

Variable Backend : Type.
Variable serve : Http.Request -> Backend -> Http.outcome * Backend.

Lemma prepare_setRequest (l : Z) :
  RuntimeClient.prepare Http.POST Http.CBreakpoint "Set"
    (Some [("line", JS.VNum l)]) = JS.Normal (setRequest l).
Proof. reflexivity. Qed.

(** [step] sends the Step request and nothing else; it sends at most one
    notification: the one its reply names, or 'end' on a failure. *)
Lemma client_step_effect (w : RuntimeClient.world Backend) :
  exists new,
    RuntimeClient.emitted (snd (RuntimeClient.step Backend serve w))
    = RuntimeClient.emitted w ++ new
    /\ (List.length new <= 1)%nat
    /\ RuntimeClient.sent (snd (RuntimeClient.step Backend serve w))
       = RuntimeClient.sent w ++ [stepRequest].
Proof.
  client_unfold. fold stepRequest.
  destruct (serve stepRequest (RuntimeClient.backend w)) as [[| |v] b];
    cbn.
  - exists [ev "end" []]. split; [reflexivity | split; [cbn; lia | reflexivity]].
  - exists [ev "end" []]. split; [reflexivity | split; [cbn; lia | reflexivity]].
  - destruct (JS.get v "event") as [e|]; cbn.
    + destruct (JS.truthy e); cbn.
      * exists [(JS.get_opt v "event", [])].
        split; [reflexivity | split; [cbn; lia | reflexivity]].
      * exists []. rewrite List.app_nil_r.
        split; [reflexivity | split; [cbn; lia | reflexivity]].
    + exists []. rewrite List.app_nil_r.
      split; [reflexivity | split; [cbn; lia | reflexivity]].
Qed.

(** On a transport failure the handler of [step] reads [data.event] off
    [null]: [resolve] is never reached, and 'end' is sent all the same. *)
Lemma client_step_failure (w : RuntimeClient.world Backend) :
  Http.failed (fst (serve stepRequest (RuntimeClient.backend w))) = true ->
  fst (RuntimeClient.step Backend serve w) = JS.Pending
  /\ RuntimeClient.emitted (snd (RuntimeClient.step Backend serve w))
     = RuntimeClient.emitted w ++ [ev "end" []].
Proof.
  client_unfold. fold stepRequest.
  destruct (serve stepRequest (RuntimeClient.backend w)) as [[| |v] b];
    cbn; intros H; try discriminate H; split; reflexivity.
Qed.

(** The same for [getStackFrames], which reads [data.frames]. *)
Lemma client_getStackFrames_failure (w : RuntimeClient.world Backend) :
  Http.failed (fst (serve getStackFramesRequest (RuntimeClient.backend w)))
  = true ->
  fst (RuntimeClient.getStackFrames Backend serve w) = JS.Pending
  /\ RuntimeClient.emitted (snd (RuntimeClient.getStackFrames Backend serve w))
     = RuntimeClient.emitted w ++ [ev "end" []].
Proof.
  client_unfold. fold getStackFramesRequest.
  destruct (serve getStackFramesRequest (RuntimeClient.backend w))
    as [[| |v] b];
    cbn; intros H; try discriminate H; split; reflexivity.
Qed.

(** The commands whose handler does not look into the reply do resolve
    on a failure, with [null], and 'end' is sent. *)
Lemma client_setBreakPoint_failure (l : Z) (w : RuntimeClient.world Backend) :
  Http.failed (fst (serve (setRequest l) (RuntimeClient.backend w))) = true ->
  fst (RuntimeClient.setBreakPoint Backend serve l w) = JS.Fulfilled JS.VNull
  /\ RuntimeClient.emitted (snd (RuntimeClient.setBreakPoint Backend serve l w))
     = RuntimeClient.emitted w ++ [ev "end" []].
Proof.
  unfold RuntimeClient.setBreakPoint, RuntimeClient.request.
  rewrite prepare_setRequest. client_unfold.
  destruct (serve (setRequest l) (RuntimeClient.backend w)) as [[| |v] b];
    cbn; intros H; try discriminate H; split; reflexivity.
Qed.

Lemma client_getVariables_failure (w : RuntimeClient.world Backend) :
  Http.failed
    (fst (serve {| Http.method_ := Http.GET; Http.controller_ := Http.CVariable;
                   Http.endpoint := "Get"; Http.body := None |}
            (RuntimeClient.backend w))) = true ->
  fst (RuntimeClient.getVariables Backend serve w) = JS.Fulfilled JS.VNull
  /\ RuntimeClient.emitted (snd (RuntimeClient.getVariables Backend serve w))
     = RuntimeClient.emitted w ++ [ev "end" []].
Proof.
  client_unfold.
  destruct (serve _ (RuntimeClient.backend w)) as [[| |v] b];
    cbn; intros H; try discriminate H; split; reflexivity.
Qed.

Lemma client_getBreakpoints_failure (w : RuntimeClient.world Backend) :
  Http.failed
    (fst (serve {| Http.method_ := Http.GET; Http.controller_ := Http.CBreakpoint;
                   Http.endpoint := "Get"; Http.body := None |}
            (RuntimeClient.backend w))) = true ->
  fst (RuntimeClient.getBreakpoints Backend serve w) = JS.Fulfilled JS.VNull
  /\ RuntimeClient.emitted (snd (RuntimeClient.getBreakpoints Backend serve w))
     = RuntimeClient.emitted w ++ [ev "end" []].
Proof.
  client_unfold.
  destruct (serve _ (RuntimeClient.backend w)) as [[| |v] b];
    cbn; intros H; try discriminate H; split; reflexivity.
Qed.

(** [clearBreakpoints] resolves whatever the transport does, and sends the
    Clear request and nothing else. *)
Lemma client_clearBreakpoints_effect (w : RuntimeClient.world Backend) :
  fst (RuntimeClient.clearBreakpoints Backend serve w) = JS.Fulfilled tt
  /\ RuntimeClient.sent (snd (RuntimeClient.clearBreakpoints Backend serve w))
     = RuntimeClient.sent w ++ [clearRequest]
  /\ RuntimeClient.backend (snd (RuntimeClient.clearBreakpoints Backend serve w))
     = snd (serve clearRequest (RuntimeClient.backend w)).
Proof.
  client_unfold. fold clearRequest.
  destruct (serve clearRequest (RuntimeClient.backend w)) as [[| |v] b];
    cbn; repeat split.
Qed.

(** [setBreakPoint] always resolves, with the reply or with [null], and
    sends the Set request for its line and nothing else. *)
Lemma client_setBreakPoint_effect (l : Z) (w : RuntimeClient.world Backend) :
  fst (RuntimeClient.setBreakPoint Backend serve l w)
  = JS.Fulfilled (RuntimeClient.delivered
                    (fst (serve (setRequest l) (RuntimeClient.backend w))))
  /\ RuntimeClient.sent (snd (RuntimeClient.setBreakPoint Backend serve l w))
     = RuntimeClient.sent w ++ [setRequest l]
  /\ RuntimeClient.backend (snd (RuntimeClient.setBreakPoint Backend serve l w))
     = snd (serve (setRequest l) (RuntimeClient.backend w)).
Proof.
  unfold RuntimeClient.setBreakPoint, RuntimeClient.request.
  rewrite prepare_setRequest. client_unfold.
  destruct (serve (setRequest l) (RuntimeClient.backend w)) as [[| |v] b];
    cbn; repeat split.
Qed.

End ClientFacts.

(** ** [DebugSession]: breakpoints *)

Section SessionFacts.

Variable Backend : Type.
Variable serve : Http.Request -> Backend -> Http.outcome * Backend.

Lemma setAll_effect (c : DebugSession.Coordinates) (lines : list Z) :
  forall w : RuntimeClient.world Backend,
    fst (DebugSession.setAll Backend serve c lines w)
    = List.map JS.Fulfilled
        (fst (exchange serve (setRequests c lines) (RuntimeClient.backend w)))
    /\ RuntimeClient.sent (snd (DebugSession.setAll Backend serve c lines w))
       = RuntimeClient.sent w ++ setRequests c lines
    /\ RuntimeClient.backend (snd (DebugSession.setAll Backend serve c lines w))
       = snd (exchange serve (setRequests c lines) (RuntimeClient.backend w)).
Proof.
  induction lines as [|l lines IH]; intros w.
  - cbn. rewrite List.app_nil_r. repeat split.
  - cbn [DebugSession.setAll setRequests List.map exchange].
    unfold Monad.bind, Monad.ret.
    pose proof (client_setBreakPoint_effect Backend serve
                  (DebugSession.convertClientLineToDebugger c l) w)
      as (Hp & Hs & Hb).
    destruct (RuntimeClient.setBreakPoint Backend serve
                (DebugSession.convertClientLineToDebugger c l) w) as [p w1].
    cbn [fst snd] in Hp, Hs, Hb.
    specialize (IH w1) as (IHp & IHs & IHb).
    destruct (DebugSession.setAll Backend serve c lines w1) as [ps w2].
    cbn [fst snd] in *.
    fold (setRequests c lines) in *.
    rewrite Hb in IHp, IHb.
    destruct (serve (setRequest (DebugSession.convertClientLineToDebugger c l))
                (RuntimeClient.backend w)) as [o b1].
    cbn [fst snd] in *.
    destruct (exchange serve (setRequests c lines) b1) as [vs b2].
    cbn [fst snd List.map] in *.
    subst p ps. rewrite IHs, Hs, <- List.app_assoc. repeat split.
    exact IHb.
Qed.

(** What [setBreakPointsRequest] does, whatever the backend: it sends Clear,
    then one Set per requested line in the order of the lines, and answers
    with [Promise.all] of the breakpoints made from the replies. *)
Lemma setBreakPointsRequest_effect (c : DebugSession.Coordinates)
    (lines : list Z) (w : RuntimeClient.world Backend) :
  let b1 := snd (serve clearRequest (RuntimeClient.backend w)) in
  let r := exchange serve (setRequests c lines) b1 in
  fst (DebugSession.setBreakPointsRequest Backend serve c lines w)
  = DebugSession.all
      (List.map (fun data => DebugSession.toBreakpoint c (JS.Fulfilled data))
                (fst r))
  /\ RuntimeClient.sent
       (snd (DebugSession.setBreakPointsRequest Backend serve c lines w))
     = RuntimeClient.sent w ++ clearRequest :: setRequests c lines
  /\ RuntimeClient.backend
       (snd (DebugSession.setBreakPointsRequest Backend serve c lines w))
     = snd r.
Proof.
  intros b1 r. unfold DebugSession.setBreakPointsRequest.
  unfold Monad.bind, Monad.ret.
  pose proof (client_clearBreakpoints_effect Backend serve w) as (Hp & Hs & Hb).
  destruct (RuntimeClient.clearBreakpoints Backend serve w) as [p w1].
  cbn [fst snd] in Hp, Hs, Hb. subst p.
  pose proof (setAll_effect c lines w1) as (Ap & As & Ab).
  destruct (DebugSession.setAll Backend serve c lines w1) as [ps w2].
  cbn [fst snd] in *.
  rewrite Hb in Ap, Ab. fold b1 in Ap, Ab. fold r in Ap, Ab.
  rewrite Ap, List.map_map. split; [reflexivity |].
  rewrite As, Hs, <- List.app_assoc. split; [reflexivity | exact Ab].
Qed.

End SessionFacts.

Lemma exchange_length {Backend : Type}
    (serve : Http.Request -> Backend -> Http.outcome * Backend)
    (rs : list Http.Request) :
  forall b, List.length (fst (exchange serve rs b)) = List.length rs.
Proof.
  induction rs as [|r rs IH]; intros b; [reflexivity |].
  cbn [exchange]. destruct (serve r b) as [o b1].
  specialize (IH b1). destruct (exchange serve rs b1) as [vs b2].
  cbn [fst List.length] in *. rewrite IH. reflexivity.
Qed.

(** [Promise.all] has a value exactly when every promise has one, and the
    values then stand in the order of the promises. *)
Lemma all_Response {A} (l : list (DebugSession.answer A)) (xs : list A) :
  DebugSession.all l = DebugSession.Response xs
  <-> Forall2 (fun a x => a = DebugSession.Response x) l xs.
Proof.
  revert xs. induction l as [|a l IH]; intros xs.
  - cbn. split.
    + intros H. inversion H. constructor.
    + intros H. inversion H. reflexivity.
  - cbn [DebugSession.all]. split.
    + intros H. destruct a as [x | | |]; try discriminate H.
      * destruct (DebugSession.all l) as [ys | | |] eqn:E; try discriminate H.
        inversion H; subst. constructor; [reflexivity |]. apply IH. reflexivity.
    + intros H. inversion H as [| a' x l' xs' Ha Hl]; subst.
      apply IH in Hl. rewrite Hl. reflexivity.
Qed.

Lemma exchange_outcomes {Backend : Type}
    (serve : Http.Request -> Backend -> Http.outcome * Backend)
    (rs : list Http.Request) :
  forall b,
    exchange serve rs b
    = (List.map RuntimeClient.delivered (fst (outcomes serve rs b)),
       snd (outcomes serve rs b)).
Proof.
  induction rs as [|r rs IH]; intros b; [reflexivity |].
  cbn [exchange outcomes]. destruct (serve r b) as [o b1].
  rewrite (IH b1). destruct (outcomes serve rs b1) as [os b2]. reflexivity.
Qed.

Lemma outcomes_length {Backend : Type}
    (serve : Http.Request -> Backend -> Http.outcome * Backend)
    (rs : list Http.Request) :
  forall b, List.length (fst (outcomes serve rs b)) = List.length rs.
Proof.
  induction rs as [|r rs IH]; intros b; [reflexivity |].
  cbn [outcomes]. destruct (serve r b) as [o b1].
  specialize (IH b1). destruct (outcomes serve rs b1) as [os b2].
  cbn [fst List.length] in *. rewrite IH. reflexivity.
Qed.

(** A reply becomes a breakpoint when its fields can be read, whatever they
    are: [verified] and [id] are taken as they are, [line] goes through the
    translator. *)
Lemma toBreakpoint_read (c : DebugSession.Coordinates) (data : JS.value) :
  nullish data = false ->
  DebugSession.toBreakpoint c (JS.Fulfilled data)
  = DebugSession.Response
      {| DebugSession.verified := JS.get_opt data "verified";
         DebugSession.line :=
           DebugSession.convertValue (DebugSession.debuggerLinesStartAt1 c)
             (DebugSession.clientLinesStartAt1 c) (JS.get_opt data "line");
         DebugSession.id := JS.get_opt data "id" |}.
Proof. destruct data; intros H; try discriminate H; reflexivity. Qed.

(** What the observer is given for a request that failed, [null], makes the
    destructuring throw, as do the replies [null] and [undefined]. *)
Lemma toBreakpoint_unread (c : DebugSession.Coordinates) (o : Http.outcome) :
  answered o = false ->
  DebugSession.toBreakpoint c (JS.Fulfilled (RuntimeClient.delivered o))
  = DebugSession.NoResponse.
Proof.
  destruct o as [| |v]; try reflexivity.
  destruct v; intros H; try discriminate H; reflexivity.
Qed.

Lemma all_replies (c : DebugSession.Coordinates) (replies : list JS.value) :
  forallb (fun data => negb (nullish data)) replies = true ->
  DebugSession.all
    (List.map (fun data => DebugSession.toBreakpoint c (JS.Fulfilled data))
              replies)
  = DebugSession.Response
      (List.map
         (fun data =>
            {| DebugSession.verified := JS.get_opt data "verified";
               DebugSession.line :=
                 DebugSession.convertValue
                   (DebugSession.debuggerLinesStartAt1 c)
                   (DebugSession.clientLinesStartAt1 c)
                   (JS.get_opt data "line");
               DebugSession.id := JS.get_opt data "id" |})
         replies).
Proof.
  induction replies as [|data replies IH]; intros H; [reflexivity |].
  cbn [forallb] in H. apply andb_prop in H as [Hd Hrest].
  apply Bool.negb_true_iff in Hd.
  cbn [List.map DebugSession.all].
  rewrite (toBreakpoint_read c data Hd), (IH Hrest). reflexivity.
Qed.

Lemma all_unanswered (c : DebugSession.Coordinates) (os : list Http.outcome) :
  forallb answered os = false ->
  DebugSession.all
    (List.map (fun data => DebugSession.toBreakpoint c (JS.Fulfilled data))
              (List.map RuntimeClient.delivered os))
  = DebugSession.NoResponse.
Proof.
  induction os as [|o os IH]; intros H; [discriminate H |].
  cbn [forallb] in H. cbn [List.map DebugSession.all].
  destruct (answered o) eqn:Eo.
  - cbn [andb] in H. rewrite (IH H).
    destruct o as [| |v]; try discriminate Eo.
    cbn [RuntimeClient.delivered answered] in *.
    apply Bool.negb_true_iff in Eo.
    rewrite (toBreakpoint_read c v Eo). reflexivity.
  - rewrite (toBreakpoint_unread c o Eo). reflexivity.
Qed.

(** C8. [setBreakPointsRequest] sends, after Clear, one Set command per
    requested line, in the order of the lines, and the backend answers each
    of them. When every one of them comes to a reply whose fields can be
    read (neither [null] nor [undefined]), the response holds one breakpoint
    per requested line, in the order of the lines: the i-th breakpoint is
    made of the [verified], [line] and [id] of the reply to the i-th
    requested line, the line being translated to the client's numbering.
    When one of them fails in transport or comes to [null], no response is
    sent. *)
Theorem setBreakPoints_in_request_order :
  forall (Backend : Type)
         (serve : Http.Request -> Backend -> Http.outcome * Backend)
         (c : DebugSession.Coordinates) (lines : list Z)
         (w : RuntimeClient.world Backend),
    let os :=
      fst (outcomes serve (setRequests c lines)
             (snd (serve clearRequest (RuntimeClient.backend w)))) in
    let response :=
      fst (DebugSession.setBreakPointsRequest Backend serve c lines w) in
    RuntimeClient.sent
      (snd (DebugSession.setBreakPointsRequest Backend serve c lines w))
    = RuntimeClient.sent w ++ clearRequest :: setRequests c lines
    /\ List.length os = List.length lines
    /\ (forall replies : list JS.value,
          os = List.map Http.Reply replies ->
          forallb (fun data => negb (nullish data)) replies = true ->
          response
          = DebugSession.Response
              (List.map
                 (fun data =>
                    {| DebugSession.verified := JS.get_opt data "verified";
                       DebugSession.line :=
                         DebugSession.convertValue
                           (DebugSession.debuggerLinesStartAt1 c)
                           (DebugSession.clientLinesStartAt1 c)
                           (JS.get_opt data "line");
                       DebugSession.id := JS.get_opt data "id" |})
                 replies))
    /\ (forallb answered os = false -> response = DebugSession.NoResponse).
Proof.
  intros Backend serve c lines w os response.
  pose proof (setBreakPointsRequest_effect Backend serve c lines w)
    as (Hans & Hsent & _).
  cbv zeta in Hans. rewrite exchange_outcomes in Hans. cbn [fst] in Hans.
  fold os in Hans. fold response in Hans.
  split; [exact Hsent |].
  split.
  - unfold os. rewrite outcomes_length. unfold setRequests.
    apply List.length_map.
  - split.
    + intros replies Hos Hread. rewrite Hans, Hos, !List.map_map.
      cbn [RuntimeClient.delivered].
      exact (all_replies c replies Hread).
    + intros Hun. rewrite Hans. exact (all_unanswered c os Hun).
Qed.

(** A client that counts lines from 1 asks for the lines 3 and 6 of a
    backend that registers what it is given and answers with it: the
    backend is asked for its lines 2 and 5, and the response holds the
    breakpoint of line 3 and then the one of line 6, each with the id that
    the backend gave. A backend that cannot be reached: no response. *)
Lemma setBreakPoints_in_request_order_witness :
  fst (DebugSession.setBreakPointsRequest (gset Z) SpecBackend.serve
         (DebugSession.constructor true true) [3; 6] (fresh (∅ : gset Z)))
  = DebugSession.Response
      [ {| DebugSession.verified := JS.VBool true;
           DebugSession.line := DebugSession.CNum 3;
           DebugSession.id := JS.VNum 2 |};
        {| DebugSession.verified := JS.VBool true;
           DebugSession.line := DebugSession.CNum 6;
           DebugSession.id := JS.VNum 5 |} ]
  /\ fst (DebugSession.setBreakPointsRequest unit SpecBackend.unreachable
            (DebugSession.constructor true true) [3; 6] (fresh tt))
     = DebugSession.NoResponse.
Proof.
  split.
  - exact (proj1 (proj2 (proj2
             (setBreakPoints_in_request_order (gset Z) SpecBackend.serve
                (DebugSession.constructor true true) [3; 6]
                (fresh (∅ : gset Z)))))
             [JS.VObj [("verified", JS.VBool true); ("line", JS.VNum 2);
                       ("id", JS.VNum 2)];
              JS.VObj [("verified", JS.VBool true); ("line", JS.VNum 5);
                       ("id", JS.VNum 5)]]
             eq_refl eq_refl).
  - exact (proj2 (proj2 (proj2
             (setBreakPoints_in_request_order unit SpecBackend.unreachable
                (DebugSession.constructor true true) [3; 6] (fresh tt))))
             eq_refl).
Defined.

(** ** Full replacement of the breakpoint set *)

Section FullReplace.

Variable Backend : Type.
Variable serve : Http.Request -> Backend -> Http.outcome * Backend.

(** What the backend holds, as a set of lines, and the two laws of the
    spec's Breakpoint Manager: Clear discards every breakpoint, Set
    registers one line. *)
Variable registered : Backend -> gset Z.
Hypothesis clear_discards :
  forall b, registered (snd (serve clearRequest b)) = ∅.
Hypothesis set_registers :
  forall l b, registered (snd (serve (setRequest l) b)) = {[ l ]} ∪ registered b.

Lemma exchange_registers (ls : list Z) :
  forall b,
    registered (snd (exchange serve (List.map setRequest ls) b))
    = list_to_set ls ∪ registered b.
Proof.
  induction ls as [|l ls IH]; intros b.
  - cbn. set_solver.
  - cbn [List.map exchange].
    pose proof (set_registers l b) as Hl.
    destruct (serve (setRequest l) b) as [o b1]. cbn [snd] in Hl.
    specialize (IH b1).
    destruct (exchange serve (List.map setRequest ls) b1) as [vs b2].
    cbn [snd] in *. rewrite IH, Hl. set_solver.
Qed.

(** The Set requests of one [setBreakpoints] are in flight together: in
    whatever order they reach the backend, it is left with the same set. *)
Lemma exchange_registers_any_order (ls ls' : list Z) (b : Backend) :
  Permutation ls ls' ->
  registered (snd (exchange serve (List.map setRequest ls) b))
  = registered (snd (exchange serve (List.map setRequest ls') b)).
Proof.
  intros H. rewrite !exchange_registers. f_equal.
  apply list_to_set_perm_L. exact H.
Qed.

Lemma setBreakPointsRequest_registers (c : DebugSession.Coordinates)
    (lines : list Z) (w : RuntimeClient.world Backend) :
  registered
    (RuntimeClient.backend
       (snd (DebugSession.setBreakPointsRequest Backend serve c lines w)))
  = list_to_set (List.map (DebugSession.convertClientLineToDebugger c) lines).
Proof.
  pose proof (setBreakPointsRequest_effect Backend serve c lines w)
    as (_ & _ & Hb).
  cbv zeta in Hb. rewrite Hb. unfold setRequests.
  rewrite <- (List.map_map (DebugSession.convertClientLineToDebugger c) setRequest).
  rewrite exchange_registers, clear_discards. set_solver.
Qed.

(** C1. Two [setBreakpoints] in a row, for the lines [L1] and then [L2]:
    each sends Clear first and only then one Set per requested line, and
    the backend is left with exactly the lines of [L2] (in the backend's
    numbering), whatever [L1] was and whatever it shares with [L2]. *)
Theorem setBreakPoints_full_replace (c : DebugSession.Coordinates)
    (L1 L2 : list Z) (w : RuntimeClient.world Backend) :
  let w1 := snd (DebugSession.setBreakPointsRequest Backend serve c L1 w) in
  let w2 := snd (DebugSession.setBreakPointsRequest Backend serve c L2 w1) in
  RuntimeClient.sent w1
  = RuntimeClient.sent w ++ clearRequest :: setRequests c L1
  /\ RuntimeClient.sent w2
     = RuntimeClient.sent w1 ++ clearRequest :: setRequests c L2
  /\ registered (RuntimeClient.backend w2)
     = list_to_set (List.map (DebugSession.convertClientLineToDebugger c) L2).
Proof.
  intros w1 w2.
  pose proof (setBreakPointsRequest_effect Backend serve c L1 w) as (_ & H1 & _).
  pose proof (setBreakPointsRequest_effect Backend serve c L2 w1) as (_ & H2 & _).
  split; [exact H1 |]. split; [exact H2 |].
  apply setBreakPointsRequest_registers.
Qed.

End FullReplace.

Lemma SpecBackend_clear_discards (b : gset Z) :
  snd (SpecBackend.serve clearRequest b) = ∅.
Proof. reflexivity. Qed.

Lemma SpecBackend_set_registers (l : Z) (b : gset Z) :
  snd (SpecBackend.serve (setRequest l) b) = {[ l ]} ∪ b.
Proof. reflexivity. Qed.

(** The scenario of the spec: [setBreakpoints([2,5])] and then
    [setBreakpoints([5])], from a client that counts lines from 0 as the
    backend does, leave the backend with the set [{5}]. *)
Lemma setBreakPoints_full_replace_witness :
  let c := DebugSession.constructor false false in
  let w := fresh (∅ : gset Z) in
  let w1 := snd (DebugSession.setBreakPointsRequest (gset Z) SpecBackend.serve
                   c [2; 5] w) in
  let w2 := snd (DebugSession.setBreakPointsRequest (gset Z) SpecBackend.serve
                   c [5] w1) in
  RuntimeClient.sent w1
  = RuntimeClient.sent w ++ clearRequest :: setRequests c [2; 5]
  /\ RuntimeClient.sent w2
     = RuntimeClient.sent w1 ++ clearRequest :: setRequests c [5]
  /\ RuntimeClient.backend w2 = list_to_set [5].
Proof.
  exact (setBreakPoints_full_replace (gset Z) SpecBackend.serve (fun b => b)
           SpecBackend_clear_discards SpecBackend_set_registers
           (DebugSession.constructor false false) [2; 5] [5]
           (fresh (∅ : gset Z))).
Defined.

(** ** Coordinates *)

(** Translating a number to the other side and back gives it again, for
    each of the four ways to configure the two bases. *)
Lemma convert_round_trip (a b : bool) (n : Z) :
  DebugSession.convert a b (DebugSession.convert b a n) = n.
Proof. destruct a, b; unfold DebugSession.convert; lia. Qed.

Lemma coordinates_round_trip (c : DebugSession.Coordinates) (n : Z) :
  DebugSession.convertClientLineToDebugger c
    (DebugSession.convertDebuggerLineToClient c n) = n
  /\ DebugSession.convertDebuggerLineToClient c
       (DebugSession.convertClientLineToDebugger c n) = n
  /\ DebugSession.convertClientColumnToDebugger c
       (DebugSession.convertDebuggerColumnToClient c n) = n
  /\ DebugSession.convertDebuggerColumnToClient c
       (DebugSession.convertClientColumnToDebugger c n) = n.
Proof.
  unfold DebugSession.convertClientLineToDebugger,
    DebugSession.convertDebuggerLineToClient,
    DebugSession.convertClientColumnToDebugger,
    DebugSession.convertDebuggerColumnToClient.
  repeat split; apply convert_round_trip.
Qed.

(** The session is built with a debugger side that counts from 0. *)
Lemma constructor_zero_based (clientLines clientColumns : bool) :
  DebugSession.debuggerLinesStartAt1
    (DebugSession.constructor clientLines clientColumns) = false
  /\ DebugSession.debuggerColumnsStartAt1
       (DebugSession.constructor clientLines clientColumns) = false.
Proof. split; reflexivity. Qed.

(** In [setBreakPointsRequest] a line is translated once on its way in and
    once on its way out: against the backend of [SpecBackend], which answers
    with the line it was given, every requested line comes back as it was
    sent, from a client that counts from 1 as from one that counts from 0. *)
Lemma setBreakPoints_lines_come_back (c : DebugSession.Coordinates)
    (lines : list Z) (w : RuntimeClient.world (gset Z)) :
  fst (DebugSession.setBreakPointsRequest (gset Z) SpecBackend.serve c lines w)
  = DebugSession.Response
      (List.map
         (fun l =>
            {| DebugSession.verified := JS.VBool true;
               DebugSession.line := DebugSession.CNum l;
               DebugSession.id :=
                 JS.VNum (DebugSession.convertClientLineToDebugger c l) |})
         lines).
Proof.
  pose proof (setBreakPointsRequest_effect (gset Z) SpecBackend.serve c lines w)
    as (Hans & _ & _).
  cbv zeta in Hans. rewrite Hans. clear Hans.
  generalize (snd (SpecBackend.serve clearRequest (RuntimeClient.backend w))).
  induction lines as [|l lines IH]; intros b; [reflexivity |].
  cbn [setRequests List.map exchange].
  change (SpecBackend.serve
            (setRequest (DebugSession.convertClientLineToDebugger c l)) b)
    with (Http.Reply
            (JS.VObj [("verified", JS.VBool true);
                      ("line", JS.VNum (DebugSession.convertClientLineToDebugger c l));
                      ("id", JS.VNum (DebugSession.convertClientLineToDebugger c l))]),
          {[ DebugSession.convertClientLineToDebugger c l ]} ∪ b).
  specialize (IH ({[ DebugSession.convertClientLineToDebugger c l ]} ∪ b)).
  fold (setRequests c lines). cbv beta iota.
  destruct (exchange SpecBackend.serve (setRequests c lines)
              ({[ DebugSession.convertClientLineToDebugger c l ]} ∪ b))
    as [vs b2].
  cbn [fst List.map DebugSession.all] in *. rewrite IH.
  rewrite toBreakpoint_read by reflexivity.
  unfold JS.get_opt.
  cbn [RuntimeClient.delivered JS.get JS.assoc String.eqb Ascii.eqb Bool.eqb
       DebugSession.convertValue].
  unfold DebugSession.convertClientLineToDebugger at 1.
  rewrite convert_round_trip. reflexivity.
Qed.

(** [breakpointLocationsRequest] answers with the spread of what the backend
    replied, or not at all: the lines in it are the backend's own, and no
    [Coordinates] enter into the answer. *)
Lemma breakpointLocations_forwards {Backend : Type}
    (serve : Http.Request -> Backend -> Http.outcome * Backend)
    (w : RuntimeClient.world Backend) :
  fst (DebugSession.breakpointLocationsRequest Backend serve w)
  = DebugSession.Response
      (JS.VObj (JS.own_properties
                  (RuntimeClient.delivered
                     (fst (serve getBreakpointsRequest
                             (RuntimeClient.backend w)))))).
Proof.
  unfold DebugSession.breakpointLocationsRequest. client_unfold.
  fold getBreakpointsRequest.
  destruct (serve getBreakpointsRequest (RuntimeClient.backend w))
    as [[| |v] b]; reflexivity.
Qed.

(** C7, at the failing input. The backend holds a breakpoint on its line 4;
    for a client that counts lines from 1 this is line 5, and line 5 is what
    [setBreakPointsRequest] reports for it; [breakpointLocationsRequest]
    hands the client the backend's 4, which went through no translation. *)
Theorem breakpointLocations_untranslated :
  let c := DebugSession.constructor true true in
  let reply := JS.VArr [JS.VObj [("line", JS.VNum 4)]] in
  fst (DebugSession.breakpointLocationsRequest unit
         (SpecBackend.constant reply) (fresh tt))
  = DebugSession.Response (JS.VObj [("0", JS.VObj [("line", JS.VNum 4)])])
  /\ DebugSession.convertDebuggerLineToClient c 4 = 5
  /\ DebugSession.toBreakpoint c
       (JS.Fulfilled (JS.VObj [("verified", JS.VBool true);
                               ("line", JS.VNum 4); ("id", JS.VNum 4)]))
     = DebugSession.Response
         {| DebugSession.verified := JS.VBool true;
            DebugSession.line := DebugSession.CNum 5;
            DebugSession.id := JS.VNum 4 |}.
Proof. repeat split. Qed.

(** ** Launch *)

Lemma prepare_loadRequest (text : string) :
  RuntimeClient.prepare Http.POST Http.CDebug "Load"
    (Some [("file", JS.VStr text)]) = JS.Normal (loadRequest text).
Proof. reflexivity. Qed.

Lemma prepare_startRequest (stopOnEntry : bool) :
  RuntimeClient.prepare Http.POST Http.CDebug "Start"
    (Some [("stopOnEntry", JS.VBool stopOnEntry)])
  = JS.Normal (startRequest stopOnEntry).
Proof. reflexivity. Qed.

(** [start] resolves once the program text has been read, whatever the two
    requests come to and in whatever order they complete, with the first
    error that one of the replies reports. *)
Lemma client_start_resolves {Backend : Type}
    (serve : Http.Request -> Backend -> Http.outcome * Backend)
    (readFile : string -> option string) (path : string) (stopOnEntry : bool)
    (loadLast : bool) (text : string) (w : RuntimeClient.world Backend) :
  readFile path = Some text ->
  let '(o0, b0) := serve (loadRequest text) (RuntimeClient.backend w) in
  let '(o1, b1) := serve (startRequest stopOnEntry) b0 in
  let error := JS.or (JS.get_opt (RuntimeClient.delivered o0) "error")
                     (JS.get_opt (RuntimeClient.delivered o1) "error") in
  let event := JS.or (JS.get_opt (RuntimeClient.delivered o1) "event")
                     (JS.VStr EmptyString) in
  fst (RuntimeClient.start Backend serve readFile path stopOnEntry loadLast w)
  = JS.Fulfilled (JS.VObj [("error", error); ("event", event)]).
Proof.
  intros Hread. unfold RuntimeClient.start. rewrite Hread.
  rewrite prepare_loadRequest, prepare_startRequest.
  unfold RuntimeClient.setSource, RuntimeClient.fetch,
    RuntimeClient.end_if_failed, RuntimeClient.sendEvent,
    Monad.bind, Monad.ret.
  cbn [RuntimeClient.backend].
  destruct (serve (loadRequest text) (RuntimeClient.backend w)) as [o0 b0].
  cbn [RuntimeClient.backend].
  destruct (serve (startRequest stopOnEntry) b0) as [o1 b1].
  cbv zeta.
  destruct loadLast;
    destruct (Http.failed o0);
    destruct (negb (JS.truthy
                      (JS.or (JS.get_opt (RuntimeClient.delivered o0) "error")
                             (JS.get_opt (RuntimeClient.delivered o1) "error")))
              && JS.truthy
                   (JS.or (JS.get_opt (RuntimeClient.delivered o1) "event")
                          (JS.VStr EmptyString)))%bool;
    destruct (Http.failed o1); reflexivity.
Qed.

(** A reported error is what the handler of [start] reads as [error] of
    the reply, and it counts as true. *)
Lemma reported_error (o : Http.outcome) (e : string) :
  reported o = Some e ->
  JS.get_opt (RuntimeClient.delivered o) "error" = JS.VStr e
  /\ JS.truthy (JS.VStr e) = true.
Proof.
  destruct o as [| |v]; try discriminate.
  destruct v as [| | | | | |fields]; try discriminate.
  unfold JS.get_opt. cbn [reported RuntimeClient.delivered JS.get].
  destruct (JS.assoc "error" fields) as [[| | | |t| |]|]; try discriminate.
  destruct t as [|x rest]; [discriminate |].
  intros H. inversion H; subst. split; reflexivity.
Qed.

(** Where no error is reported, what the handler reads counts as false. *)
Lemma quiet_error (o : Http.outcome) :
  quiet o = true ->
  JS.truthy (JS.get_opt (RuntimeClient.delivered o) "error") = false.
Proof.
  destruct o as [| |v]; try reflexivity.
  destruct v as [| | | | | |fields]; try reflexivity.
  unfold JS.get_opt. cbn [quiet RuntimeClient.delivered JS.get].
  destruct (JS.assoc "error" fields) as [[| |[|]|n|t| |]|];
    try discriminate; try reflexivity.
  - destruct n; try discriminate; reflexivity.
  - destruct t; try discriminate; reflexivity.
Qed.

(** C9. Once the program text has been read, [launchRequest] answers
    according to what the backend reports for Load and for Start, in
    whatever order the two replies complete. If the reply to Load reports
    an error, the answer is an error response, never silence, whose message
    is "Runtime: " followed by the text of that error and which is flagged
    to be shown to the user; if Load reports none and the reply to Start
    reports one, the answer is the same kind of error response with the
    text of Start's error; if neither reports one, the plain response. *)
Theorem launch_reports_backend_error :
  forall (Backend : Type)
         (serve : Http.Request -> Backend -> Http.outcome * Backend)
         (readFile : string -> option string) (program : string)
         (stopOnEntry loadLast : bool) (text : string)
         (w : RuntimeClient.world Backend),
    readFile program = Some text ->
    let '(o0, b0) := serve (loadRequest text) (RuntimeClient.backend w) in
    let '(o1, b1) := serve (startRequest stopOnEntry) b0 in
    let response :=
      fst (DebugSession.launchRequest Backend serve readFile program
             stopOnEntry loadLast w) in
    (forall e,
        reported o0 = Some e ->
        response
        = DebugSession.ErrorResponse 1001 ("Runtime: " ++ e)%string true)
    /\ (forall e,
          quiet o0 = true ->
          reported o1 = Some e ->
          response
          = DebugSession.ErrorResponse 1001 ("Runtime: " ++ e)%string true)
    /\ (quiet o0 = true -> quiet o1 = true ->
        response = DebugSession.Response tt).
Proof.
  intros Backend serve readFile program stopOnEntry loadLast text w Hread.
  pose proof (client_start_resolves serve readFile program stopOnEntry
                loadLast text w Hread) as Hstart.
  unfold DebugSession.launchRequest, Monad.bind, Monad.ret.
  destruct (serve (loadRequest text) (RuntimeClient.backend w)) as [o0 b0].
  destruct (serve (startRequest stopOnEntry) b0) as [o1 b1].
  cbv zeta in Hstart. cbv zeta.
  destruct (RuntimeClient.start Backend serve readFile program stopOnEntry
              loadLast w) as [p w1].
  cbn [fst] in Hstart. subst p.
  cbn [JS.get JS.assoc String.eqb Ascii.eqb Bool.eqb].
  unfold JS.or.
  split; [| split].
  - intros e He. apply reported_error in He as [-> Ht].
    rewrite Ht, Ht. reflexivity.
  - intros e H0 He. apply quiet_error in H0. rewrite H0.
    apply reported_error in He as [-> Ht]. rewrite Ht. reflexivity.
  - intros H0 H1. apply quiet_error in H0. apply quiet_error in H1.
    rewrite H0, H1. reflexivity.
Qed.

(** Three backends, the reply to Load completing last. One rejects the
    program with "syntax error" and would report "no entry point" for
    Start: the launch fails with "Runtime: syntax error". One accepts the
    program and reports "no entry point" for Start: the launch fails with
    "Runtime: no entry point". One reports nothing: the launch succeeds. *)
Lemma launch_reports_backend_error_witness :
  fst (DebugSession.launchRequest unit
         (SpecBackend.debug
            (Http.Reply (JS.VObj [("error", JS.VStr "syntax error")]))
            (Http.Reply (JS.VObj [("error", JS.VStr "no entry point")])))
         (fun _ => Some "ADD 1") "program.misc" true true (fresh tt))
  = DebugSession.ErrorResponse 1001 "Runtime: syntax error" true
  /\ fst (DebugSession.launchRequest unit
            (SpecBackend.debug
               (Http.Reply (JS.VObj []))
               (Http.Reply (JS.VObj [("error", JS.VStr "no entry point")])))
            (fun _ => Some "ADD 1") "program.misc" true true (fresh tt))
     = DebugSession.ErrorResponse 1001 "Runtime: no entry point" true
  /\ fst (DebugSession.launchRequest unit
            (SpecBackend.debug
               (Http.Reply (JS.VObj []))
               (Http.Reply (JS.VObj [("event", JS.VStr "stopOnEntry")])))
            (fun _ => Some "ADD 1") "program.misc" true true (fresh tt))
     = DebugSession.Response tt.
Proof.
  split; [| split].
  - exact (proj1
             (launch_reports_backend_error unit
                (SpecBackend.debug
                   (Http.Reply (JS.VObj [("error", JS.VStr "syntax error")]))
                   (Http.Reply
                      (JS.VObj [("error", JS.VStr "no entry point")])))
                (fun _ => Some "ADD 1") "program.misc" true true "ADD 1"
                (fresh tt) eq_refl)
             "syntax error" eq_refl).
  - exact (proj1 (proj2
             (launch_reports_backend_error unit
                (SpecBackend.debug
                   (Http.Reply (JS.VObj []))
                   (Http.Reply
                      (JS.VObj [("error", JS.VStr "no entry point")])))
                (fun _ => Some "ADD 1") "program.misc" true true "ADD 1"
                (fresh tt) eq_refl))
             "no entry point" eq_refl eq_refl).
  - exact (proj2 (proj2
             (launch_reports_backend_error unit
                (SpecBackend.debug
                   (Http.Reply (JS.VObj []))
                   (Http.Reply (JS.VObj [("event", JS.VStr "stopOnEntry")])))
                (fun _ => Some "ADD 1") "program.misc" true true "ADD 1"
                (fresh tt) eq_refl))
             eq_refl eq_refl).
Defined.

(** ** Stepping and running *)

(** C4, as it is written, fails on [RuntimeClient.step]: for a backend whose
    reply to Step names the stop reason 'stopOnBreakpoint', the call resolves
    with the reply, which is no boolean, and the one notification it sends
    is neither 'stopOnStep' nor 'end'. *)
Lemma step_exclusive_counterexample :
  exists v : JS.value,
    v = JS.VObj [("event", JS.VStr "stopOnBreakpoint")]
    /\ fst (RuntimeClient.step unit (SpecBackend.constant v) (fresh tt))
       = JS.Fulfilled v
    /\ RuntimeClient.emitted
         (snd (RuntimeClient.step unit (SpecBackend.constant v) (fresh tt)))
       = [ev "stopOnBreakpoint" []]
    /\ ~ step_exclusive_at v.
Proof.
  eexists. split; [reflexivity |]. split; [reflexivity |].
  split; [reflexivity |].
  unfold step_exclusive_at. cbn. intros [[ended H] _]. discriminate H.
Qed.

(** C4, amended. In the standalone mock runtime one call of [step] resolves
    with a boolean flag and sends either one 'stopOnStep' or one 'end', the
    flag telling which; a program of N lines, stepped from its first line
    until the flag is set, takes N calls, which send N-1 'stopOnStep' and
    then the single 'end', the last notification of all. [RuntimeClient.step]
    sends at most one notification per call, so never both. *)
Theorem step_notifications_amended :
  (forall s : MockRuntime.state,
      exists s' evs ended,
        MockRuntime.step s = (s', evs, JS.Fulfilled ended)
        /\ (count_named "stopOnStep" evs + count_named "end" evs = 1)%nat
        /\ count_named "end" evs = (if ended then 1 else 0)%nat)
  /\ (forall (path text : option string) (l : string) (ls : list string),
         let s := {| MockRuntime.sourcePath := path;
                     MockRuntime.sourceText := text;
                     MockRuntime.sourceLines := Some (l :: ls);
                     MockRuntime.__mockLine := 0 |} in
         exists s' evs,
           MockRuntime.steps_until_end s (S (List.length ls)) s' evs
           /\ count_named "stopOnStep" evs = List.length ls
           /\ count_named "end" evs = 1%nat
           /\ List.last evs (ev "stopOnStep" []) = ev "end" [])
  /\ (forall (Backend : Type)
             (serve : Http.Request -> Backend -> Http.outcome * Backend)
             (w : RuntimeClient.world Backend),
         exists new,
           RuntimeClient.emitted (snd (RuntimeClient.step Backend serve w))
           = RuntimeClient.emitted w ++ new
           /\ (List.length new <= 1)%nat).
Proof.
  split; [| split].
  - intros s.
    destruct (mock_step_exclusive s) as (s' & evs & ended & H1 & H2 & H3 & _).
    exists s', evs, ended. repeat split; assumption.
  - intros path text l ls s.
    destruct (mock_continue_runs (List.length ls) s (S (List.length ls)))
      as (s' & evs & Hc & Hs & He & Hl & _).
    + unfold mock_remaining, MockRuntime.lineCount, s.
      cbn [MockRuntime.sourceLines MockRuntime.__mockLine List.length]. lia.
    + lia.
    + exists s', evs. split; [| repeat split; assumption].
      apply mock_continue_refines. eexists. exact Hc.
  - intros Backend serve w.
    destruct (client_step_effect Backend serve w) as (new & H1 & H2 & _).
    exists new. split; assumption.
Qed.

(** On the standalone mock runtime [continue] always resolves, after
    one call of [step] per remaining line and one more, and it resolves
    exactly as calling [step] until the end does. *)
Lemma mock_continue_is_step_loop (s : MockRuntime.state) :
  (exists s' evs,
      MockRuntime.continue (MockRuntime.calls s) s
      = Some (s', evs, JS.Fulfilled tt, MockRuntime.calls s))
  /\ (forall s' evs n,
         (exists fuel,
             MockRuntime.continue fuel s = Some (s', evs, JS.Fulfilled tt, n))
         <-> MockRuntime.steps_until_end s n s' evs).
Proof.
  split; [apply mock_continue_total |].
  intros s' evs n. apply mock_continue_refines.
Qed.

(** C3, at the failing input. [RuntimeClient.continue] is not that loop: in
    whatever state, it returns a promise that is never settled, without a
    call of [step] and without a request; [continueRequest], which waits
    for it, never responds. *)
Theorem client_continue_never_resolves :
  forall (Backend : Type)
         (serve : Http.Request -> Backend -> Http.outcome * Backend)
         (w : RuntimeClient.world Backend),
    RuntimeClient.continue Backend w = (JS.Pending, w)
    /\ DebugSession.continueRequest Backend w = (DebugSession.NoResponse, w).
Proof.
  intros Backend serve w. split; reflexivity.
Qed.

(** ** Transport failures *)

(** C2, at the failing input. When the Step request fails in transport,
    'end' is sent, but the promise of [step] is never settled: the handler
    is given [null] and throws on [data.event] before it reaches [resolve];
    [nextRequest], which waits for the promise, never responds. *)
Theorem step_unresolved_on_transport_failure :
  forall (Backend : Type)
         (serve : Http.Request -> Backend -> Http.outcome * Backend)
         (w : RuntimeClient.world Backend),
    Http.failed (fst (serve stepRequest (RuntimeClient.backend w))) = true ->
    fst (RuntimeClient.step Backend serve w) = JS.Pending
    /\ fst (DebugSession.nextRequest Backend serve w) = DebugSession.NoResponse
    /\ RuntimeClient.emitted (snd (RuntimeClient.step Backend serve w))
       = RuntimeClient.emitted w ++ [ev "end" []].
Proof.
  intros Backend serve w H.
  destruct (client_step_failure Backend serve w H) as [Hp He].
  split; [exact Hp |]. split; [| exact He].
  unfold DebugSession.nextRequest, Monad.bind, Monad.ret.
  destruct (RuntimeClient.step Backend serve w) as [p w1].
  cbn [fst] in Hp. subst p. reflexivity.
Qed.

(** The backend cannot be reached: [step] is left pending. *)
Lemma step_unresolved_on_transport_failure_witness :
  fst (RuntimeClient.step unit SpecBackend.unreachable (fresh tt)) = JS.Pending
  /\ fst (DebugSession.nextRequest unit SpecBackend.unreachable (fresh tt))
     = DebugSession.NoResponse
  /\ RuntimeClient.emitted
       (snd (RuntimeClient.step unit SpecBackend.unreachable (fresh tt)))
     = [ev "end" []].
Proof.
  exact (step_unresolved_on_transport_failure unit SpecBackend.unreachable
           (fresh tt) eq_refl).
Defined.

(** In [src/mockRuntime.ts] a failed request tells the observer nothing:
    [start] is left pending as well, with 'end' sent. *)
Lemma httpmock_start_failure {Backend : Type}
    (serve : Http.Request -> Backend -> Http.outcome * Backend)
    (readFile : string -> option string) (fuel : nat) (path text : string)
    (stopAtEntry : bool) (w : RuntimeClient.world Backend) :
  readFile path = Some text ->
  Http.failed
    (fst (serve {| Http.method_ := Http.POST; Http.controller_ := Http.CDebug;
                   Http.endpoint := "Start"; Http.body := Some (JS.VObj []) |}
            (RuntimeClient.backend w))) = true ->
  fst (HttpMock.start Backend serve readFile (S fuel) path stopAtEntry w)
  = JS.Pending.
Proof.
  intros Hread. unfold HttpMock.start, HttpMock.request. rewrite Hread.
  cbn [HttpMock.stringify HttpMock.stringify_property HttpMock.formatKeysAPI
       HttpMock.traverse option_map List.filter].
  unfold RuntimeClient.setSource, RuntimeClient.fetch, RuntimeClient.sendEvent,
    Monad.bind, Monad.ret.
  cbn [RuntimeClient.backend].
  destruct (serve _ (RuntimeClient.backend w)) as [[| |v] b]; cbn;
    intros H; try discriminate H; reflexivity.
Qed.

(** ** Key normalisation *)

Lemma toUpperCase_idempotent (c : ascii) :
  JS.toUpperCase (JS.toUpperCase c) = JS.toUpperCase c.
Proof.
  destruct c as [b0 b1 b2 b3 b4 b5 b6 b7].
  destruct b0, b1, b2, b3, b4, b5, b6, b7; reflexivity.
Qed.

Lemma capitalize_idempotent (k : string) :
  capitalize (capitalize k) = capitalize k.
Proof.
  destruct k as [|c rest]; [reflexivity |].
  cbn. rewrite toUpperCase_idempotent. reflexivity.
Qed.

Lemma toUpperCase_underscore (c : ascii) :
  Ascii.eqb (JS.toUpperCase c) "_" = Ascii.eqb c "_".
Proof.
  destruct c as [b0 b1 b2 b3 b4 b5 b6 b7].
  destruct b0, b1, b2, b3, b4, b5, b6, b7; reflexivity.
Qed.

(** Upper-casing the first letter neither makes nor unmakes [__proto__]. *)
Lemma capitalize_ordinary (k : string) :
  ordinary (capitalize k) = ordinary k.
Proof.
  destruct k as [|c rest]; [reflexivity |].
  unfold ordinary. cbn [capitalize String.eqb].
  rewrite toUpperCase_underscore. reflexivity.
Qed.

Lemma assign_ordinary (k : string) (v : JS.value)
    (o : list (string * JS.value)) :
  ordinary k = true -> JS.assign k v o = JS.set k v o.
Proof.
  unfold ordinary, JS.assign. intros H. apply Bool.negb_true_iff in H.
  rewrite H. reflexivity.
Qed.

Lemma assign_proto (k : string) (v : JS.value)
    (o : list (string * JS.value)) :
  ordinary k = false -> JS.assign k v o = o.
Proof.
  unfold ordinary, JS.assign. intros H. apply Bool.negb_false_iff in H.
  rewrite H. reflexivity.
Qed.

Lemma formatKey_capitalize (k : string) :
  nonempty k = true -> RuntimeClient.formatKey k = JS.Normal (capitalize k).
Proof. destruct k; [discriminate | reflexivity]. Qed.

Lemma formatKey_Normal (k fk : string) :
  RuntimeClient.formatKey k = JS.Normal fk ->
  nonempty k = true /\ fk = capitalize k.
Proof.
  destruct k; [discriminate |]. cbn. intros H. inversion H. split; reflexivity.
Qed.

Lemma assoc_fresh (k : string) (pre post : list (string * JS.value))
    (v : JS.value) :
  ~ In k (JS.keys pre) ->
  JS.assoc k (pre ++ (k, v) :: post) = Some v.
Proof.
  induction pre as [|[k' v'] pre IH]; intros Hk; cbn.
  - rewrite String.eqb_refl. reflexivity.
  - destruct (String.eqb_spec k k') as [-> | Hne].
    + exfalso. apply Hk. left. reflexivity.
    + apply IH. intros Hin. apply Hk. right. exact Hin.
Qed.

Lemma set_fresh (k : string) (v : JS.value) (o : list (string * JS.value)) :
  ~ In k (JS.keys o) -> JS.set k v o = o ++ [(k, v)].
Proof.
  induction o as [|[k' v'] o IH]; intros Hk; cbn; [reflexivity |].
  destruct (String.eqb_spec k k') as [-> | Hne].
  - exfalso. apply Hk. left. reflexivity.
  - rewrite IH; [reflexivity |]. intros Hin. apply Hk. right. exact Hin.
Qed.

Lemma keys_set (k : string) (v : JS.value) (o : list (string * JS.value)) :
  JS.keys (JS.set k v o)
  = if existsb (String.eqb k) (JS.keys o) then JS.keys o else JS.keys o ++ [k].
Proof.
  induction o as [|[k' v'] o IH]; cbn; [reflexivity |].
  destruct (String.eqb_spec k k') as [-> | Hne]; cbn; [reflexivity |].
  unfold JS.keys in IH. rewrite IH.
  destruct (existsb (String.eqb k) (List.map fst o)); reflexivity.
Qed.

(** The loop on an object whose capitalised keys are all different and
    none of which is [__proto__]: every field is written once, under its
    capitalised key, in the order met. *)
Lemma formatKeys_loop_distinct (post : list (string * JS.value)) :
  forall pre : list (string * JS.value),
    forallb nonempty (JS.keys post) = true ->
    forallb ordinary (JS.keys post) = true ->
    List.NoDup (List.map capitalize (JS.keys (pre ++ post))) ->
    RuntimeClient.formatKeys_loop (pre ++ post) (JS.keys post)
      (List.map capitalize_field pre)
    = JS.Normal (List.map capitalize_field (pre ++ post)).
Proof.
  induction post as [|[k v] post IH]; intros pre Hne Hord Hnd.
  - cbn. rewrite List.app_nil_r. reflexivity.
  - cbn [JS.keys List.map fst forallb] in Hne, Hord.
    apply andb_prop in Hne as [Hk Hne].
    apply andb_prop in Hord as [Hok Hord].
    cbn [JS.keys List.map fst RuntimeClient.formatKeys_loop].
    rewrite (formatKey_capitalize k Hk).
    rewrite assign_ordinary by (rewrite capitalize_ordinary; exact Hok).
    unfold JS.keys in Hnd. rewrite List.map_app, List.map_app in Hnd.
    cbn [List.map fst] in Hnd.
    pose proof (List.NoDup_remove_2 _ _ _ Hnd) as Hfresh.
    assert (Hpre : ~ In (capitalize k)
                       (List.map capitalize (List.map fst pre))).
    { intros Hin. apply Hfresh. apply List.in_or_app. left. exact Hin. }
    rewrite assoc_fresh.
    2:{ intros Hin. apply Hpre. apply List.in_map. exact Hin. }
    rewrite set_fresh.
    2:{ unfold JS.keys. rewrite List.map_map. cbn [capitalize_field fst].
        rewrite <- List.map_map. exact Hpre. }
    specialize (IH (pre ++ [(k, v)])).
    rewrite <- List.app_assoc in IH. cbn [List.app] in IH.
    rewrite List.map_app in IH. cbn [List.map] in IH.
    unfold capitalize_field at 2 in IH. cbn [fst snd] in IH.
    apply IH; [exact Hne | exact Hord |].
    unfold JS.keys. rewrite List.map_app, List.map_app.
    cbn [List.map fst]. exact Hnd.
Qed.

(** [formatKeysAPI] of [src/runtimeClient.ts] on an object with no empty
    key, no key [__proto__] and no two keys that differ in the case of the
    first letter only: the same fields, each under its key with the first
    letter capitalised. *)
Lemma client_formatKeysAPI_capitalizes (value : list (string * JS.value)) :
  forallb nonempty (JS.keys value) = true ->
  forallb ordinary (JS.keys value) = true ->
  List.NoDup (List.map capitalize (JS.keys value)) ->
  RuntimeClient.formatKeysAPI value
  = JS.Normal (List.map capitalize_field value).
Proof.
  intros Hne Hord Hnd. unfold RuntimeClient.formatKeysAPI.
  exact (formatKeys_loop_distinct value [] Hne Hord Hnd).
Qed.

(** What the loop keeps true of its accumulator: the keys are capitalised,
    different from each other, and none of them is [__proto__]. *)
Lemma formatKeys_loop_invariant (value : list (string * JS.value))
    (keys : list string) :
  forall acc r : list (string * JS.value),
    RuntimeClient.formatKeys_loop value keys acc = JS.Normal r ->
    List.NoDup (JS.keys acc) ->
    Forall (fun k => nonempty k = true /\ capitalize k = k
                     /\ ordinary k = true) (JS.keys acc) ->
    List.NoDup (JS.keys r)
    /\ Forall (fun k => nonempty k = true /\ capitalize k = k
                        /\ ordinary k = true) (JS.keys r).
Proof.
  induction keys as [|k keys IH]; intros acc r H Hnd Hall.
  - cbn in H. inversion H; subst. split; assumption.
  - cbn [RuntimeClient.formatKeys_loop] in H.
    destruct (RuntimeClient.formatKey k) as [fk|] eqn:Ek; [| discriminate].
    apply formatKey_Normal in Ek as [Hk ->].
    destruct (ordinary (capitalize k)) eqn:Eo.
    + rewrite assign_ordinary in H by exact Eo.
      apply IH in H; [exact H | |]; rewrite keys_set;
        destruct (existsb (String.eqb (capitalize k)) (JS.keys acc)) eqn:Ex;
        try assumption.
      * apply List.NoDup_app; [exact Hnd | | ].
        -- repeat constructor. intros [].
        -- intros x Hx [<- | []].
           assert (existsb (String.eqb (capitalize k)) (JS.keys acc) = true)
             as Ht; [| congruence].
           apply List.existsb_exists. exists (capitalize k).
           split; [exact Hx | apply String.eqb_refl].
      * apply Forall_app. split; [exact Hall |].
        constructor; [| constructor].
        split; [destruct k; [discriminate | reflexivity] |].
        split; [apply capitalize_idempotent | exact Eo].
    + rewrite assign_proto in H by exact Eo.
      exact (IH acc r H Hnd Hall).
Qed.

(** X9. Formatting what [formatKeysAPI] returned gives the same object again. *)
Lemma client_formatKeysAPI_idempotent (value r : list (string * JS.value)) :
  RuntimeClient.formatKeysAPI value = JS.Normal r ->
  RuntimeClient.formatKeysAPI r = JS.Normal r.
Proof.
  intros H. unfold RuntimeClient.formatKeysAPI in H.
  apply formatKeys_loop_invariant in H as [Hnd Hall];
    [| constructor | constructor].
  rewrite client_formatKeysAPI_capitalizes.
  - f_equal. clear Hnd. induction r as [|[k v] r IH]; [reflexivity |].
    inversion Hall as [| x l (_ & Hk & _) Hrest]; subst.
    cbn [List.map]. unfold capitalize_field at 1. cbn [fst snd].
    rewrite Hk, (IH Hrest). reflexivity.
  - clear Hnd. induction Hall as [| k l (Hk & _ & _) _ IH]; [reflexivity |].
    cbn [forallb]. rewrite Hk, IH. reflexivity.
  - clear Hnd. induction Hall as [| k l (_ & _ & Hk) _ IH]; [reflexivity |].
    cbn [forallb]. rewrite Hk, IH. reflexivity.
  - replace (List.map capitalize (JS.keys r)) with (JS.keys r); [exact Hnd |].
    clear Hnd. induction Hall as [| k l (_ & Hk & _) _ IH]; [reflexivity |].
    cbn [List.map]. rewrite Hk, <- IH. reflexivity.
Qed.

(** In [src/mockRuntime.ts] the replacer is asked first for the empty key,
    with the whole payload as value, and answers with an object without
    fields: nothing of the payload is left in what is written. *)
Lemma httpmock_stringify_empty (fuel : nat) (body : JS.value) :
  HttpMock.stringify (S fuel) HttpMock.formatKeysAPI body = Some (JS.VObj []).
Proof. reflexivity. Qed.

(** C6, at the failing input. [start] of [src/mockRuntime.ts] with
    [stopAtEntry] set sends a Start request whose body is the empty object,
    where the keys of the payload, normalised as [src/runtimeClient.ts]
    normalises them, would be [{ StopAtEntry: true }]; and the body is the
    empty object whatever the payload is. *)
Theorem httpmock_body_loses_payload :
  (forall (fuel : nat) (body : JS.value),
      HttpMock.stringify (S fuel) HttpMock.formatKeysAPI body
      = Some (JS.VObj []))
  /\ RuntimeClient.sent
       (snd (HttpMock.start unit
               (SpecBackend.constant (JS.VObj []))
               (fun _ => Some "ADD 1") 1 "program.misc" true (fresh tt)))
     = [ {| Http.method_ := Http.POST; Http.controller_ := Http.CDebug;
            Http.endpoint := "Start"; Http.body := Some (JS.VObj []) |} ]
  /\ RuntimeClient.formatKeysAPI [("stopAtEntry", JS.VBool true)]
     = JS.Normal [("StopAtEntry", JS.VBool true)].
Proof.
  split; [intros fuel body; apply httpmock_stringify_empty |].
  split; reflexivity.
Qed.

(** ** Re-framing of the byte stream *)

Lemma string_app_cons (x : ascii) (a b : string) :
  (String x a ++ b)%string = String x (a ++ b).
Proof. reflexivity. Qed.

Lemma string_app_nil_l (b : string) : (EmptyString ++ b)%string = b.
Proof. reflexivity. Qed.

Lemma string_app_assoc (a b c : string) :
  ((a ++ b) ++ c)%string = (a ++ (b ++ c))%string.
Proof.
  induction a as [|x a IH]; [reflexivity |].
  rewrite !string_app_cons, IH. reflexivity.
Qed.

Lemma string_length_app (a b : string) :
  String.length (a ++ b) = (String.length a + String.length b)%nat.
Proof.
  induction a as [|x a IH]; [reflexivity |].
  rewrite string_app_cons. cbn [String.length]. rewrite IH. reflexivity.
Qed.

Lemma substring_prefix (m post : string) :
  String.substring 0 (String.length m) (m ++ post) = m.
Proof.
  induction m as [|x m IH].
  - rewrite string_app_nil_l. destruct post; reflexivity.
  - rewrite string_app_cons. cbn [String.length String.substring].
    rewrite IH. reflexivity.
Qed.

Lemma substring_middle (pre m post : string) :
  String.substring (String.length pre) (String.length m) (pre ++ m ++ post) = m.
Proof.
  induction pre as [|x pre IH].
  - rewrite string_app_nil_l. apply substring_prefix.
  - rewrite string_app_cons. cbn [String.length String.substring]. exact IH.
Qed.

Lemma delta_open : StreamRuntime.delta "{" = 1.
Proof. reflexivity. Qed.

(** Scanning over filler outside a message changes nothing but the index. *)
Lemma scan_filler (jsons sep : string) :
  forall (rest : string) (i cs : nat) (acc : list string),
    StreamRuntime.filler sep = true ->
    StreamRuntime.scan jsons (sep ++ rest) i 0 false cs acc
    = StreamRuntime.scan jsons rest (i + String.length sep) 0 false cs acc.
Proof.
  induction sep as [|x sep IH]; intros rest i cs acc Hf.
  - rewrite string_app_nil_l. cbn [String.length].
    rewrite Nat.add_0_r. reflexivity.
  - cbn [StreamRuntime.filler] in Hf. apply andb_prop in Hf as [Hx Hsep].
    apply Z.eqb_eq in Hx.
    rewrite string_app_cons. cbn [StreamRuntime.scan String.length].
    rewrite Hx. change (0 + 0) with 0.
    change (0 <? 0) with false. cbv beta iota delta [andb negb Z.eqb].
    rewrite (IH rest (S i) cs acc Hsep). f_equal. lia.
Qed.

(** Scanning inside a message, at depth [d], up to the character that
    brings the depth back to zero: the unit from [cs] up to and including that
    character is added. *)
Lemma scan_body (jsons body : string) :
  forall (rest : string) (i : nat) (d : Z) (cs : nat) (acc : list string),
    0 < d ->
    StreamRuntime.closes_at_end d body = true ->
    StreamRuntime.scan jsons (body ++ rest) i d true cs acc
    = StreamRuntime.scan jsons rest (i + String.length body) 0 false cs
        (acc ++ [String.substring cs (i + String.length body - cs) jsons]).
Proof.
  induction body as [|x body IH]; intros rest i d cs acc Hd Hc;
    [discriminate Hc |].
  cbn [StreamRuntime.closes_at_end] in Hc.
  rewrite string_app_cons. cbn [StreamRuntime.scan String.length].
  destruct (Z.eqb_spec (d + StreamRuntime.delta x) 0) as [E | E].
  - apply String.eqb_eq in Hc. subst body.
    assert (Hlt : (0 <? d + StreamRuntime.delta x) = false)
      by (apply Z.ltb_ge; lia).
    rewrite Hlt, string_app_nil_l. cbn [andb negb String.length].
    rewrite E, Nat.add_1_r. reflexivity.
  - apply andb_prop in Hc as [Hpos Hc].
    rewrite Hpos. cbn [andb negb].
    rewrite (IH rest (S i) _ cs acc) by (try apply Z.ltb_lt; assumption).
    rewrite Nat.add_succ_r. reflexivity.
Qed.

(** Scanning one complete message that starts at index [i]. *)
Lemma scan_message (pre m post : string) :
  forall (cs : nat) (acc : list string),
    StreamRuntime.message m = true ->
    StreamRuntime.scan (pre ++ m ++ post) (m ++ post) (String.length pre)
      0 false cs acc
    = StreamRuntime.scan (pre ++ m ++ post) post
        (String.length pre + String.length m) 0 false (String.length pre)
        (acc ++ [m]).
Proof.
  intros cs acc Hm. destruct m as [|x body]; [discriminate Hm |].
  cbn [StreamRuntime.message] in Hm. apply andb_prop in Hm as [Hx Hbody].
  apply Ascii.eqb_eq in Hx. subst x.
  rewrite (string_app_cons "{" body post) at 2.
  cbn [StreamRuntime.scan]. rewrite delta_open.
  change (0 + 1) with 1. change (0 <? 1) with true. change (1 =? 0) with false.
  cbv beta iota delta [andb negb].
  rewrite (scan_body _ body post (S (String.length pre)) 1
             (String.length pre) acc) by (try lia; assumption).
  replace (S (String.length pre) + String.length body - String.length pre)%nat
    with (String.length (String "{" body)) by (cbn; lia).
  rewrite substring_middle. cbn [String.length].
  rewrite Nat.add_succ_r. reflexivity.
Qed.

Lemma scan_messages (ms : list (string * string)) :
  forall (pre : string) (cs : nat) (acc : list string),
    forallb (fun p => (StreamRuntime.message (fst p)
                       && StreamRuntime.filler (snd p))%bool) ms = true ->
    StreamRuntime.scan (pre ++ StreamRuntime.interleave ms)
      (StreamRuntime.interleave ms) (String.length pre) 0 false cs acc
    = acc ++ List.map fst ms.
Proof.
  induction ms as [|[m sep] ms IH]; intros pre cs acc Hms.
  - cbn. rewrite List.app_nil_r. reflexivity.
  - cbn [forallb fst snd] in Hms.
    apply andb_prop in Hms as [Hm Hms]. apply andb_prop in Hm as [Hm Hsep].
    cbn [StreamRuntime.interleave List.map fst].
    rewrite scan_message by exact Hm.
    rewrite scan_filler by exact Hsep.
    specialize (IH (pre ++ m ++ sep)%string (String.length pre)
                   (acc ++ [m]) Hms).
    rewrite !string_app_assoc in IH.
    rewrite !string_length_app in IH. rewrite Nat.add_assoc in IH.
    rewrite IH, <- List.app_assoc. reflexivity.
Qed.

(** Scanning to the end of a chunk inside a message that does not close. *)
Lemma scan_open_body (jsons body : string) :
  forall (i : nat) (d d' : Z) (cs : nat) (acc : list string),
    0 < d ->
    depth_after d body = Some d' ->
    StreamRuntime.scan jsons body i d true cs acc = acc.
Proof.
  induction body as [|c body IH]; intros i d d' cs acc Hd H; [reflexivity |].
  cbn in H. cbn [StreamRuntime.scan].
  destruct (Z.ltb_spec 0 (d + StreamRuntime.delta c)) as [Hlt|];
    [| discriminate].
  cbn [negb]. rewrite Bool.andb_false_r.
  destruct (Z.eqb_spec (d + StreamRuntime.delta c) 0); [lia |].
  cbn [andb]. exact (IH _ _ _ _ _ Hlt H).
Qed.

(** The head of a message, cut anywhere before its last character, is
    the head of a message that does not close. *)
Lemma closes_at_end_open (x : string) :
  forall (y : string) (d : Z),
    y <> EmptyString ->
    StreamRuntime.closes_at_end d (x ++ y) = true ->
    exists d', depth_after d x = Some d'.
Proof.
  induction x as [|c x IH]; intros y d Hy H.
  - exists d. reflexivity.
  - rewrite string_app_cons in H. cbn [StreamRuntime.closes_at_end] in H.
    cbn [depth_after].
    destruct (Z.eqb_spec (d + StreamRuntime.delta c) 0) as [E | E].
    + apply String.eqb_eq in H. destruct x; [| discriminate H].
      rewrite string_app_nil_l in H. contradiction.
    + apply andb_prop in H as [Hpos H]. rewrite Hpos.
      exact (IH y _ Hy H).
Qed.

(** A chunk that is the head of a message that does not close gives no
    unit. *)
Lemma units_open_tail (tail : string) :
  open_tail tail = true -> StreamRuntime.units tail = [].
Proof.
  intros Htail. destruct tail as [|c body]; [discriminate Htail |].
  cbn [open_tail] in Htail. apply andb_prop in Htail as [Hc Hbody].
  apply Ascii.eqb_eq in Hc. subst c.
  destruct (depth_after 1 body) as [d'|] eqn:Ed; [| discriminate Hbody].
  unfold StreamRuntime.units.
  cbn [StreamRuntime.scan]. rewrite delta_open.
  change (0 + 1) with 1. change (0 <? 1) with true. change (1 =? 0) with false.
  cbv beta iota delta [andb negb].
  exact (scan_open_body _ body _ 1 d' _ _ ltac:(lia) Ed).
Qed.

Lemma substring_prefix_of (s : string) :
  forall m, exists post, s = (String.substring 0 m s ++ post)%string.
Proof.
  induction s as [|c s IH]; intros m.
  - exists EmptyString. destruct m; reflexivity.
  - destruct m as [|m]; cbn [String.substring].
    + exists (String c s). reflexivity.
    + destruct (IH m) as [post Hpost]. exists post.
      rewrite string_app_cons, <- Hpost. reflexivity.
Qed.

(** [substring] cuts its result out of its argument. *)
Lemma substring_within (s : string) :
  forall n m, within (String.substring n m s) s.
Proof.
  induction s as [|c s IH]; intros n m.
  - exists EmptyString, EmptyString. destruct n, m; reflexivity.
  - destruct n as [|n].
    + destruct (substring_prefix_of (String c s) m) as [post Hpost].
      exists EmptyString, post. rewrite string_app_nil_l. exact Hpost.
    + cbn [String.substring]. destruct (IH n m) as (pre & post & H).
      exists (String c pre), post. rewrite string_app_cons, <- H. reflexivity.
Qed.

(** Every unit that the scanner finds lies within the chunk it scans. *)
Lemma scan_within (jsons rest : string) :
  forall (i : nat) (bv : Z) (inside : bool) (cs : nat) (acc : list string),
    Forall (fun u => within u jsons) acc ->
    Forall (fun u => within u jsons)
      (StreamRuntime.scan jsons rest i bv inside cs acc).
Proof.
  induction rest as [|c rest IH]; intros i bv inside cs acc Hacc;
    [exact Hacc |].
  cbn [StreamRuntime.scan]. apply IH.
  match goal with |- context [if ?b then acc ++ _ else acc] => destruct b end;
    [| exact Hacc].
  apply Forall_app. split; [exact Hacc |].
  constructor; [apply substring_within | constructor].
Qed.

Lemma within_length (u c : string) :
  within u c -> (String.length u <= String.length c)%nat.
Proof.
  intros (pre & post & ->). rewrite !string_length_app. lia.
Qed.

Lemma received_within (chunks : list string) (u : string) :
  In u (StreamRuntime.received chunks) ->
  exists c, In c chunks /\ within u c.
Proof.
  unfold StreamRuntime.received. intros H.
  apply List.in_concat in H as (us & Hus & Hu).
  apply List.in_map_iff in Hus as (c & <- & Hc).
  exists c. split; [exact Hc |].
  pose proof (scan_within c c 0 0 false 0 [] ltac:(constructor)) as Hall.
  rewrite List.Forall_forall in Hall. exact (Hall u Hu).
Qed.

(** C5, as it is written, fails in two ways. Where a message spans two
    chunks: the message [{}], delivered as the chunk [{] and then the chunk
    [}], is never handed on, though the scanner finds it when it comes in
    one chunk; a message that follows the tail of a cut one in the same
    chunk is lost with it; and of a nested message that is cut after its
    head, the inner object is handed on as if it were a message. And
    within one chunk, where a complete JSON message has a brace inside a
    text: of the message whose field [a] is the text of one closing brace
    [getJsonArray] returns the part up to that brace, and the message [{}]
    that follows it in the chunk is lost. *)
Lemma reframing_counterexample :
  StreamRuntime.message "{}" = true
  /\ StreamRuntime.units "{}" = ["{}"]
  /\ StreamRuntime.getJsonArray "{" = None
  /\ StreamRuntime.getJsonArray "}" = None
  /\ StreamRuntime.received ["{"; "}"] = []
  /\ StreamRuntime.received ["{"; "}{}"] = []
  /\ StreamRuntime.received ["{}{}"] = ["{}"; "{}"]
  /\ (nested_head ++ nested_rest)%string = nested_message
  /\ StreamRuntime.received [nested_head; nested_rest] = [nested_inner]
  /\ StreamRuntime.received [nested_message] = [nested_message]
  /\ StreamRuntime.units brace_in_text = [brace_in_text_cut]
  /\ brace_in_text_cut <> brace_in_text
  /\ StreamRuntime.getJsonArray (brace_in_text ++ "{}")
     = Some ("[" ++ brace_in_text_cut ++ "]")%string.
Proof. repeat split; discriminate. Qed.

(** C5, amended. Within one chunk the scanner follows the depth of the
    braces, every brace character counted, and closes a unit when the depth
    is back at zero: a chunk made of messages whose braces balance at their
    last character and not before, with text free of braces before, between
    and after them, gives exactly these messages, in their order;
    [getJsonArray] joins them into one array text, and returns nothing for a
    chunk without a message. Each chunk is scanned on its own: what is
    handed on for a sequence of chunks is what each of them gives by itself,
    every unit handed on lies within one chunk, and so a text that is
    spread over several chunks, none of which holds all of it, is never
    handed on as one unit. *)
Theorem getJsonArray_reframes_one_chunk :
  (forall (sep0 : string) (ms : list (string * string)),
      StreamRuntime.filler sep0 = true ->
      forallb (fun p => (StreamRuntime.message (fst p)
                         && StreamRuntime.filler (snd p))%bool) ms = true ->
      StreamRuntime.units (sep0 ++ StreamRuntime.interleave ms)
      = List.map fst ms
      /\ StreamRuntime.getJsonArray (sep0 ++ StreamRuntime.interleave ms)
         = match ms with
           | [] => None
           | _ => Some ("[" ++ String.concat "," (List.map fst ms) ++ "]")%string
           end)
  /\ (forall chunks1 chunks2 : list string,
        StreamRuntime.received (chunks1 ++ chunks2)
        = StreamRuntime.received chunks1 ++ StreamRuntime.received chunks2)
  /\ (forall (chunks : list string) (u : string),
        In u (StreamRuntime.received chunks) ->
        exists c, In c chunks /\ within u c)
  /\ (forall chunks : list string,
        (forall c, In c chunks ->
                   (String.length c
                    < String.length (String.concat EmptyString chunks))%nat) ->
        ~ In (String.concat EmptyString chunks)
             (StreamRuntime.received chunks))
  /\ (forall a b : string,
        a <> EmptyString -> b <> EmptyString ->
        StreamRuntime.message (a ++ b) = true ->
        StreamRuntime.units a = []
        /\ ~ In (a ++ b)%string (StreamRuntime.received [a; b])).
Proof.
  assert (Hspan : forall (chunks : list string) (m : string),
             (forall c, In c chunks ->
                        (String.length c < String.length m)%nat) ->
             ~ In m (StreamRuntime.received chunks)).
  { intros chunks m Hshort Hin.
    apply received_within in Hin as (c & Hc & Hw).
    apply within_length in Hw. specialize (Hshort c Hc). lia. }
  split; [| split; [| split; [| split]]].
  - intros sep0 ms Hsep Hms.
    assert (Hu : StreamRuntime.units (sep0 ++ StreamRuntime.interleave ms)
                 = List.map fst ms).
    { unfold StreamRuntime.units.
      rewrite scan_filler by exact Hsep.
      rewrite Nat.add_0_l.
      exact (scan_messages ms sep0 0%nat [] Hms). }
    split; [exact Hu |].
    unfold StreamRuntime.getJsonArray. rewrite Hu.
    destruct ms as [|[m sep] ms]; reflexivity.
  - intros chunks1 chunks2. unfold StreamRuntime.received.
    rewrite List.map_app, List.concat_app. reflexivity.
  - exact received_within.
  - intros chunks Hshort. exact (Hspan chunks _ Hshort).
  - intros a b Ha Hb Hm. split.
    + apply units_open_tail.
      destruct a as [|c a']; [contradiction |].
      rewrite string_app_cons in Hm. cbn [StreamRuntime.message] in Hm.
      apply andb_prop in Hm as [Hc Hbody].
      cbn [open_tail]. rewrite Hc. cbn [andb].
      destruct (closes_at_end_open a' b 1 Hb Hbody) as [d' ->]. reflexivity.
    + apply Hspan. intros c [<- | [<- | []]]; rewrite string_length_app.
      * destruct b; [contradiction | cbn [String.length]; lia].
      * destruct a; [contradiction | cbn [String.length]; lia].
Qed.

(** Three messages in one chunk, with a blank before the last. *)
Lemma getJsonArray_reframes_one_chunk_witness :
  StreamRuntime.units "{a}{b{c}} {}" = ["{a}"; "{b{c}}"; "{}"]
  /\ StreamRuntime.getJsonArray "{a}{b{c}} {}" = Some "[{a},{b{c}},{}]".
Proof.
  exact (proj1 getJsonArray_reframes_one_chunk EmptyString
           [("{a}", EmptyString); ("{b{c}}", " "); ("{}", EmptyString)]
           eq_refl eq_refl).
Defined.

(* ===================================================================== *)
(** * Further properties of the code *)
(* ===================================================================== *)

(** ** The standalone mock runtime: lines, restarts, the end *)

(** [continue] changes nothing but the current line, which it moves to the
    last line of the program unless the runtime is already at or past it. *)
Lemma mock_continue_final (fuel : nat) :
  forall (s s' : MockRuntime.state) evs p n,
    MockRuntime.continue fuel s = Some (s', evs, p, n) ->
    s' = {| MockRuntime.sourcePath := MockRuntime.sourcePath s;
            MockRuntime.sourceText := MockRuntime.sourceText s;
            MockRuntime.sourceLines := MockRuntime.sourceLines s;
            MockRuntime.__mockLine :=
              Z.max (MockRuntime.__mockLine s) (MockRuntime.lineCount s - 1) |}.
Proof.
  induction fuel as [|fuel IH]; intros s s' evs p n H; [discriminate |].
  cbn [MockRuntime.continue] in H.
  destruct (Z.lt_ge_cases (MockRuntime.__mockLine s) (MockRuntime.lineCount s - 1))
    as [Hlt | Hge].
  - rewrite mock_step_not_last in H by assumption.
    destruct (MockRuntime.continue fuel _) as [[[[s2 evs2] p2] n2]|] eqn:Ec;
      [| discriminate].
    inversion H; subst. apply IH in Ec. rewrite Ec.
    unfold MockRuntime.lineCount. cbn. f_equal.
    unfold MockRuntime.lineCount in Hlt. lia.
  - rewrite mock_step_last in H by assumption.
    inversion H; subst. destruct s' as [a b c d]. cbn in *. f_equal. lia.
Qed.

Lemma mock_run_op_line (readFile : string -> option string)
    (o : MockRuntime.op) (s : MockRuntime.state) :
  MockRuntime.__mockLine s
  <= MockRuntime.__mockLine (fst (MockRuntime.run_op readFile o s)).
Proof.
  destruct o as [path e | | l | | |]; cbn [MockRuntime.run_op].
  - unfold MockRuntime.start. destruct (readFile path); cbn; lia.
  - cbn. lia.
  - cbn. lia.
  - unfold MockRuntime.step.
    destruct (MockRuntime.__mockLine s <? MockRuntime.lineCount s - 1); cbn; lia.
  - cbn. lia.
  - destruct (MockRuntime.continue (MockRuntime.calls s) s)
      as [[[[s2 evs2] p2] n2]|] eqn:Ec; [| cbn; lia].
    apply mock_continue_final in Ec. subst s2. cbn. lia.
Qed.

(** X1. The current line of the mock runtime never goes back, whatever
    the session has it do; in particular [start] does not rewind it, so a
    program started after another one has been run is entered on the line
    where the earlier one was left. *)
Theorem mock_line_never_rewinds :
  forall (readFile : string -> option string) (os : list MockRuntime.op)
         (s : MockRuntime.state),
    MockRuntime.__mockLine s
    <= MockRuntime.__mockLine (fst (MockRuntime.run_ops readFile os s))
    /\ forall path e,
         MockRuntime.__mockLine
           (fst (MockRuntime.run_op readFile (MockRuntime.OpStart path e) s))
         = MockRuntime.__mockLine s.
Proof.
  intros readFile os s. split.
  - revert s. induction os as [|o os IH]; intros s; [cbn; lia |].
    cbn [MockRuntime.run_ops].
    pose proof (mock_run_op_line readFile o s) as Ho.
    destruct (MockRuntime.run_op readFile o s) as [s1 evs1].
    specialize (IH s1).
    destruct (MockRuntime.run_ops readFile os s1) as [s2 evs2].
    cbn [fst] in *. lia.
  - intros path e. cbn [MockRuntime.run_op]. unfold MockRuntime.start.
    destruct (readFile path); reflexivity.
Qed.

(** X2. Once [step] has reported the end, stepping on changes nothing and
    reports the end again: every further call sends one more 'end'. *)
Theorem mock_end_is_absorbing :
  forall (readFile : string -> option string) (s s' : MockRuntime.state)
         (evs : list Event) (k : nat),
    MockRuntime.step s = (s', evs, JS.Fulfilled true) ->
    s' = s
    /\ evs = [ev "end" []]
    /\ MockRuntime.run_ops readFile (List.repeat MockRuntime.OpStep k) s
       = (s, List.repeat (ev "end" []) k).
Proof.
  intros readFile s s' evs k H.
  assert (Hge : MockRuntime.lineCount s - 1 <= MockRuntime.__mockLine s).
  { destruct (Z.lt_ge_cases (MockRuntime.__mockLine s)
                (MockRuntime.lineCount s - 1)) as [Hlt | Hge]; [| exact Hge].
    rewrite mock_step_not_last in H by assumption. discriminate H. }
  rewrite mock_step_last in H by assumption. inversion H; subst s' evs.
  split; [reflexivity |]. split; [reflexivity |].
  induction k as [|k IH]; [reflexivity |].
  cbn [List.repeat MockRuntime.run_ops MockRuntime.run_op].
  rewrite mock_step_last by assumption. rewrite IH. reflexivity.
Qed.

(** A program of two lines, started and stepped to its last line: the
    next [step] reports the end and leaves the runtime on that line, and so
    do the three after it. *)
Lemma mock_end_is_absorbing_witness :
  (MockRuntime.sourceLines mock_on_last_line = Some ["LOAD 1"; "HALT"]
   /\ MockRuntime.__mockLine mock_on_last_line = 1)
  /\ fst (fst (MockRuntime.step mock_on_last_line)) = mock_on_last_line
  /\ snd (fst (MockRuntime.step mock_on_last_line)) = [ev "end" []]
  /\ MockRuntime.run_ops (fun _ => Some two_line_program)
       (List.repeat MockRuntime.OpStep 3) mock_on_last_line
     = (mock_on_last_line, List.repeat (ev "end" []) 3).
Proof.
  split; [split; reflexivity |].
  exact (mock_end_is_absorbing (fun _ => Some two_line_program)
           mock_on_last_line
           (fst (fst (MockRuntime.step mock_on_last_line)))
           (snd (fst (MockRuntime.step mock_on_last_line))) 3 eq_refl).
Defined.

(** X3. [continue] resolves from every state; it leaves the runtime on the
    last line of the program (or where it was, if that is further on) with
    nothing else changed, and the next [step] reports the end. *)
Theorem mock_continue_reaches_last_line :
  forall s : MockRuntime.state,
    exists s' evs,
      MockRuntime.continue (MockRuntime.calls s) s
      = Some (s', evs, JS.Fulfilled tt, MockRuntime.calls s)
      /\ s' = {| MockRuntime.sourcePath := MockRuntime.sourcePath s;
                 MockRuntime.sourceText := MockRuntime.sourceText s;
                 MockRuntime.sourceLines := MockRuntime.sourceLines s;
                 MockRuntime.__mockLine :=
                   Z.max (MockRuntime.__mockLine s)
                         (MockRuntime.lineCount s - 1) |}
      /\ MockRuntime.step s' = (s', [ev "end" []], JS.Fulfilled true).
Proof.
  intros s. destruct (mock_continue_total s) as (s' & evs & H).
  exists s', evs. split; [exact H |].
  pose proof (mock_continue_final _ _ _ _ _ _ H) as Hs'.
  split; [exact Hs' |].
  apply mock_step_last. rewrite Hs'. unfold MockRuntime.lineCount. cbn. lia.
Qed.

Lemma mock_reachable_run_op (readFile : string -> option string)
    (o : MockRuntime.op) (s : MockRuntime.state) :
  mock_reachable s -> mock_reachable (fst (MockRuntime.run_op readFile o s)).
Proof.
  intros [Hl Hp]. unfold mock_reachable.
  destruct o as [path e | | l | | |]; cbn [MockRuntime.run_op].
  - unfold MockRuntime.start.
    destruct (readFile path);
      cbn [fst MockRuntime.__mockLine MockRuntime.sourceLines
           MockRuntime.sourcePath];
      (split; [exact Hl | discriminate]).
  - split; assumption.
  - split; assumption.
  - unfold MockRuntime.step.
    destruct (MockRuntime.__mockLine s <? MockRuntime.lineCount s - 1);
      cbn [fst MockRuntime.__mockLine MockRuntime.sourceLines
           MockRuntime.sourcePath];
      (split; [lia | exact Hp]).
  - split; assumption.
  - destruct (MockRuntime.continue (MockRuntime.calls s) s)
      as [[[[s2 evs2] p2] n2]|] eqn:Ec; [| split; assumption].
    apply mock_continue_final in Ec. subst s2.
    cbn [fst MockRuntime.__mockLine MockRuntime.sourceLines
         MockRuntime.sourcePath].
    split; [lia | exact Hp].
Qed.

Lemma mock_reachable_run_ops (readFile : string -> option string)
    (os : list MockRuntime.op) :
  forall s, mock_reachable s ->
            mock_reachable (fst (MockRuntime.run_ops readFile os s)).
Proof.
  induction os as [|o os IH]; intros s Hs; [exact Hs |].
  cbn [MockRuntime.run_ops].
  pose proof (mock_reachable_run_op readFile o s Hs) as Ho.
  destruct (MockRuntime.run_op readFile o s) as [s1 evs1].
  specialize (IH s1 Ho).
  destruct (MockRuntime.run_ops readFile os s1) as [s2 evs2].
  exact IH.
Qed.

Lemma mock_reachable_init : mock_reachable MockRuntime.init.
Proof. split; [cbn; lia | intros H; contradiction H; reflexivity]. Qed.

(** X4. In every state the mock runtime can reach from its initial one, a
    [step] that does not end moves to the next line and sends 'stopOnStep'
    followed by one 'output' that carries the text of that line, the path of
    the program and the number of the line. *)
Theorem mock_step_prints_current_line :
  forall (readFile : string -> option string) (os : list MockRuntime.op)
         (s' : MockRuntime.state) (evs : list Event),
    let s := fst (MockRuntime.run_ops readFile os MockRuntime.init) in
    MockRuntime.step s = (s', evs, JS.Fulfilled false) ->
    exists ls text path,
      MockRuntime.sourceLines s = Some ls
      /\ MockRuntime.sourcePath s = Some path
      /\ MockRuntime.__mockLine s' = MockRuntime.__mockLine s + 1
      /\ nth_error ls (Z.to_nat (MockRuntime.__mockLine s')) = Some text
      /\ evs = [ev "stopOnStep" [];
                ev "output" [JS.VStr text; JS.VStr path;
                             JS.VNum (MockRuntime.__mockLine s');
                             JS.VUndefined]].
Proof.
  intros readFile os s' evs s H.
  destruct (mock_reachable_run_ops readFile os MockRuntime.init
              mock_reachable_init) as [Hl Hp].
  fold s in Hl, Hp. clearbody s.
  assert (Hlt : MockRuntime.__mockLine s < MockRuntime.lineCount s - 1).
  { destruct (Z.lt_ge_cases (MockRuntime.__mockLine s)
                (MockRuntime.lineCount s - 1)) as [Hlt | Hge]; [exact Hlt |].
    rewrite mock_step_last in H by assumption. discriminate H. }
  rewrite mock_step_not_last in H by assumption.
  inversion H; subst s' evs. clear H.
  unfold MockRuntime.lineCount in Hlt.
  destruct (MockRuntime.sourceLines s) as [ls|] eqn:Els; [| lia].
  destruct (MockRuntime.sourcePath s) as [path|] eqn:Ep;
    [| exfalso; apply Hp; [discriminate | reflexivity]].
  destruct (nth_error ls (Z.to_nat (MockRuntime.__mockLine s + 1)))
    as [text|] eqn:En.
  - exists ls, text, path. cbn [MockRuntime.__mockLine].
    repeat split; try assumption.
    unfold MockRuntime.printLine, MockRuntime.lineAt, MockRuntime.path_value.
    cbn [MockRuntime.__mockLine MockRuntime.sourceLines MockRuntime.sourcePath].
    rewrite ?Els, ?Ep, En.
    destruct (Z.ltb_spec (MockRuntime.__mockLine s + 1) 0); [lia | reflexivity].
  - apply nth_error_None in En. lia.
Qed.

(** A program of two lines, started and stepped once. *)
Lemma mock_step_prints_current_line_witness :
  exists ls text path,
    Some ["LOAD 1"; "HALT"] = Some ls
    /\ Some "program.misc" = Some path
    /\ 1 = 0 + 1
    /\ nth_error ls (Z.to_nat 1) = Some text
    /\ [ev "stopOnStep" [];
        ev "output" [JS.VStr "HALT"; JS.VStr "program.misc"; JS.VNum 1;
                     JS.VUndefined]]
       = [ev "stopOnStep" [];
          ev "output" [JS.VStr text; JS.VStr path; JS.VNum 1; JS.VUndefined]].
Proof.
  exact (mock_step_prints_current_line
           (fun _ => Some (String "L" (String "O" (String "A" (String "D"
                     (String " " (String "1" (String "010"
                     (String "H" (String "A" (String "L" (String "T"
                      EmptyString))))))))))))
           [MockRuntime.OpStart "program.misc" true] _ _ eq_refl).
Defined.

Lemma split_lines_length (text : string) :
  List.length (JS.split_lines text) = S (newlines text).
Proof.
  induction text as [|c rest IH]; [reflexivity |].
  cbn [JS.split_lines newlines].
  destruct (Ascii.eqb c "010") eqn:Ec.
  - cbn [List.length]. rewrite IH. reflexivity.
  - cbn [Nat.add].
    assert (Hgen : List.length
                     (match JS.split_lines rest with
                      | h :: t => String c h :: t
                      | [] => [String c EmptyString]
                      end) = S (newlines rest)).
    { destruct (JS.split_lines rest) as [|h t] eqn:E;
        [exfalso; exact (split_lines_nonempty rest E) | exact IH]. }
    destruct c as [[] [] [] [] [] [] [] []]; try exact Hgen.
    destruct rest as [|[[] [] [] [] [] [] [] []] rest']; exact Hgen.
Qed.

(** X5. [start] splits the program text at its line breaks, so a text
    with k line breaks has k+1 lines: started on a fresh runtime and run
    with [continue], it takes k+1 calls of [step], which send exactly k
    'stopOnStep' and then one 'end'. A text that ends in a line break thus
    has a last, empty line to step through. *)
Theorem mock_steps_count_line_breaks :
  forall (readFile : string -> option string) (path text : string)
         (stopAtEntry : bool),
    readFile path = Some text ->
    let s := fst (fst (MockRuntime.start readFile path stopAtEntry
                         MockRuntime.init)) in
    MockRuntime.lineCount s = Z.of_nat (S (newlines text))
    /\ exists s' evs,
         MockRuntime.continue (MockRuntime.calls s) s
         = Some (s', evs, JS.Fulfilled tt, S (newlines text))
         /\ count_named "stopOnStep" evs = newlines text
         /\ count_named "end" evs = 1%nat.
Proof.
  intros readFile path text stopAtEntry Hread s.
  assert (Hs : s = {| MockRuntime.sourcePath := Some path;
                      MockRuntime.sourceText := Some text;
                      MockRuntime.sourceLines := Some (JS.split_lines text);
                      MockRuntime.__mockLine := 0 |}).
  { unfold s, MockRuntime.start. rewrite Hread. reflexivity. }
  assert (Hc : MockRuntime.lineCount s = Z.of_nat (S (newlines text))).
  { rewrite Hs. unfold MockRuntime.lineCount. cbn [MockRuntime.sourceLines].
    rewrite split_lines_length. reflexivity. }
  split; [exact Hc |].
  assert (Hrem : mock_remaining s = newlines text).
  { unfold mock_remaining. rewrite Hc, Hs. cbn [MockRuntime.__mockLine]. lia. }
  destruct (mock_continue_runs (newlines text) s (MockRuntime.calls s))
    as (s' & evs & H & Hstep & Hend & _).
  - exact Hrem.
  - unfold MockRuntime.calls. fold (mock_remaining s). rewrite Hrem. lia.
  - exists s', evs. repeat split; assumption.
Qed.

(** The text "LOAD 1", line break, "HALT", line break: two line breaks. *)
Lemma mock_steps_count_line_breaks_witness :
  let text := String "L" (String "010" (String "H" (String "010" EmptyString))) in
  let s := fst (fst (MockRuntime.start (fun _ => Some text) "p" true
                       MockRuntime.init)) in
  MockRuntime.lineCount s = 3
  /\ exists s' evs,
       MockRuntime.continue (MockRuntime.calls s) s
       = Some (s', evs, JS.Fulfilled tt, 3%nat)
       /\ count_named "stopOnStep" evs = 2%nat
       /\ count_named "end" evs = 1%nat.
Proof.
  exact (mock_steps_count_line_breaks
           (fun _ => Some (String "L" (String "010" (String "H"
                             (String "010" EmptyString)))))
           "p" (String "L" (String "010" (String "H" (String "010" EmptyString))))
           true eq_refl).
Defined.

(** ** Re-framing: what one chunk gives, whatever it holds *)

Lemma string_app_one_assoc (a : string) (c : ascii) (b : string) :
  ((a ++ String c EmptyString) ++ b)%string = (a ++ String c b)%string.
Proof. rewrite string_app_assoc. reflexivity. Qed.

Lemma delta_range (c : ascii) :
  StreamRuntime.delta c = 1 /\ c = "{"%char
  \/ StreamRuntime.delta c = -1 \/ StreamRuntime.delta c = 0.
Proof.
  unfold StreamRuntime.delta.
  destruct (Ascii.eqb_spec c "{"%char) as [-> |]; [left; split; reflexivity |].
  right. destruct (Ascii.eqb c "}"%char); [left | right]; reflexivity.
Qed.

Lemma depth_after_positive (body : string) :
  forall d d', 0 < d -> depth_after d body = Some d' -> 0 < d'.
Proof.
  induction body as [|c body IH]; intros d d' Hd H; cbn in H.
  - inversion H; subst. exact Hd.
  - destruct (Z.ltb_spec 0 (d + StreamRuntime.delta c)) as [Hlt|];
      [| discriminate].
    exact (IH _ _ Hlt H).
Qed.

Lemma depth_after_snoc (body : string) (c : ascii) :
  forall d d',
    depth_after d body = Some d' ->
    0 < d' + StreamRuntime.delta c ->
    depth_after d (body ++ String c EmptyString)
    = Some (d' + StreamRuntime.delta c).
Proof.
  induction body as [|x body IH]; intros d d' H Hc.
  - cbn in H. inversion H; subst. rewrite string_app_nil_l. cbn.
    destruct (Z.ltb_spec 0 (d' + StreamRuntime.delta c)); [reflexivity | lia].
  - rewrite string_app_cons. cbn in H. cbn [depth_after].
    destruct (0 <? d + StreamRuntime.delta x); [| discriminate].
    exact (IH _ _ H Hc).
Qed.

Lemma depth_after_closes (body : string) (c : ascii) :
  forall d d',
    0 < d ->
    depth_after d body = Some d' ->
    d' + StreamRuntime.delta c = 0 ->
    StreamRuntime.closes_at_end d (body ++ String c EmptyString) = true.
Proof.
  induction body as [|x body IH]; intros d d' Hd H Hc.
  - cbn in H. inversion H; subst. rewrite string_app_nil_l. cbn.
    rewrite Hc. reflexivity.
  - rewrite string_app_cons. cbn in H. cbn [StreamRuntime.closes_at_end].
    destruct (Z.ltb_spec 0 (d + StreamRuntime.delta x)) as [Hlt|];
      [| discriminate].
    destruct (Z.eqb_spec (d + StreamRuntime.delta x) 0); [lia |].
    cbn [andb]. exact (IH _ _ Hlt H Hc).
Qed.

(** What the scanner keeps true while it goes through a chunk: outside a
    message the depth is at most zero; inside one, the message opened with
    a brace at [currentStart] and the depth has been above zero since. *)
Lemma scan_sound (rest : string) :
  forall (pre : string) (bv : Z) (inside : bool) (cs : nat)
         (acc : list string),
    (if inside
     then exists pre0 body,
         pre = (pre0 ++ String "{" body)%string
         /\ String.length pre0 = cs
         /\ depth_after 1 body = Some bv
     else bv <= 0) ->
    Forall (fun u => StreamRuntime.message u = true) acc ->
    Forall (fun u => StreamRuntime.message u = true)
      (StreamRuntime.scan (pre ++ rest) rest (String.length pre) bv inside
         cs acc).
Proof.
  induction rest as [|c rest IH]; intros pre bv inside cs acc Hinv Hacc;
    [exact Hacc |].
  cbn [StreamRuntime.scan].
  rewrite <- (string_app_one_assoc pre c rest).
  replace (S (String.length pre))
    with (String.length (pre ++ String c EmptyString))
    by (rewrite string_length_app; cbn [String.length]; lia).
  destruct inside.
  - destruct Hinv as (pre0 & body & Hpre & Hcs & Hd).
    pose proof (depth_after_positive body 1 bv ltac:(lia) Hd) as Hbv.
    cbn [negb andb]. rewrite Bool.andb_false_r.
    destruct (Z.eqb_spec (bv + StreamRuntime.delta c) 0) as [E | E];
      cbn [andb].
    + apply IH; [lia |].
      apply Forall_app. split; [exact Hacc |].
      constructor; [| constructor].
      subst pre cs.
      replace (String.length (pre0 ++ String "{" body) + 1
               - String.length pre0)%nat
        with (String.length (String "{" (body ++ String c EmptyString)))
        by (rewrite string_length_app; cbn [String.length];
            rewrite string_length_app; cbn [String.length]; lia).
      replace (((pre0 ++ String "{" body) ++ String c EmptyString) ++ rest)%string
        with (pre0 ++ String "{" (body ++ String c EmptyString) ++ rest)%string.
      2:{ rewrite !string_app_assoc, !string_app_cons, !string_app_assoc.
          reflexivity. }
      rewrite substring_middle.
      cbn [StreamRuntime.message]. rewrite Ascii.eqb_refl. cbn [andb].
      exact (depth_after_closes body c 1 bv ltac:(lia) Hd E).
    + apply IH; [| exact Hacc].
      exists pre0, (body ++ String c EmptyString)%string.
      split; [| split; [exact Hcs |]].
      * subst pre. rewrite string_app_assoc, string_app_cons. reflexivity.
      * apply depth_after_snoc; [exact Hd |].
        destruct (delta_range c) as [[Hc _] | [Hc | Hc]]; lia.
  - cbn [negb]. rewrite Bool.andb_true_r.
    destruct (Z.ltb_spec 0 (bv + StreamRuntime.delta c)) as [Hlt | Hge].
    + destruct (delta_range c) as [[Hc ->] | [Hc | Hc]]; try lia.
      assert (bv = 0) by lia. subst bv.
      change (0 + StreamRuntime.delta "{" =? 0) with false. cbn [andb].
      apply IH; [| exact Hacc].
      exists pre, EmptyString. split; [reflexivity |].
      split; reflexivity.
    + rewrite Bool.andb_false_r. apply IH; [exact Hge | exact Hacc].
Qed.

(** X6. Whatever a chunk holds, every unit that [getJsonArray] takes out
    of it is a complete message: it opens with a brace, and its braces
    come back to depth zero at its last character and not before. A chunk
    without such a unit gives [undefined]. *)
Theorem getJsonArray_units_are_messages :
  forall jsons : string,
    Forall (fun u => StreamRuntime.message u = true) (StreamRuntime.units jsons)
    /\ (StreamRuntime.getJsonArray jsons = None
        <-> StreamRuntime.units jsons = [])
    /\ forall l,
         StreamRuntime.getJsonArray jsons = Some l ->
         l = ("[" ++ String.concat "," (StreamRuntime.units jsons) ++ "]")%string.
Proof.
  intros jsons. split; [| split].
  - unfold StreamRuntime.units.
    apply (scan_sound jsons EmptyString 0 false 0%nat []);
      [apply Z.le_refl | constructor].
  - unfold StreamRuntime.getJsonArray.
    destruct (StreamRuntime.units jsons); split; intros H;
      try reflexivity; discriminate H.
  - intros l. unfold StreamRuntime.getJsonArray.
    destruct (StreamRuntime.units jsons); intros H; inversion H. reflexivity.
Qed.

Lemma scan_messages_then (ms : list (string * string)) (tail : string) :
  forall (pre : string) (cs : nat) (acc : list string),
    forallb (fun p => (StreamRuntime.message (fst p)
                       && StreamRuntime.filler (snd p))%bool) ms = true ->
    exists cs',
      StreamRuntime.scan (pre ++ StreamRuntime.interleave ms ++ tail)
        (StreamRuntime.interleave ms ++ tail) (String.length pre) 0 false
        cs acc
      = StreamRuntime.scan (pre ++ StreamRuntime.interleave ms ++ tail) tail
          (String.length pre + String.length (StreamRuntime.interleave ms))
          0 false cs' (acc ++ List.map fst ms).
Proof.
  induction ms as [|[m sep] ms IH]; intros pre cs acc Hms.
  - exists cs. cbn [StreamRuntime.interleave List.map].
    rewrite string_app_nil_l, List.app_nil_r. cbn [String.length].
    rewrite Nat.add_0_r. reflexivity.
  - cbn [forallb fst snd] in Hms.
    apply andb_prop in Hms as [Hm Hms]. apply andb_prop in Hm as [Hm Hsep].
    cbn [StreamRuntime.interleave List.map fst].
    rewrite !string_app_assoc.
    rewrite scan_message by exact Hm.
    rewrite scan_filler by exact Hsep.
    destruct (IH (pre ++ m ++ sep)%string (String.length pre)
                 (acc ++ [m]) Hms) as [cs' IH'].
    rewrite !string_app_assoc in IH'.
    rewrite !string_length_app in IH'. rewrite Nat.add_assoc in IH'.
    exists cs'. rewrite IH', <- List.app_assoc.
    rewrite !string_length_app, !Nat.add_assoc. reflexivity.
Qed.

(** X7. A message that is cut off by the end of the chunk is dropped
    without a trace: a chunk of complete messages followed by the head of
    one more gives the complete messages and nothing else. *)
Theorem getJsonArray_drops_open_tail :
  forall (sep0 : string) (ms : list (string * string)) (tail : string),
    StreamRuntime.filler sep0 = true ->
    forallb (fun p => (StreamRuntime.message (fst p)
                       && StreamRuntime.filler (snd p))%bool) ms = true ->
    open_tail tail = true ->
    StreamRuntime.units (sep0 ++ StreamRuntime.interleave ms ++ tail)
    = List.map fst ms.
Proof.
  intros sep0 ms tail Hsep Hms Htail.
  unfold StreamRuntime.units.
  rewrite scan_filler by exact Hsep. rewrite Nat.add_0_l.
  destruct (scan_messages_then ms tail sep0 0%nat [] Hms) as [cs' H].
  rewrite H. cbn [List.app].
  destruct tail as [|c body]; [discriminate Htail |].
  cbn [open_tail] in Htail. apply andb_prop in Htail as [Hc Hbody].
  apply Ascii.eqb_eq in Hc. subst c.
  destruct (depth_after 1 body) as [d'|] eqn:Ed; [| discriminate Hbody].
  cbn [StreamRuntime.scan]. rewrite delta_open.
  change (0 + 1) with 1. change (0 <? 1) with true. change (1 =? 0) with false.
  cbv beta iota delta [andb negb].
  exact (scan_open_body _ body _ 1 d' _ _ ltac:(lia) Ed).
Qed.

(** Two messages and the head of a third. *)
Lemma getJsonArray_drops_open_tail_witness :
  StreamRuntime.units "{a}{b{c}} {d{e}" = ["{a}"; "{b{c}}"].
Proof.
  exact (getJsonArray_drops_open_tail EmptyString
           [("{a}", EmptyString); ("{b{c}}", " ")] "{d{e}"
           eq_refl eq_refl eq_refl).
Defined.

(** ** [formatKeysAPI] of [src/runtimeClient.ts]: edges *)

Lemma assoc_capitalized (value : list (string * JS.value)) (k : string)
    (v : JS.value) :
  List.NoDup (List.map capitalize (JS.keys value)) ->
  In (k, v) value ->
  JS.assoc (capitalize k) (List.map capitalize_field value) = Some v.
Proof.
  induction value as [|[k' v'] value IH]; intros Hnd Hin; [contradiction |].
  cbn [JS.keys List.map fst] in Hnd. inversion Hnd as [| x l Hx Hrest]; subst.
  cbn [List.map capitalize_field fst snd JS.assoc].
  destruct Hin as [Heq | Hin].
  - inversion Heq; subst. rewrite String.eqb_refl. reflexivity.
  - destruct (String.eqb_spec (capitalize k) (capitalize k')) as [E | _].
    + exfalso. apply Hx. rewrite <- E.
      apply List.in_map. change k with (fst (k, v)).
      apply List.in_map. exact Hin.
    + apply IH; assumption.
Qed.

(** X8. On a payload whose keys begin with a letter or other code unit of
    the ASCII range that is no digit, none of them empty or [__proto__],
    and no two of them different in the case of the first letter only,
    [formatKeysAPI] gives the fields of the payload in their order, each
    under its key with the first letter in upper case and with its value
    untouched; a value is then found under the capitalised key.
    (Upper-casing is followed on the ASCII range, see [JS.toUpperCase]; an
    object lists its array indices before its other keys, see [JS.keys].) *)
Theorem formatKeysAPI_capitalizes_fields :
  forall value : list (string * JS.value),
    forallb nonempty (JS.keys value) = true ->
    forallb ascii_first (JS.keys value) = true ->
    forallb no_index (JS.keys value) = true ->
    forallb ordinary (JS.keys value) = true ->
    List.NoDup (List.map capitalize (JS.keys value)) ->
    exists r,
      RuntimeClient.formatKeysAPI value = JS.Normal r
      /\ r = List.map capitalize_field value
      /\ List.length r = List.length value
      /\ forall k v, In (k, v) value -> JS.assoc (capitalize k) r = Some v.
Proof.
  intros value Hne _ _ Hord Hnd. exists (List.map capitalize_field value).
  split; [exact (client_formatKeysAPI_capitalizes value Hne Hord Hnd) |].
  split; [reflexivity |]. split; [apply List.length_map |].
  intros k v Hin. exact (assoc_capitalized value k v Hnd Hin).
Qed.

(** The payloads that the client sends: [{ file }], [{ stopOnEntry }],
    [{ line }], here all in one. *)
Lemma formatKeysAPI_capitalizes_fields_witness :
  exists r,
    RuntimeClient.formatKeysAPI
      [("file", JS.VStr "HALT"); ("stopOnEntry", JS.VBool true);
       ("line", JS.VNum 3)] = JS.Normal r
    /\ r = [("File", JS.VStr "HALT"); ("StopOnEntry", JS.VBool true);
            ("Line", JS.VNum 3)]
    /\ List.length r = 3%nat
    /\ forall k v,
         In (k, v) [("file", JS.VStr "HALT"); ("stopOnEntry", JS.VBool true);
                    ("line", JS.VNum 3)] ->
         JS.assoc (capitalize k) r = Some v.
Proof.
  refine (formatKeysAPI_capitalizes_fields
            [("file", JS.VStr "HALT"); ("stopOnEntry", JS.VBool true);
             ("line", JS.VNum 3)] eq_refl eq_refl eq_refl eq_refl _).
  repeat constructor; cbn; intuition discriminate.
Defined.

(** Formatting the formatted payload of the Start request changes nothing. *)
Lemma client_formatKeysAPI_idempotent_witness :
  RuntimeClient.formatKeysAPI [("StopOnEntry", JS.VBool true)]
  = JS.Normal [("StopOnEntry", JS.VBool true)].
Proof.
  exact (client_formatKeysAPI_idempotent
           [("stopOnEntry", JS.VBool true)] [("StopOnEntry", JS.VBool true)]
           eq_refl).
Defined.

Lemma formatKeys_loop_Throw (value : list (string * JS.value))
    (keys : list string) :
  forall acc,
    RuntimeClient.formatKeys_loop value keys acc = JS.Throw
    <-> forallb nonempty keys = false.
Proof.
  induction keys as [|k keys IH]; intros acc.
  - cbn. split; discriminate.
  - cbn [RuntimeClient.formatKeys_loop forallb].
    destruct k as [|c rest]; cbn [RuntimeClient.formatKey nonempty andb].
    + split; reflexivity.
    + apply IH.
Qed.

Lemma length_set (k : string) (v : JS.value) (o : list (string * JS.value)) :
  (List.length (JS.set k v o) <= S (List.length o))%nat.
Proof.
  induction o as [|[k' v'] o IH]; cbn; [lia |].
  destruct (String.eqb k k'); cbn; lia.
Qed.

Lemma length_assign (k : string) (v : JS.value)
    (o : list (string * JS.value)) :
  (List.length (JS.assign k v o) <= S (List.length o))%nat.
Proof.
  unfold JS.assign. destruct (String.eqb k "__proto__"); [lia |].
  apply length_set.
Qed.

Lemma formatKeys_loop_keys (value : list (string * JS.value))
    (keys : list string) :
  forall acc r,
    RuntimeClient.formatKeys_loop value keys acc = JS.Normal r ->
    (forall k, In k (JS.keys r)
               <-> In k (JS.keys acc)
                   \/ (In k (List.map capitalize keys) /\ ordinary k = true))
    /\ (List.length r <= List.length acc + List.length keys)%nat.
Proof.
  induction keys as [|k keys IH]; intros acc r H.
  - cbn in H. inversion H; subst. split; [| lia].
    intros k. cbn. tauto.
  - cbn [RuntimeClient.formatKeys_loop] in H.
    destruct (RuntimeClient.formatKey k) as [fk|] eqn:Ek; [| discriminate].
    apply formatKey_Normal in Ek as [_ ->].
    pose proof (length_assign (capitalize k)
                  (match JS.assoc k value with
                   | Some v => v | None => JS.VUndefined end) acc) as Hlen1.
    destruct (ordinary (capitalize k)) eqn:Eo.
    + rewrite assign_ordinary in H, Hlen1 by exact Eo.
      apply IH in H as [Hkeys Hlen]. split.
      * intros x. rewrite Hkeys, keys_set. cbn [List.map In].
        destruct (existsb (String.eqb (capitalize k)) (JS.keys acc)) eqn:Ex.
        -- apply List.existsb_exists in Ex as (y & Hy & Heq).
           apply String.eqb_eq in Heq. subst y.
           split; [tauto |]. intros [H | [[<- | H] Hx]]; tauto.
        -- rewrite List.in_app_iff. cbn [In].
           split; [| tauto].
           intros [[H | [<- | []]] | H]; tauto.
      * cbn [List.length]. lia.
    + rewrite assign_proto in H by exact Eo.
      apply IH in H as [Hkeys Hlen]. split.
      * intros x. rewrite Hkeys. cbn [List.map In].
        split; [tauto |].
        intros [H | [[<- | H] Hx]]; [tauto | congruence | tauto].
      * cbn [List.length]. lia.
Qed.

(** X10. [formatKeysAPI] throws exactly on a payload that has an empty
    key, where it reads [key[0]]. On a payload that has none, and whose keys
    begin with a code unit of the ASCII range, it returns, and the keys of
    what it returns are the capitalised keys of the payload other than
    [__proto__], each once: two keys that differ in the case of the first
    letter only come out as one field, and a field [__proto__] is lost, so
    the result may have fewer fields than the payload. (Upper-casing is
    followed on the ASCII range, see [JS.toUpperCase].) *)
Theorem formatKeysAPI_empty_key_and_collisions :
  forall value : list (string * JS.value),
    (RuntimeClient.formatKeysAPI value = JS.Throw
     <-> forallb nonempty (JS.keys value) = false)
    /\ forall r,
         forallb ascii_first (JS.keys value) = true ->
         RuntimeClient.formatKeysAPI value = JS.Normal r ->
         List.NoDup (JS.keys r)
         /\ (forall k, In k (JS.keys r)
                       <-> In k (List.map capitalize (JS.keys value))
                           /\ ordinary k = true)
         /\ (List.length r <= List.length value)%nat.
Proof.
  intros value. split.
  - apply formatKeys_loop_Throw.
  - intros r _ H. unfold RuntimeClient.formatKeysAPI in H.
    pose proof (formatKeys_loop_invariant _ _ _ _ H (List.NoDup_nil _)
                  (Forall_nil_2 _)) as [Hnd _].
    apply formatKeys_loop_keys in H as [Hkeys Hlen].
    split; [exact Hnd |]. split.
    + intros k. rewrite Hkeys. cbn. tauto.
    + unfold JS.keys in Hlen. rewrite List.length_map in Hlen.
      cbn in Hlen. exact Hlen.
Qed.

(** A payload with an empty key; and one in which [a] and [A] collide and
    that has a field [__proto__]: one field is left, under [A], with the
    value that was written last. *)
Lemma formatKeysAPI_empty_key_and_collisions_witness :
  RuntimeClient.formatKeysAPI [("line", JS.VNum 1); ("", JS.VNum 2)] = JS.Throw
  /\ RuntimeClient.formatKeysAPI
       [("a", JS.VNum 1); ("A", JS.VNum 2); ("__proto__", JS.VNum 3)]
     = JS.Normal [("A", JS.VNum 2)]
  /\ (forall k,
        In k (JS.keys [("A", JS.VNum 2)])
        <-> In k (List.map capitalize
                    (JS.keys [("a", JS.VNum 1); ("A", JS.VNum 2);
                              ("__proto__", JS.VNum 3)]))
            /\ ordinary k = true).
Proof.
  split; [| split].
  - exact (proj2 (proj1 (formatKeysAPI_empty_key_and_collisions
                           [("line", JS.VNum 1); ("", JS.VNum 2)]))
             eq_refl).
  - reflexivity.
  - exact (proj1 (proj2 (proj2 (formatKeysAPI_empty_key_and_collisions
                                  [("a", JS.VNum 1); ("A", JS.VNum 2);
                                   ("__proto__", JS.VNum 3)])
                           [("A", JS.VNum 2)] eq_refl eq_refl))).
Defined.

(** ** [RuntimeClient]: start, step and the stack frames *)

(** X11. Once the program text has been read, [start] sends the Load and
    the Start request and nothing else, keeps the path and the text, and
    sends at most three notifications: 'end' for the request that completes
    first, if it failed; then the event that the Start reply names, but
    only if neither reply reports an error; then 'end' for the request that
    completes last, if it failed. So the 'end' of a failed Load comes
    before the event when Load completes first, and after it when Load
    completes last. *)
Theorem client_start_effect :
  forall (Backend : Type)
         (serve : Http.Request -> Backend -> Http.outcome * Backend)
         (readFile : string -> option string) (path : string)
         (stopOnEntry loadLast : bool) (text : string)
         (w : RuntimeClient.world Backend),
    readFile path = Some text ->
    let '(o0, b0) := serve (loadRequest text) (RuntimeClient.backend w) in
    let '(o1, b1) := serve (startRequest stopOnEntry) b0 in
    let error := JS.or (JS.get_opt (RuntimeClient.delivered o0) "error")
                       (JS.get_opt (RuntimeClient.delivered o1) "error") in
    let event := JS.or (JS.get_opt (RuntimeClient.delivered o1) "event")
                       (JS.VStr EmptyString) in
    let first := if loadLast then o1 else o0 in
    let last := if loadLast then o0 else o1 in
    let w' := snd (RuntimeClient.start Backend serve readFile path
                     stopOnEntry loadLast w) in
    RuntimeClient.sent w'
    = RuntimeClient.sent w ++ [loadRequest text; startRequest stopOnEntry]
    /\ RuntimeClient.emitted w'
       = RuntimeClient.emitted w
         ++ (if Http.failed first then [ev "end" []] else [])
         ++ (if (negb (JS.truthy error) && JS.truthy event)%bool
             then [(event, [])] else [])
         ++ (if Http.failed last then [ev "end" []] else [])
    /\ RuntimeClient.backend w' = b1
    /\ RuntimeClient.sourcePath w' = Some path
    /\ RuntimeClient.sourceText w' = Some text.
Proof.
  intros Backend serve readFile path stopOnEntry loadLast text w Hread.
  unfold RuntimeClient.start. rewrite Hread.
  rewrite prepare_loadRequest, prepare_startRequest.
  unfold RuntimeClient.setSource, RuntimeClient.fetch,
    RuntimeClient.end_if_failed, RuntimeClient.sendEvent,
    Monad.bind, Monad.ret.
  cbn [RuntimeClient.backend].
  destruct (serve (loadRequest text) (RuntimeClient.backend w)) as [o0 b0].
  cbn [RuntimeClient.backend].
  destruct (serve (startRequest stopOnEntry) b0) as [o1 b1].
  cbv zeta.
  destruct loadLast;
    destruct (Http.failed o0);
    destruct (negb (JS.truthy
                      (JS.or (JS.get_opt (RuntimeClient.delivered o0) "error")
                             (JS.get_opt (RuntimeClient.delivered o1) "error")))
              && JS.truthy
                   (JS.or (JS.get_opt (RuntimeClient.delivered o1) "event")
                          (JS.VStr EmptyString)))%bool;
    destruct (Http.failed o1);
    cbn [snd RuntimeClient.sent RuntimeClient.emitted RuntimeClient.backend
         RuntimeClient.sourcePath RuntimeClient.sourceText];
    rewrite <- ?List.app_assoc; cbn [List.app]; rewrite ?List.app_nil_r;
    repeat split; reflexivity.
Qed.

(** A backend that cannot be reached for Load and answers Start with
    [{ event: "stopOnEntry" }]: 'end' and then 'stopOnEntry' when the
    failure of Load is known first, 'stopOnEntry' and then 'end' when it is
    known last. A backend that accepts the program and answers Start with
    an error beside the event: no notification. *)
Lemma client_start_effect_witness :
  RuntimeClient.emitted
    (snd (RuntimeClient.start unit
            (SpecBackend.debug Http.ConnectionRefused
               (Http.Reply (JS.VObj [("event", JS.VStr "stopOnEntry")])))
            (fun _ => Some "HALT") "program.misc" true false (fresh tt)))
  = [ev "end" []; ev "stopOnEntry" []]
  /\ RuntimeClient.emitted
       (snd (RuntimeClient.start unit
               (SpecBackend.debug Http.ConnectionRefused
                  (Http.Reply (JS.VObj [("event", JS.VStr "stopOnEntry")])))
               (fun _ => Some "HALT") "program.misc" true true (fresh tt)))
     = [ev "stopOnEntry" []; ev "end" []]
  /\ (let w' :=
        snd (RuntimeClient.start unit
               (SpecBackend.debug (Http.Reply (JS.VObj []))
                  (Http.Reply (JS.VObj [("error", JS.VStr "no entry point");
                                        ("event", JS.VStr "stopOnEntry")])))
               (fun _ => Some "HALT") "program.misc" true true (fresh tt)) in
      RuntimeClient.sent w' = [loadRequest "HALT"; startRequest true]
      /\ RuntimeClient.emitted w' = []
      /\ RuntimeClient.backend w' = tt
      /\ RuntimeClient.sourcePath w' = Some "program.misc"
      /\ RuntimeClient.sourceText w' = Some "HALT").
Proof.
  split; [| split].
  - exact (proj1 (proj2
             (client_start_effect unit
                (SpecBackend.debug Http.ConnectionRefused
                   (Http.Reply (JS.VObj [("event", JS.VStr "stopOnEntry")])))
                (fun _ => Some "HALT") "program.misc" true false "HALT"
                (fresh tt) eq_refl))).
  - exact (proj1 (proj2
             (client_start_effect unit
                (SpecBackend.debug Http.ConnectionRefused
                   (Http.Reply (JS.VObj [("event", JS.VStr "stopOnEntry")])))
                (fun _ => Some "HALT") "program.misc" true true "HALT"
                (fresh tt) eq_refl))).
  - exact (client_start_effect unit
             (SpecBackend.debug (Http.Reply (JS.VObj []))
                (Http.Reply (JS.VObj [("error", JS.VStr "no entry point");
                                      ("event", JS.VStr "stopOnEntry")])))
             (fun _ => Some "HALT") "program.misc" true true "HALT"
             (fresh tt) eq_refl).
Defined.

(** X12. When the file reader rejects the read, [start] never settles its
    promise: nothing is sent to the backend and no notification is sent,
    only the path is kept; [launchRequest], which waits for [start], sends
    neither a response nor an error response. *)
Theorem launch_hangs_on_unreadable_program :
  forall (Backend : Type)
         (serve : Http.Request -> Backend -> Http.outcome * Backend)
         (readFile : string -> option string) (program : string)
         (stopOnEntry loadLast : bool) (w : RuntimeClient.world Backend),
    readFile program = None ->
    RuntimeClient.start Backend serve readFile program stopOnEntry loadLast w
    = (JS.Pending,
       {| RuntimeClient.backend := RuntimeClient.backend w;
          RuntimeClient.sent := RuntimeClient.sent w;
          RuntimeClient.emitted := RuntimeClient.emitted w;
          RuntimeClient.sourcePath := Some program;
          RuntimeClient.sourceText := RuntimeClient.sourceText w |})
    /\ fst (DebugSession.launchRequest Backend serve readFile program
              stopOnEntry loadLast w) = DebugSession.NoResponse.
Proof.
  intros Backend serve readFile program stopOnEntry loadLast w Hread.
  assert (Hs : RuntimeClient.start Backend serve readFile program stopOnEntry
                 loadLast w
               = (JS.Pending,
                  {| RuntimeClient.backend := RuntimeClient.backend w;
                     RuntimeClient.sent := RuntimeClient.sent w;
                     RuntimeClient.emitted := RuntimeClient.emitted w;
                     RuntimeClient.sourcePath := Some program;
                     RuntimeClient.sourceText := RuntimeClient.sourceText w |})).
  { unfold RuntimeClient.start, RuntimeClient.setSource, Monad.bind, Monad.ret.
    rewrite Hread. reflexivity. }
  split; [exact Hs |].
  unfold DebugSession.launchRequest, Monad.bind, Monad.ret.
  rewrite Hs. reflexivity.
Qed.

Lemma launch_hangs_on_unreadable_program_witness :
  RuntimeClient.start unit SpecBackend.unreachable (fun _ => None)
    "missing.misc" false false (fresh tt)
  = (JS.Pending,
     {| RuntimeClient.backend := tt; RuntimeClient.sent := [];
        RuntimeClient.emitted := [];
        RuntimeClient.sourcePath := Some "missing.misc";
        RuntimeClient.sourceText := None |})
  /\ fst (DebugSession.launchRequest unit SpecBackend.unreachable
            (fun _ => None) "missing.misc" false false (fresh tt))
     = DebugSession.NoResponse.
Proof.
  exact (launch_hangs_on_unreadable_program unit SpecBackend.unreachable
           (fun _ => None) "missing.misc" false false (fresh tt) eq_refl).
Defined.

Lemma client_step_result {Backend : Type}
    (serve : Http.Request -> Backend -> Http.outcome * Backend)
    (w : RuntimeClient.world Backend) :
  let data :=
    RuntimeClient.delivered
      (fst (serve stepRequest (RuntimeClient.backend w))) in
  fst (RuntimeClient.step Backend serve w)
  = (if nullish data then JS.Pending else JS.Fulfilled data)
  /\ (nullish data = false ->
      Http.failed (fst (serve stepRequest (RuntimeClient.backend w))) = false
      /\ RuntimeClient.emitted (snd (RuntimeClient.step Backend serve w))
         = RuntimeClient.emitted w
           ++ (if JS.truthy (JS.get_opt data "event")
               then [(JS.get_opt data "event", [])] else [])).
Proof.
  client_unfold. fold stepRequest.
  destruct (serve stepRequest (RuntimeClient.backend w)) as [o b].
  cbn [fst].
  destruct o as [| |v]; cbn [RuntimeClient.delivered Http.failed].
  - cbn. split; [reflexivity | discriminate].
  - cbn. split; [reflexivity | discriminate].
  - unfold JS.get_opt.
    destruct (JS.get v "event") as [e|] eqn:Eg.
    + assert (Hn : nullish v = false) by (destruct v; try reflexivity; discriminate Eg).
      rewrite Hn.
      destruct (JS.truthy e); cbn; rewrite ?List.app_nil_r;
        (split; [reflexivity | intros _; split; reflexivity]).
    + assert (Hn : nullish v = true) by (destruct v; try reflexivity; discriminate Eg).
      rewrite Hn. cbn. split; [reflexivity | discriminate].
Qed.

(** X13. [nextRequest] responds exactly when the observer of the Step
    request is given something other than [null]; [step] then resolves
    with that reply itself and sends the event it names, if it names one. *)
Theorem next_responds_iff_step_replied :
  forall (Backend : Type)
         (serve : Http.Request -> Backend -> Http.outcome * Backend)
         (w : RuntimeClient.world Backend),
    let data :=
      RuntimeClient.delivered
        (fst (serve stepRequest (RuntimeClient.backend w))) in
    (fst (DebugSession.nextRequest Backend serve w) = DebugSession.Response tt
     <-> nullish data = false)
    /\ (fst (RuntimeClient.step Backend serve w) = JS.Fulfilled data
        <-> nullish data = false)
    /\ (nullish data = false ->
        Http.failed (fst (serve stepRequest (RuntimeClient.backend w))) = false
        /\ RuntimeClient.emitted (snd (RuntimeClient.step Backend serve w))
           = RuntimeClient.emitted w
             ++ (if JS.truthy (JS.get_opt data "event")
                 then [(JS.get_opt data "event", [])] else [])).
Proof.
  intros Backend serve w data.
  destruct (client_step_result serve w) as [Hres Hev].
  fold data in Hres, Hev.
  split; [| split; [| exact Hev]].
  - unfold DebugSession.nextRequest, Monad.bind, Monad.ret.
    destruct (RuntimeClient.step Backend serve w) as [p w1].
    cbn [fst] in Hres. subst p.
    destruct (nullish data); split; intros H;
      try reflexivity; discriminate H.
  - rewrite Hres. destruct (nullish data); split; intros H;
      try reflexivity; discriminate H.
Qed.

(** ** [DebugSession]: variables and stack frames *)

Lemma assoc_set_same (k : string) (v : JS.value) (o : list (string * JS.value)) :
  JS.assoc k (JS.set k v o) = Some v.
Proof.
  induction o as [|[k' v'] o IH]; cbn.
  - rewrite String.eqb_refl. reflexivity.
  - destruct (String.eqb_spec k k') as [-> | Hne]; cbn.
    + rewrite String.eqb_refl. reflexivity.
    + destruct (String.eqb_spec k k'); [contradiction | exact IH].
Qed.

Lemma assoc_set_other (k k' : string) (v : JS.value)
    (o : list (string * JS.value)) :
  k <> k' -> JS.assoc k' (JS.set k v o) = JS.assoc k' o.
Proof.
  intros Hne. induction o as [|[k0 v0] o IH]; cbn.
  - destruct (String.eqb_spec k' k); [congruence | reflexivity].
  - destruct (String.eqb_spec k k0) as [-> | Hk]; cbn.
    + destruct (String.eqb_spec k' k0); [congruence | reflexivity].
    + destruct (String.eqb k' k0); [reflexivity | exact IH].
Qed.

(** X14. Asked for the variables while the backend cannot be reached, the
    session still answers, with a body that holds no variables, and the
    runtime sends 'end'; asked for the stack trace in the same
    situation, it never answers. *)
Theorem inspection_on_transport_failure :
  forall (Backend : Type)
         (serve : Http.Request -> Backend -> Http.outcome * Backend)
         (basename convertDebuggerPathToClient : string -> string)
         (c : DebugSession.Coordinates) (w : RuntimeClient.world Backend),
    Http.failed (fst (serve getVariablesRequest (RuntimeClient.backend w)))
    = true ->
    Http.failed (fst (serve getStackFramesRequest (RuntimeClient.backend w)))
    = true ->
    fst (DebugSession.variablesRequest Backend serve w)
    = DebugSession.Response None
    /\ RuntimeClient.emitted (snd (DebugSession.variablesRequest Backend serve w))
       = RuntimeClient.emitted w ++ [ev "end" []]
    /\ fst (DebugSession.stackTraceRequest Backend serve basename
              convertDebuggerPathToClient c w)
       = DebugSession.NoResponse.
Proof.
  intros Backend serve basename convertDebuggerPathToClient c w Hv Hs.
  split; [| split].
  - unfold DebugSession.variablesRequest. client_unfold.
    fold getVariablesRequest.
    destruct (serve getVariablesRequest (RuntimeClient.backend w))
      as [[| |v] b]; cbn in *; try reflexivity; discriminate Hv.
  - unfold DebugSession.variablesRequest. client_unfold.
    fold getVariablesRequest.
    destruct (serve getVariablesRequest (RuntimeClient.backend w))
      as [[| |v] b]; cbn in *; try reflexivity; discriminate Hv.
  - unfold DebugSession.stackTraceRequest, Monad.bind, Monad.ret.
    destruct (client_getStackFrames_failure Backend serve w Hs) as [Hp _].
    destruct (RuntimeClient.getStackFrames Backend serve w) as [p w1].
    cbn [fst] in Hp. subst p. reflexivity.
Qed.

Lemma inspection_on_transport_failure_witness :
  fst (DebugSession.variablesRequest unit SpecBackend.unreachable (fresh tt))
  = DebugSession.Response None
  /\ RuntimeClient.emitted
       (snd (DebugSession.variablesRequest unit SpecBackend.unreachable
               (fresh tt)))
     = [ev "end" []]
  /\ fst (DebugSession.stackTraceRequest unit SpecBackend.unreachable
            (fun p => p) (fun p => p)
            (DebugSession.constructor true true) (fresh tt))
     = DebugSession.NoResponse.
Proof.
  exact (inspection_on_transport_failure unit SpecBackend.unreachable
           (fun p => p) (fun p => p) (DebugSession.constructor true true)
           (fresh tt) eq_refl eq_refl).
Defined.

Lemma map_throwing_variables (items : list JS.value) :
  forallb (fun i => negb (nullish i)) items = true ->
  exists vs,
    DebugSession.map_throwing DebugSession.getDebugVariable items
    = JS.Normal vs
    /\ Forall2
         (fun item v =>
            v = {| DebugSession.var_name := JS.get_opt item "name";
                   DebugSession.var_value := JS.get_opt item "value";
                   DebugSession.var_type := JS.get_opt item "type";
                   DebugSession.variablesReference := 0;
                   DebugSession.evaluateName := JS.get_opt item "evaluateName";
                   DebugSession.__vscodeVariableMenuContext := "simple" |})
         items vs.
Proof.
  induction items as [|item items IH]; intros H.
  - exists []. split; [reflexivity | constructor].
  - cbn [forallb] in H. apply andb_prop in H as [Hi Hrest].
    destruct (IH Hrest) as (vs & Hvs & Hall).
    cbn [DebugSession.map_throwing]. rewrite Hvs.
    unfold DebugSession.getDebugVariable, JS.get_opt.
    destruct item; try discriminate Hi;
      (eexists; split; [reflexivity | constructor; [reflexivity | exact Hall]]).
Qed.

(** X15. When the backend answers the Variables request with an array
    that holds no [null], the session answers with one variable per element,
    in the order of the array: name, value, type and [evaluateName] as the
    element has them ([undefined] where it has none), and
    [variablesReference] 0 for every one of them. *)
Theorem variables_keep_order :
  forall (Backend : Type)
         (serve : Http.Request -> Backend -> Http.outcome * Backend)
         (w : RuntimeClient.world Backend) (items : list JS.value)
         (b : Backend),
    serve getVariablesRequest (RuntimeClient.backend w)
    = (Http.Reply (JS.VArr items), b) ->
    forallb (fun i => negb (nullish i)) items = true ->
    exists vs,
      fst (DebugSession.variablesRequest Backend serve w)
      = DebugSession.Response (Some vs)
      /\ List.length vs = List.length items
      /\ Forall2
           (fun item v =>
              v = {| DebugSession.var_name := JS.get_opt item "name";
                     DebugSession.var_value := JS.get_opt item "value";
                     DebugSession.var_type := JS.get_opt item "type";
                     DebugSession.variablesReference := 0;
                     DebugSession.evaluateName :=
                       JS.get_opt item "evaluateName";
                     DebugSession.__vscodeVariableMenuContext := "simple" |})
           items vs.
Proof.
  intros Backend serve w items b Hserve Hitems.
  destruct (map_throwing_variables items Hitems) as (vs & Hvs & Hall).
  exists vs. split; [| split; [| exact Hall]].
  - unfold DebugSession.variablesRequest. client_unfold.
    fold getVariablesRequest. rewrite Hserve. cbn. rewrite Hvs. reflexivity.
  - symmetry. eapply Forall2_length. exact Hall.
Qed.

Lemma variables_keep_order_witness :
  exists vs,
    fst (DebugSession.variablesRequest unit
           (SpecBackend.constant
              (JS.VArr [JS.VObj [("name", JS.VStr "R1"); ("value", JS.VStr "7")];
                        JS.VObj [("name", JS.VStr "R2")]]))
           (fresh tt))
    = DebugSession.Response (Some vs)
    /\ List.length vs = 2%nat
    /\ Forall2
         (fun item v =>
            v = {| DebugSession.var_name := JS.get_opt item "name";
                   DebugSession.var_value := JS.get_opt item "value";
                   DebugSession.var_type := JS.get_opt item "type";
                   DebugSession.variablesReference := 0;
                   DebugSession.evaluateName := JS.get_opt item "evaluateName";
                   DebugSession.__vscodeVariableMenuContext := "simple" |})
         [JS.VObj [("name", JS.VStr "R1"); ("value", JS.VStr "7")];
          JS.VObj [("name", JS.VStr "R2")]] vs.
Proof.
  exact (variables_keep_order unit
           (SpecBackend.constant
              (JS.VArr [JS.VObj [("name", JS.VStr "R1"); ("value", JS.VStr "7")];
                        JS.VObj [("name", JS.VStr "R2")]]))
           (fresh tt)
           [JS.VObj [("name", JS.VStr "R1"); ("value", JS.VStr "7")];
            JS.VObj [("name", JS.VStr "R2")]] tt eq_refl eq_refl).
Defined.

Lemma toStackFrame_spread (basename convertDebuggerPathToClient : string -> string)
    (c : DebugSession.Coordinates) (file : string) (item : JS.value) :
  frame_ok item = true ->
  exists l,
    JS.get item "line" = JS.Normal (JS.VNum l)
    /\ DebugSession.toStackFrame basename convertDebuggerPathToClient c
         (RuntimeClient.spread_with item "file" (JS.VStr file))
       = DebugSession.Response
           {| DebugSession.frame_id := JS.get_opt item "index";
              DebugSession.frame_name := JS.get_opt item "name";
              DebugSession.frame_source :=
                DebugSession.createSource basename convertDebuggerPathToClient
                  file;
              DebugSession.frame_line :=
                DebugSession.convertDebuggerLineToClient c l |}.
Proof.
  intros Hok. destruct item as [| | | | | |o]; try discriminate Hok.
  cbn [frame_ok] in Hok.
  destruct (JS.assoc "line" o) as [[| | |l| | |]|] eqn:El; try discriminate Hok.
  exists l. split; [cbn; rewrite El; reflexivity |].
  unfold DebugSession.toStackFrame, RuntimeClient.spread_with, JS.get_opt.
  cbn [JS.own_properties JS.get].
  rewrite assoc_set_same.
  rewrite !assoc_set_other by discriminate.
  rewrite El. reflexivity.
Qed.

(** X16. When the backend answers the Stackframe request with an object
    whose [frames] are objects with a numeric [line], the session answers
    with one frame per element, in the order of the reply: [index] and
    [name] as the backend gave them, the line translated to the client's
    numbering, and as source the program that was launched, whatever file
    the backend named; [totalFrames] is the [count] of the reply. *)
Theorem stackTrace_translates_frames :
  forall (Backend : Type)
         (serve : Http.Request -> Backend -> Http.outcome * Backend)
         (basename convertDebuggerPathToClient : string -> string)
         (c : DebugSession.Coordinates) (w : RuntimeClient.world Backend)
         (o : list (string * JS.value)) (items : list JS.value) (b : Backend),
    serve getStackFramesRequest (RuntimeClient.backend w)
    = (Http.Reply (JS.VObj o), b) ->
    JS.assoc "frames" o = Some (JS.VArr items) ->
    forallb frame_ok items = true ->
    exists fs,
      fst (DebugSession.stackTraceRequest Backend serve basename
             convertDebuggerPathToClient c w)
      = DebugSession.Response (fs, JS.get_opt (JS.VObj o) "count")
      /\ Forall2
           (fun item f =>
              exists l,
                JS.get item "line" = JS.Normal (JS.VNum l)
                /\ f = {| DebugSession.frame_id := JS.get_opt item "index";
                          DebugSession.frame_name := JS.get_opt item "name";
                          DebugSession.frame_source :=
                            DebugSession.createSource basename
                              convertDebuggerPathToClient (frame_file w);
                          DebugSession.frame_line :=
                            DebugSession.convertDebuggerLineToClient c l |})
           items fs.
Proof.
  intros Backend serve basename convertDebuggerPathToClient c w o items b
         Hserve Hframes Hok.
  assert (Hall : exists fs,
             DebugSession.all
               (List.map
                  (DebugSession.toStackFrame basename
                     convertDebuggerPathToClient c)
                  (List.map
                     (fun item =>
                        RuntimeClient.spread_with item "file"
                          (JS.VStr (frame_file w))) items))
             = DebugSession.Response fs
             /\ Forall2
                  (fun item f =>
                     exists l,
                       JS.get item "line" = JS.Normal (JS.VNum l)
                       /\ f = {| DebugSession.frame_id := JS.get_opt item "index";
                                 DebugSession.frame_name := JS.get_opt item "name";
                                 DebugSession.frame_source :=
                                   DebugSession.createSource basename
                                     convertDebuggerPathToClient (frame_file w);
                                 DebugSession.frame_line :=
                                   DebugSession.convertDebuggerLineToClient c l |})
                  items fs).
  { clear Hframes Hserve. induction items as [|item items IH].
    - exists []. split; [reflexivity | constructor].
    - cbn [forallb] in Hok. apply andb_prop in Hok as [Hi Hrest].
      destruct (IH Hrest) as (fs & Hfs & HF).
      destruct (toStackFrame_spread basename convertDebuggerPathToClient c
                  (frame_file w) item Hi) as (l & Hl & Ht).
      eexists. cbn [List.map DebugSession.all]. rewrite Ht, Hfs.
      split; [reflexivity |].
      constructor; [exists l; split; [exact Hl | reflexivity] | exact HF]. }
  destruct Hall as (fs & Hfs & HF). exists fs. split; [| exact HF].
  unfold DebugSession.stackTraceRequest. client_unfold.
  fold getStackFramesRequest. rewrite Hserve.
  cbn [RuntimeClient.sourcePath JS.get Http.failed fst snd].
  rewrite ?Hframes. cbn [JS.or JS.truthy JS.get fst snd].
  unfold frame_file in Hfs.
  change (RuntimeClient.spread_with (JS.VObj o) "frames")
    with (fun x => JS.VObj (JS.set "frames" x o)).
  cbv beta. cbn [JS.get]. rewrite assoc_set_same, Hfs.
  unfold JS.get_opt. cbn [JS.get fst snd].
  rewrite assoc_set_other by discriminate. reflexivity.
Qed.

Lemma stackTrace_translates_frames_witness :
  exists fs,
    fst (DebugSession.stackTraceRequest unit
           (SpecBackend.constant
              (JS.VObj [("frames",
                         JS.VArr [JS.VObj [("index", JS.VNum 0);
                                           ("name", JS.VStr "main");
                                           ("file", JS.VStr "elsewhere");
                                           ("line", JS.VNum 4)]]);
                        ("count", JS.VNum 1)]))
           (fun p => p) (fun p => p) (DebugSession.constructor true true)
           (fresh tt))
    = DebugSession.Response (fs, JS.VNum 1)
    /\ Forall2
         (fun item f =>
            exists l,
              JS.get item "line" = JS.Normal (JS.VNum l)
              /\ f = {| DebugSession.frame_id := JS.get_opt item "index";
                        DebugSession.frame_name := JS.get_opt item "name";
                        DebugSession.frame_source :=
                          DebugSession.createSource (fun p => p) (fun p => p)
                            EmptyString;
                        DebugSession.frame_line :=
                          DebugSession.convertDebuggerLineToClient
                            (DebugSession.constructor true true) l |})
         [JS.VObj [("index", JS.VNum 0); ("name", JS.VStr "main");
                   ("file", JS.VStr "elsewhere"); ("line", JS.VNum 4)]]
         fs.
Proof.
  exact (stackTrace_translates_frames unit
           (SpecBackend.constant
              (JS.VObj [("frames",
                         JS.VArr [JS.VObj [("index", JS.VNum 0);
                                           ("name", JS.VStr "main");
                                           ("file", JS.VStr "elsewhere");
                                           ("line", JS.VNum 4)]]);
                        ("count", JS.VNum 1)]))
           (fun p => p) (fun p => p) (DebugSession.constructor true true)
           (fresh tt) _ _ tt eq_refl eq_refl eq_refl).
Defined.

(** X17. A backend that cannot be reached for any Set request: the
    session answers a [setBreakpoints] only if no line is requested, with
    an empty list; for one line or more it sends every Set request all
    the same, and then never answers. *)
Theorem setBreakPoints_without_backend :
  forall (Backend : Type)
         (serve : Http.Request -> Backend -> Http.outcome * Backend)
         (c : DebugSession.Coordinates) (lines : list Z)
         (w : RuntimeClient.world Backend),
    (forall l b, Http.failed (fst (serve (setRequest l) b)) = true) ->
    fst (DebugSession.setBreakPointsRequest Backend serve c lines w)
    = (match lines with
       | [] => DebugSession.Response []
       | _ => DebugSession.NoResponse
       end)
    /\ RuntimeClient.sent
         (snd (DebugSession.setBreakPointsRequest Backend serve c lines w))
       = RuntimeClient.sent w ++ clearRequest :: setRequests c lines.
Proof.
  intros Backend serve c lines w Hfail.
  pose proof (setBreakPointsRequest_effect Backend serve c lines w)
    as (Hans & Hsent & _).
  cbv zeta in Hans. split; [| exact Hsent].
  rewrite Hans. clear Hans Hsent.
  destruct lines as [|l lines]; [reflexivity |].
  cbn [setRequests List.map exchange].
  specialize (Hfail (DebugSession.convertClientLineToDebugger c l)
                (snd (serve clearRequest (RuntimeClient.backend w)))).
  destruct (serve (setRequest (DebugSession.convertClientLineToDebugger c l))
              (snd (serve clearRequest (RuntimeClient.backend w)))) as [o b1].
  cbn [fst] in Hfail.
  destruct (exchange serve _ b1) as [vs b2].
  destruct o; try discriminate Hfail; reflexivity.
Qed.

Lemma setBreakPoints_without_backend_witness :
  fst (DebugSession.setBreakPointsRequest unit SpecBackend.unreachable
         (DebugSession.constructor true true) [2; 5] (fresh tt))
  = DebugSession.NoResponse
  /\ RuntimeClient.sent
       (snd (DebugSession.setBreakPointsRequest unit SpecBackend.unreachable
               (DebugSession.constructor true true) [2; 5] (fresh tt)))
     = [] ++ clearRequest
            :: setRequests (DebugSession.constructor true true) [2; 5].
Proof.
  exact (setBreakPoints_without_backend unit SpecBackend.unreachable
           (DebugSession.constructor true true) [2; 5] (fresh tt)
           (fun _ _ => eq_refl)).
Defined.

(* ===================================================================== *)
(** ** [setupEvents]: from notifications to events of the protocol *)
(* ===================================================================== *)

Lemma mock_printLine_shaped (s : MockRuntime.state) :
  MockRuntime.sourcePath s <> None ->
  Forall mock_shaped (MockRuntime.printLine s).
Proof.
  intros Hp. unfold MockRuntime.printLine, MockRuntime.path_value.
  destruct (MockRuntime.sourcePath s) as [p|]; [| contradiction Hp; reflexivity].
  constructor; [| constructor].
  right; right; right.
  assert (Ht : exists t,
             DebugSession.toString
               (match MockRuntime.sourceLines s with
                | Some ls => MockRuntime.lineAt ls (MockRuntime.__mockLine s)
                | None => JS.VNull
                end) = Some t).
  { destruct (MockRuntime.sourceLines s) as [ls|]; [| eexists; reflexivity].
    unfold MockRuntime.lineAt.
    destruct (MockRuntime.__mockLine s <? 0); [eexists; reflexivity |].
    destruct (nth_error ls (Z.to_nat (MockRuntime.__mockLine s)));
      eexists; reflexivity. }
  destruct Ht as [t Ht]. do 3 eexists. exists t.
  split; [exact Ht | reflexivity].
Qed.

Lemma mock_step_shaped (s : MockRuntime.state) :
  mock_reachable s -> Forall mock_shaped (snd (fst (MockRuntime.step s))).
Proof.
  intros [Hl Hp].
  destruct (Z.lt_ge_cases (MockRuntime.__mockLine s) (MockRuntime.lineCount s - 1))
    as [Hlt | Hge].
  - rewrite mock_step_not_last by assumption. cbn [fst snd].
    constructor; [right; left; reflexivity |].
    apply mock_printLine_shaped. cbn [MockRuntime.sourcePath].
    apply Hp. unfold MockRuntime.lineCount in Hlt.
    destruct (MockRuntime.sourceLines s); [discriminate | lia].
  - rewrite mock_step_last by assumption. cbn [fst snd].
    constructor; [right; right; left; reflexivity | constructor].
Qed.

Lemma mock_continue_shaped (fuel : nat) :
  forall (s s' : MockRuntime.state) evs p n,
    mock_reachable s ->
    MockRuntime.continue fuel s = Some (s', evs, p, n) ->
    Forall mock_shaped evs.
Proof.
  induction fuel as [|fuel IH]; intros s s' evs p n Hs H; [discriminate |].
  cbn [MockRuntime.continue] in H.
  pose proof (mock_step_shaped s Hs) as Hev.
  pose proof (mock_reachable_run_op (fun _ => None) MockRuntime.OpStep s Hs)
    as Hnext.
  cbn [MockRuntime.run_op] in Hnext.
  destruct (MockRuntime.step s) as [[s1 evs1] [[|]| |]];
    cbn [fst snd] in Hev, Hnext.
  - inversion H; subst. exact Hev.
  - destruct (MockRuntime.continue fuel s1) as [[[[s2 evs2] p2] n2]|] eqn:Ec;
      [| discriminate].
    inversion H; subst. apply Forall_app. split; [exact Hev |].
    eapply IH; [exact Hnext | exact Ec].
  - inversion H; subst. exact Hev.
  - inversion H; subst. exact Hev.
Qed.

Lemma mock_run_op_shaped (readFile : string -> option string)
    (o : MockRuntime.op) (s : MockRuntime.state) :
  mock_reachable s ->
  Forall mock_shaped (snd (MockRuntime.run_op readFile o s)).
Proof.
  intros Hs. destruct o as [path e | | l | | |]; cbn [MockRuntime.run_op].
  - unfold MockRuntime.start. destruct (readFile path); cbn [snd].
    + constructor; [left; reflexivity |].
      apply mock_printLine_shaped. discriminate.
    + constructor.
  - constructor.
  - constructor.
  - pose proof (mock_step_shaped s Hs) as Hev.
    destruct (MockRuntime.step s) as [[s1 evs1] p]. exact Hev.
  - constructor.
  - destruct (MockRuntime.continue (MockRuntime.calls s) s)
      as [[[[s2 evs2] p2] n2]|] eqn:Ec; [| constructor].
    cbn [snd]. eapply mock_continue_shaped; [exact Hs | exact Ec].
Qed.

Lemma mock_run_ops_shaped (readFile : string -> option string)
    (os : list MockRuntime.op) :
  forall s, mock_reachable s ->
            Forall mock_shaped (snd (MockRuntime.run_ops readFile os s)).
Proof.
  induction os as [|o os IH]; intros s Hs; [constructor |].
  cbn [MockRuntime.run_ops].
  pose proof (mock_run_op_shaped readFile o s Hs) as Ho.
  pose proof (mock_reachable_run_op readFile o s Hs) as Hr.
  destruct (MockRuntime.run_op readFile o s) as [s1 evs1].
  specialize (IH s1 Hr).
  destruct (MockRuntime.run_ops readFile os s1) as [s2 evs2].
  cbn [snd] in *. apply Forall_app. split; assumption.
Qed.

(** X18. Whatever the session has the mock runtime do from its initial
    state, the listeners of [setupEvents] turn every notification it
    raises into exactly one event of the protocol: no listener throws, and
    none is missing. An 'output' becomes an output event whose source is
    made from the path of the program and whose line is the runtime's line
    in the client's numbering. *)
Theorem mock_notifications_become_events :
  forall (readFile : string -> option string)
         (basename convertDebuggerPathToClient : string -> string)
         (c : DebugSession.Coordinates) (os : list MockRuntime.op),
    Forall
      (fun e : Event =>
         (exists d,
             DebugSession.listeners basename convertDebuggerPathToClient c e
             = DebugSession.Response [d])
         /\ (named "output" e = true ->
             exists text path l o col,
               e = ev "output" [text; JS.VStr path; JS.VNum l; JS.VUndefined]
               /\ DebugSession.listeners basename convertDebuggerPathToClient
                    c e
                  = DebugSession.Response
                      [DebugSession.OutputEvent o
                         (DebugSession.createSource basename
                            convertDebuggerPathToClient path)
                         (DebugSession.CNum
                            (DebugSession.convertDebuggerLineToClient c l))
                         col]))
      (snd (MockRuntime.run_ops readFile os MockRuntime.init)).
Proof.
  intros readFile basename convertDebuggerPathToClient c os.
  eapply Forall_impl;
    [exact (mock_run_ops_shaped readFile os MockRuntime.init
              mock_reachable_init) |].
  intros e [-> | [-> | [-> | (text & path & l & t & Ht & ->)]]].
  - split; [eexists; reflexivity | intros H; discriminate H].
  - split; [eexists; reflexivity | intros H; discriminate H].
  - split; [eexists; reflexivity | intros H; discriminate H].
  - assert (Hl : DebugSession.listeners basename convertDebuggerPathToClient c
                   (ev "output"
                      [text; JS.VStr path; JS.VNum l; JS.VUndefined])
                 = DebugSession.Response
                     [DebugSession.OutputEvent
                        (t ++ String "010"%char EmptyString)
                        (DebugSession.createSource basename
                           convertDebuggerPathToClient path)
                        (DebugSession.CNum
                           (DebugSession.convertDebuggerLineToClient c l))
                        (DebugSession.convertValue
                           (DebugSession.debuggerColumnsStartAt1 c)
                           (DebugSession.clientColumnsStartAt1 c)
                           JS.VUndefined)]).
    { unfold DebugSession.listeners, ev.
      cbn [fst snd DebugSession.toString String.eqb Ascii.eqb Bool.eqb
           DebugSession.argument nth].
      rewrite Ht. reflexivity. }
    split.
    + eexists. exact Hl.
    + intros _. exists text, path, l. do 2 eexists.
      split; [reflexivity | exact Hl].
Qed.

Section ClientNotifications.

Variable Backend : Type.
Variable serve : Http.Request -> Backend -> Http.outcome * Backend.
Variable readFile : string -> option string.










End ClientNotifications.



